(** * Deribit-Options: the valuation helpers and the tables built on them

    A shallow embedding of [calculate_greeks] and [calculate_iv_from_price]
    of [data_utils.py] together with the parts of the Python runtime they
    rely on ([str.split], [float], [round], [datetime.strptime],
    [datetime] subtraction), of [get_historical_index_price] of
    [deribit_api.py] and of the four table builders of [main.py], and the
    properties of these functions.

    Modelling conventions.
    - Strings are sequences of ASCII characters.
    - A Python [float] is idealised: a finite value is an exact rational,
      kept in lowest terms, with unbounded range and precision; the two
      infinities and NaN are separate values; signed zeros are not told
      apart.
    - The numbers handed to the two functions (spot price, [iv], option
      price) and the numbers in the answers of the exchange are floats.
      Python takes an [int] in their place; arithmetic on an [int] too
      large for a float raises [OverflowError], which no float does.
      Such arguments are outside the embedding.
    - A Python call either returns a value or raises: [outcome].
    - The Black-Scholes routines imported from [py_vollib] are not part of
      the repository; they are parameters of the development, and so is
      [round] on the numbers they return.
    - [datetime.utcnow()] reads the clock; the reading is an explicit
      argument [utcnow] of the embedded functions.
    - The functions of [main.py] talk to the exchange and read the clock:
      they are computations on a state of the world, with the requests of
      [DeribitClient], the clock and [time.sleep] as parameters. *)

From Stdlib Require Import String Ascii List ZArith QArith Qround Qabs Bool Lia Lqa.
From Stdlib Require Qcanon.
From Stdlib Require Import Permutation Sorted.
Import ListNotations.

Open Scope string_scope.
Open Scope Z_scope.

(** ** The Python runtime *)

Module Py.

(** Exceptions: the class and [str(e)].  The built-in messages are kept
    without the [repr] of the offending argument. *)
Inductive exn : Type :=
| ValueError (msg : string)
| OtherError (cls msg : string).

Definition str_of_exn (e : exn) : string :=
  match e with
  | ValueError msg => msg
  | OtherError _ msg => msg
  end.

(** [type(e).__name__] *)
Definition exn_class (e : exn) : string :=
  match e with
  | ValueError _ => "ValueError"
  | OtherError cls _ => cls
  end.

Inductive outcome (A : Type) : Type :=
| Return (a : A)
| Raise (e : exn).
Arguments Return {A} a.
Arguments Raise {A} e.

Definition bind {A B} (m : outcome A) (k : A -> outcome B) : outcome B :=
  match m with
  | Return a => k a
  | Raise e => Raise e
  end.

(** [try: m except Exception as e: h e] *)
Definition try_except {A} (m : outcome A) (h : exn -> outcome A) : outcome A :=
  match m with
  | Return a => Return a
  | Raise e => h e
  end.

Declare Scope py_scope.
Delimit Scope py_scope with py.
Notation "x <- m ;; k" := (bind m (fun x => k))
  (at level 61, m at next level, right associativity) : py_scope.

(** *** Characters *)

Definition code (c : ascii) : Z := Z.of_N (N_of_ascii c).

Definition is_digit (c : ascii) : bool := (48 <=? code c) && (code c <=? 57).

Definition digit_val (c : ascii) : option Z :=
  if is_digit c then Some (code c - 48) else None.

(** [Py_ISSPACE]: the C-locale white space. *)
Definition is_c_space (c : ascii) : bool :=
  ((9 <=? code c) && (code c <=? 13)) || (code c =? 32).

(** [str.isspace] on ASCII, which is what [\s] matches in a [str] pattern:
    the C white space and the separators FS, GS, RS, US. *)
Definition is_space (c : ascii) : bool :=
  is_c_space c || ((28 <=? code c) && (code c <=? 31)).

(** [Py_TOLOWER] *)
Definition to_lower (c : ascii) : ascii :=
  if (65 <=? code c) && (code c <=? 90)
  then ascii_of_N (N_of_ascii c + 32)
  else c.

Fixpoint lower (s : string) : string :=
  match s with
  | EmptyString => EmptyString
  | String c r => String (to_lower c) (lower r)
  end.

(** *** [str.split(sep)] for a one-character separator *)

Fixpoint split (sep : ascii) (s : string) : list string :=
  match s with
  | EmptyString => [EmptyString]
  | String c r =>
      if Ascii.eqb c sep then EmptyString :: split sep r
      else match split sep r with
           | h :: t => String c h :: t
           | [] => [String c EmptyString]
           end
  end.

(** [sub in s] for a one-character [sub] *)
Fixpoint contains (c : ascii) (s : string) : bool :=
  match s with
  | EmptyString => false
  | String a r => Ascii.eqb a c || contains c r
  end.

(** *** Floats *)

Inductive pyfloat : Type :=
| Finite (q : Q)
| Infinity (negative : bool)
| NaN.

Definition of_Z (z : Z) : pyfloat := Finite (z # 1).

(** [bool(x)]: every float but zero is true, NaN included. *)
Definition truthy (x : pyfloat) : bool :=
  match x with
  | Finite q => negb (Qeq_bool q 0)
  | _ => true
  end.

(** [x <= 0] *)
Definition le0 (x : pyfloat) : bool :=
  match x with
  | Finite q => Qle_bool q 0
  | Infinity negative => negative
  | NaN => false
  end.

Definition is_neg (q : Q) : bool := negb (Qle_bool 0 q).

(** [x * y] *)
Definition fmul (x y : pyfloat) : pyfloat :=
  match x, y with
  | NaN, _ | _, NaN => NaN
  | Finite a, Finite b => Finite (Qred (a * b))
  | Infinity n, Finite b | Finite b, Infinity n =>
      if Qeq_bool b 0 then NaN else Infinity (xorb n (is_neg b))
  | Infinity n, Infinity m => Infinity (xorb n m)
  end.

(** [x / c] for a float [x] and a positive literal [c]: it cannot raise.
    The quotient is exact; in double precision a quotient too small to
    represent is zero. *)
Definition fdiv_lit (x : pyfloat) (c : positive) : pyfloat :=
  match x with
  | Finite a => Finite (Qred (a / (Zpos c # 1)))
  | other => other
  end.

(** Nearest integer, ties to the even one. *)
Definition round_half_even (q : Q) : Z :=
  let f := Qfloor q in
  let d := (q - (f # 1))%Q in
  match (d ?= 1 # 2)%Q with
  | Lt => f
  | Gt => f + 1
  | Eq => if Z.even f then f else f + 1
  end.

(** [round(x, ndigits)] for a Python [float] [x] and [ndigits >= 0], on
    the exact value: the closest multiple of [10^-ndigits], ties to even;
    non-finite values are returned unchanged.  It stands for [round] in
    the sample calls; the functions take [round] as a parameter. *)
Definition round (x : pyfloat) (ndigits : nat) : pyfloat :=
  match x with
  | Finite q =>
      let scale := 10 ^ Z.of_nat ndigits in
      Finite (Qred ((round_half_even (q * (scale # 1)) # 1) / (scale # 1)))
  | other => other
  end.

(** *** [float(str)] *)

Fixpoint lstrip (s : string) : string :=
  match s with
  | String c r => if is_c_space c then lstrip r else s
  | EmptyString => EmptyString
  end.

Fixpoint rstrip (s : string) : string :=
  match s with
  | EmptyString => EmptyString
  | String c r =>
      match rstrip r with
      | EmptyString => if is_c_space c then EmptyString else String c EmptyString
      | r' => String c r'
      end
  end.

(** [_Py_string_to_number_with_underscores]: an underscore must stand
    between two digits; the underscores are dropped. *)
Fixpoint drop_underscores (prev : ascii) (s : string) : option string :=
  match s with
  | EmptyString => if Ascii.eqb prev "_" then None else Some EmptyString
  | String c r =>
      if Ascii.eqb c "_" then
        if is_digit prev then drop_underscores c r else None
      else if Ascii.eqb prev "_" && negb (is_digit c) then None
      else option_map (String c) (drop_underscores c r)
  end.

(** A maximal run of digits: its value, its length, and what follows. *)
Fixpoint digits_from (acc : Z) (len : nat) (s : string) : Z * nat * string :=
  match s with
  | String c r =>
      match digit_val c with
      | Some d => digits_from (10 * acc + d) (S len) r
      | None => (acc, len, s)
      end
  | EmptyString => (acc, len, s)
  end.

Definition digits (s : string) : Z * nat * string := digits_from 0 O s.

(** An optional sign: whether it is a minus, and what follows. *)
Definition sign_of (s : string) : bool * string :=
  match s with
  | String "-" r => (true, r)
  | String "+" r => (false, r)
  | _ => (false, s)
  end.

(** The exponent part of [_Py_dg_strtod]: [e], an optional sign and at
    least one digit; anything else leaves the input where it was. *)
Definition exponent_of (s : string) : Z * string :=
  match s with
  | String c r =>
      if Ascii.eqb (to_lower c) "e" then
        let '(neg, r1) := sign_of r in
        let '(v, n, r2) := digits r1 in
        match n with
        | O => (0, s)
        | _ => (if neg then - v else v, r2)
        end
      else (0, s)
  | EmptyString => (0, s)
  end.

Definition scale10 (m e : Z) : Q :=
  if 0 <=? e then (m * 10 ^ e) # 1
  else Qred (m # Z.to_pos (10 ^ (- e))).

(** [_Py_dg_strtod]: sign, digits, an optional point and digits (one digit
    at least in all), an optional exponent.  [None] when no number starts
    the string. *)
Definition strtod (s : string) : option (pyfloat * string) :=
  let '(neg, s1) := sign_of s in
  let '(ip, n1, s2) := digits s1 in
  let '(fp, n2, s3) :=
    match s2 with
    | String "." r => digits r
    | _ => (0, O, s2)
    end in
  match (n1 + n2)%nat with
  | O => None
  | _ =>
      let '(e, s4) := exponent_of s3 in
      let m := ip * 10 ^ Z.of_nat n2 + fp in
      let q := scale10 (if neg then - m else m) (e - Z.of_nat n2) in
      Some (Finite (Qred q), s4)
  end.

(** [case_insensitive_match]: [t] is lower case. *)
Fixpoint ci_prefix (t s : string) : option string :=
  match t with
  | EmptyString => Some s
  | String a t' =>
      match s with
      | String c r => if Ascii.eqb (to_lower c) a then ci_prefix t' r else None
      | EmptyString => None
      end
  end.

(** [_Py_parse_inf_or_nan] *)
Definition parse_inf_or_nan (s : string) : option (pyfloat * string) :=
  let '(neg, s1) := sign_of s in
  match ci_prefix "inf" s1 with
  | Some r =>
      match ci_prefix "inity" r with
      | Some r' => Some (Infinity neg, r')
      | None => Some (Infinity neg, r)
      end
  | None =>
      match ci_prefix "nan" s1 with
      | Some r => Some (NaN, r)
      | None => None
      end
  end.

Definition float_error : exn := ValueError "could not convert string to float".

Definition whole (p : option (pyfloat * string)) : outcome pyfloat :=
  match p with
  | Some (x, EmptyString) => Return x
  | _ => Raise float_error
  end.

(** [float(s)] for a [str] argument. *)
Definition float (s : string) : outcome pyfloat :=
  match (if contains "_" s then drop_underscores "000" s else Some s) with
  | None => Raise float_error
  | Some s1 =>
      let s2 := rstrip (lstrip s1) in
      match strtod s2 with
      | Some p => whole (Some p)
      | None => whole (parse_inf_or_nan s2)
      end
  end.

End Py.

(** ** [datetime] *)

Module Datetime.
Import Py.

(** A naive [datetime]. *)
Record datetime : Type := mk_datetime {
  year : Z; month : Z; day : Z;
  hour : Z; minute : Z; second : Z; microsecond : Z
}.

Definition _is_leap (y : Z) : bool :=
  (y mod 4 =? 0) && (negb (y mod 100 =? 0) || (y mod 400 =? 0)).

Definition _DAYS_IN_MONTH : list Z :=
  [-1; 31; 28; 31; 30; 31; 30; 31; 31; 30; 31; 30; 31].

Definition _DAYS_BEFORE_MONTH : list Z :=
  [-1; 0; 31; 59; 90; 120; 151; 181; 212; 243; 273; 304; 334].

Definition _days_before_year (y : Z) : Z :=
  let y1 := y - 1 in y1 * 365 + y1 / 4 - y1 / 100 + y1 / 400.

Definition _days_in_month (y m : Z) : Z :=
  if (m =? 2) && _is_leap y then 29
  else nth (Z.to_nat m) _DAYS_IN_MONTH 0.

Definition _days_before_month (y m : Z) : Z :=
  nth (Z.to_nat m) _DAYS_BEFORE_MONTH 0
  + (if (2 <? m) && _is_leap y then 1 else 0).

Definition _ymd2ord (y m d : Z) : Z :=
  _days_before_year y + _days_before_month y m + d.

Definition toordinal (t : datetime) : Z := _ymd2ord (year t) (month t) (day t).

(** [(a - b)] as a [timedelta], in microseconds. *)
Definition sub_micros (a b : datetime) : Z :=
  let days := toordinal a - toordinal b in
  let secs1 := second a + minute a * 60 + hour a * 3600 in
  let secs2 := second b + minute b * 60 + hour b * 3600 in
  (days * 86400 + (secs1 - secs2)) * 1000000 + (microsecond a - microsecond b).

(** [(a - b).total_seconds()] *)
Definition total_seconds (a b : datetime) : pyfloat :=
  Finite (Qred (sub_micros a b # 1000000)).

(** *** [datetime.strptime]

    [_strptime] turns the format into a regular expression, one group per
    directive, compiled with [IGNORECASE], and matches it at the start of
    the string with the backtracking matcher of [re]: alternatives are
    tried in the order they are written, and the first way to match the
    whole pattern wins.  The directives below are the ones the two formats
    of [data_utils.py] use; the month names are those of the C locale. *)

Inductive directive : Type :=
| Dd            (* %d  3[0-1]|[1-2]\d|0[1-9]|[1-9]| [1-9] *)
| Db            (* %b  jan|feb|...|dec *)
| Dy            (* %y  \d\d *)
| DY            (* %Y  \d\d\d\d *)
| Dm            (* %m  1[0-2]|0[1-9]|[1-9] *)
| DH            (* %H  2[0-3]|[0-1]\d|\d *)
| DM            (* %M  [0-5]\d|\d *)
| DS            (* %S  6[0-1]|[0-5]\d|\d *)
| Dspace        (* white space in the format: \s+ *)
| Dlit (c : ascii).

Definition digit_in (lo hi : Z) (c : ascii) : option Z :=
  match digit_val c with
  | Some v => if (lo <=? v) && (v <=? hi) then Some v else None
  | None => None
  end.

(** One digit of [lo..hi]. *)
Definition one (lo hi : Z) (s : string) : list (Z * string) :=
  match s with
  | String a r =>
      match digit_in lo hi a with
      | Some x => [(x, r)]
      | None => []
      end
  | EmptyString => []
  end.

(** A digit of [lo1..hi1] and a digit of [lo2..hi2]. *)
Definition two (lo1 hi1 lo2 hi2 : Z) (s : string) : list (Z * string) :=
  match s with
  | String a r =>
      match digit_in lo1 hi1 a with
      | Some x => map (fun '(y, r') => (10 * x + y, r')) (one lo2 hi2 r)
      | None => []
      end
  | EmptyString => []
  end.

Definition four_digits (s : string) : list (Z * string) :=
  flat_map (fun '(hi, r) => map (fun '(lo, r') => (100 * hi + lo, r'))
                              (two 0 9 0 9 r))
           (two 0 9 0 9 s).

(** A space and a digit of [1..9]: [int] skips the space. *)
Definition space_digit (s : string) : list (Z * string) :=
  match s with
  | String a r => if Ascii.eqb a " " then one 1 9 r else []
  | EmptyString => []
  end.

Definition a_month : list string :=
  ["jan"; "feb"; "mar"; "apr"; "may"; "jun";
   "jul"; "aug"; "sep"; "oct"; "nov"; "dec"].

(** The alternatives of [%b], each with [a_month.index] of its name. *)
Fixpoint month_alts (names : list string) (idx : Z) (s : string)
  : list (Z * string) :=
  match names with
  | [] => []
  | name :: names' =>
      match ci_prefix name s with
      | Some r => (idx, r) :: month_alts names' (idx + 1) s
      | None => month_alts names' (idx + 1) s
      end
  end.

(** [\s+], greedy: the longest run first, then shorter ones. *)
Fixpoint spaces (s : string) : list (Z * string) :=
  match s with
  | String a r => if is_space a then spaces r ++ [(0, r)] else []
  | EmptyString => []
  end.

Definition literal (c : ascii) (s : string) : list (Z * string) :=
  match s with
  | String a r => if Ascii.eqb (to_lower a) (to_lower c) then [(0, r)] else []
  | EmptyString => []
  end.

(** The ways a directive matches a prefix of [s], best first: the value
    read and the rest of the string. *)
Definition alts (d : directive) (s : string) : list (Z * string) :=
  match d with
  | Dd => two 3 3 0 1 s ++ two 1 2 0 9 s ++ two 0 0 1 9 s ++ one 1 9 s
          ++ space_digit s
  | Db => month_alts a_month 1 s
  | Dy => two 0 9 0 9 s
  | DY => four_digits s
  | Dm => two 1 1 0 2 s ++ two 0 0 1 9 s ++ one 1 9 s
  | DH => two 2 2 0 3 s ++ two 0 1 0 9 s ++ one 0 9 s
  | DM => two 0 5 0 9 s ++ one 0 9 s
  | DS => two 6 6 0 1 s ++ two 0 5 0 9 s ++ one 0 9 s
  | Dspace => spaces s
  | Dlit c => literal c s
  end.

(** What [_strptime] collects; the defaults are those of its locals. *)
Definition initial : datetime := mk_datetime 1900 1 1 0 0 0 0.

Definition set_field (d : directive) (v : Z) (t : datetime) : datetime :=
  match d with
  | Dd => mk_datetime (year t) (month t) v (hour t) (minute t) (second t) (microsecond t)
  | Db | Dm =>
      mk_datetime (year t) v (day t) (hour t) (minute t) (second t) (microsecond t)
  | Dy =>
      (* 00..68 is 2000..2068, 69..99 is 1969..1999 *)
      mk_datetime (if v <=? 68 then v + 2000 else v + 1900)
                  (month t) (day t) (hour t) (minute t) (second t) (microsecond t)
  | DY => mk_datetime v (month t) (day t) (hour t) (minute t) (second t) (microsecond t)
  | DH => mk_datetime (year t) (month t) (day t) v (minute t) (second t) (microsecond t)
  | DM => mk_datetime (year t) (month t) (day t) (hour t) v (second t) (microsecond t)
  | DS => mk_datetime (year t) (month t) (day t) (hour t) (minute t) v (microsecond t)
  | Dspace | Dlit _ => t
  end.

Fixpoint first_success {A B} (k : A -> option B) (l : list A) : option B :=
  match l with
  | [] => None
  | a :: l' =>
      match k a with
      | Some b => Some b
      | None => first_success k l'
      end
  end.

(** [format_regex.match(data_string)]: the fields and the unread rest. *)
Fixpoint run (ds : list directive) (s : string) (t : datetime)
  : option (datetime * string) :=
  match ds with
  | [] => Some (t, s)
  | d :: ds' =>
      first_success (fun vr => run ds' (snd vr) (set_field d (fst vr) t))
                    (alts d s)
  end.

(** Every way to match the whole pattern, best first; [run] is its
    head. *)
Fixpoint paths (ds : list directive) (s : string) (t : datetime)
  : list (datetime * string) :=
  match ds with
  | [] => [(t, s)]
  | d :: ds' =>
      flat_map (fun vr => paths ds' (snd vr) (set_field d (fst vr) t))
               (alts d s)
  end.

(** A match that leaves [r] unread in [s] leaves [r ++ sfx] unread in
    [s ++ sfx]. *)
Definition keep (sfx : string) (vr : Z * string) : Z * string :=
  (fst vr, snd vr ++ sfx).

Definition keep_path (sfx : string) (p : datetime * string)
  : datetime * string :=
  (fst p, snd p ++ sfx).

(** A directive is blind to [sfx] when appending [sfx] to the input adds
    no way to match and removes none. *)
Definition blind_to (sfx : string) (d : directive) : Prop :=
  forall s, alts d (s ++ sfx) = map (keep sfx) (alts d s).

Definition is_time_directive (d : directive) : bool :=
  match d with
  | DH | DM | DS => true
  | _ => false
  end.

(** The range checks of the [date] and [datetime] constructors. *)
Definition check_fields (t : datetime) : outcome datetime :=
  if negb ((1 <=? year t) && (year t <=? 9999)) then
    Raise (ValueError "year is out of range")
  else if negb ((1 <=? day t) && (day t <=? _days_in_month (year t) (month t))) then
    Raise (ValueError "day is out of range for month")
  else if negb (second t <=? 59) then
    Raise (ValueError "second must be in 0..59")
  else Return t.

(** [datetime.strptime(data_string, format)], the format given as its
    directives. *)
Definition strptime (data_string : string) (format : list directive)
  : outcome datetime :=
  match run format data_string initial with
  | None => Raise (ValueError "time data does not match format")
  | Some (t, EmptyString) => check_fields t
  | Some (_, String _ _) => Raise (ValueError "unconverted data remains")
  end.

(** ["%d%b%y"] *)
Definition fmt_dby : list directive := [Dd; Db; Dy].
(** [" %H:%M:%S"], the tail shared by the two long formats *)
Definition fmt_time : list directive :=
  [Dspace; DH; Dlit ":"; DM; Dlit ":"; DS].
(** ["%d%b%y %H:%M:%S"] *)
Definition fmt_expiry : list directive := fmt_dby ++ fmt_time.
(** ["%Y-%m-%d"] *)
Definition fmt_date : list directive := [DY; Dlit "-"; Dm; Dlit "-"; Dd].
(** ["%Y-%m-%d %H:%M:%S"] *)
Definition fmt_datetime : list directive := fmt_date ++ fmt_time.

(** The date of [t] at the settlement time, 08:00:00. *)
Definition at_settlement (t : datetime) : datetime :=
  mk_datetime (year t) (month t) (day t) 8 0 0 0.

End Datetime.

(** ** [data_utils.py] *)

Module DataUtils.
Import Py Datetime.
Local Open Scope py_scope.

(** The flag handed to [py_vollib]: ['c'] or ['p']. *)
Inductive option_type : Type := call | put.

(** The dictionary [calculate_greeks] returns: the four Greeks, and the
    keys ["error"] and ["expired"] when they are present. *)
Record greeks : Type := mk_greeks {
  key_delta : pyfloat;
  key_gamma : pyfloat;
  key_vega : pyfloat;
  key_theta : pyfloat;
  key_error : option string;
  key_expired : option bool
}.

Definition zero : pyfloat := of_Z 0.

(** [{"delta": 0, "gamma": 0, "vega": 0, "theta": 0, "error": msg}] *)
Definition zeroed_error (msg : string) : greeks :=
  mk_greeks zero zero zero zero (Some msg) None.

(** [{"delta": 0, "gamma": 0, "vega": 0, "theta": 0, "expired": True}] *)
Definition zeroed_expired : greeks :=
  mk_greeks zero zero zero zero None (Some true).

(** What the [try] block that computes the time to expiry leaves behind
    when it does not raise: an early return, or [t]. *)
Inductive expiry_state : Type :=
| Expired
| Live (t : pyfloat).

(** [365.25 * 24 * 3600] *)
Definition seconds_per_year : positive := 31557600.

(** The risk-free rate [r = 0.05]. *)
Definition r : pyfloat := Finite (1 # 20).

(** Lines 30-36 and 82-88: the observation instant. *)
Definition now_of (snapshot_date_str : option string) (utcnow : datetime)
  : outcome datetime :=
  match snapshot_date_str with
  | Some (String a s as str) =>
      if contains " " str then strptime str fmt_datetime
      else strptime str fmt_date
  | Some EmptyString | None => Return utcnow
  end.

(** Lines 28-43 and 80-95, the body of the [try] block, the same in both
    functions. *)
Definition time_to_expiry (expiry_str : string)
    (snapshot_date_str : option string) (utcnow : datetime)
  : outcome expiry_state :=
  expiry_dt <- strptime expiry_str fmt_expiry ;;
  now <- now_of snapshot_date_str utcnow ;;
  let time_diff := total_seconds expiry_dt now in
  if le0 time_diff then Return Expired
  else Return (Live (fdiv_lit time_diff seconds_per_year)).

(** [not iv or iv <= 0] *)
Definition invalid_iv (iv : option pyfloat) : bool :=
  match iv with
  | None => true
  | Some x => negb (truthy x) || le0 x
  end.

Section Valuation.

(** [round(x, ndigits)] on a number the library returned.  The built-in
    hands over to the [__round__] of the value's type, and that type is
    the library's ([py_vollib] computes with [numpy]); [Py.round] is what
    it does on a Python [float]. *)
Variable round : pyfloat -> nat -> pyfloat.

(** [py_vollib.black_scholes.greeks.numerical]: [delta], [gamma], [vega],
    [theta], each called as [f(flag, S, K, t, r, sigma)]. *)
Variables delta gamma vega theta :
  option_type -> pyfloat -> pyfloat -> pyfloat -> pyfloat -> pyfloat ->
  outcome pyfloat.

(** [py_vollib.black_scholes.implied_volatility.implied_volatility],
    called as [implied_volatility(price, S, K, t, r, flag)]. *)
Variable implied_volatility :
  pyfloat -> pyfloat -> pyfloat -> pyfloat -> pyfloat -> option_type ->
  outcome pyfloat.

(** Lines 56-62: the dictionary of the four rounded Greeks, its entries
    evaluated in the order they are written. *)
Definition rounded_greeks (option_type : option_type)
    (spot_price strike t sigma : pyfloat) : outcome greeks :=
  d <- delta option_type spot_price strike t r sigma ;;
  g <- gamma option_type spot_price strike t r sigma ;;
  v <- vega option_type spot_price strike t r sigma ;;
  th <- theta option_type spot_price strike t r sigma ;;
  Return (mk_greeks (round d 4) (round g 6) (round v 4) (round th 4) None None).

(** Lines 48-64: what [calculate_greeks] does once [t] is known.  Line
    52, [sigma = iv / 100], is outside the [try]; on a float it cannot
    raise. *)
Definition greeks_at (option_type : option_type)
    (spot_price strike t : pyfloat) (iv : option pyfloat) : outcome greeks :=
  match iv with
  | None => Return (zeroed_error "Invalid IV")
  | Some x =>
      if invalid_iv (Some x) then Return (zeroed_error "Invalid IV")
      else
        let sigma := fdiv_lit x 100 in
        try_except
          (rounded_greeks option_type spot_price strike t sigma)
          (fun e => Return (zeroed_error
                              ("Greeks calc error: " ++ str_of_exn e)))
  end.

Definition calculate_greeks (instrument : string) (spot_price : pyfloat)
    (iv : option pyfloat) (snapshot_date_str : option string)
    (utcnow : datetime) : outcome greeks :=
  let parts := split "-" instrument in
  if negb (Nat.eqb (List.length parts) 4) then
    Return (zeroed_error "Invalid instrument format")
  else
    strike <- float (nth 2 parts "") ;;
    let option_type := if String.eqb (nth 3 parts "") "C" then call else put in
    let expiry_str := nth 1 parts "" ++ " 08:00:00" in
    match time_to_expiry expiry_str snapshot_date_str utcnow with
    | Raise e => Return (zeroed_error ("Date parse error: " ++ str_of_exn e))
    | Return Expired => Return zeroed_expired
    | Return (Live t) => greeks_at option_type spot_price strike t iv
    end.

(** Lines 100-110: what [calculate_iv_from_price] does once [t] is
    known.  Line 103, [option_price * spot_price], is outside the [try];
    on floats it cannot raise. *)
Definition implied_vol_at (option_type : option_type)
    (spot_price strike t option_price : pyfloat) : outcome (option pyfloat) :=
  let option_price_usd := fmul option_price spot_price in
  try_except
    (iv <- implied_volatility option_price_usd spot_price strike t r
                              option_type ;;
     Return (Some (fmul iv (of_Z 100))))
    (fun e => Return None).

Definition calculate_iv_from_price (instrument : string)
    (spot_price option_price : pyfloat) (snapshot_date_str : option string)
    (utcnow : datetime) : outcome (option pyfloat) :=
  let parts := split "-" instrument in
  if negb (Nat.eqb (List.length parts) 4) then Return None
  else
    strike <- float (nth 2 parts "") ;;
    let option_type := if String.eqb (nth 3 parts "") "C" then call else put in
    let expiry_str := nth 1 parts "" ++ " 08:00:00" in
    match time_to_expiry expiry_str snapshot_date_str utcnow with
    | Raise e => Return None
    | Return Expired => Return None
    | Return (Live t) =>
        implied_vol_at option_type spot_price strike t option_price
    end.

End Valuation.

(** *** Where the four routines come from

    The package [py_vollib.black_scholes.greeks] has two modules with the
    same four routines: [analytical], the closed-form Greeks, and
    [numerical], differences of the option price over small steps of
    the argument.  Line 1 imports [delta], [gamma], [vega] and [theta]
    from [numerical]. *)
Definition greek : Type :=
  option_type -> pyfloat -> pyfloat -> pyfloat -> pyfloat -> pyfloat ->
  outcome pyfloat.

Record greeks_module : Type := mk_greeks_module {
  mod_delta : greek;
  mod_gamma : greek;
  mod_vega : greek;
  mod_theta : greek
}.

Record greeks_package : Type := mk_greeks_package {
  analytical : greeks_module;
  numerical : greeks_module
}.

(** [calculate_greeks] with the four names bound as line 1 binds them. *)
Definition calculate_greeks_imported (round : pyfloat -> nat -> pyfloat)
    (package : greeks_package)
  : string -> pyfloat -> option pyfloat -> option string -> datetime ->
    outcome greeks :=
  calculate_greeks round
    (mod_delta (numerical package)) (mod_gamma (numerical package))
    (mod_vega (numerical package)) (mod_theta (numerical package)).

(** *** The instrument parser

    Lines 18-28 (and 70-80) decode the instrument name; no function of
    the source isolates them.  [parse_instrument] is that prefix on its
    own: what it leaves in [strike], [option_type] and [expiry_dt], or the
    way it ends. *)
Inductive parse_result : Type :=
| InvalidFormat                       (* the field count is not four *)
| StrikeError (e : exn)               (* [float] raised, outside any [try] *)
| DateParseError (e : exn)            (* [strptime] raised, inside the [try] *)
| Parsed (strike : pyfloat) (ty : option_type) (expiry_dt : datetime).

Definition parse_instrument (instrument : string) : parse_result :=
  let parts := split "-" instrument in
  if negb (Nat.eqb (List.length parts) 4) then InvalidFormat
  else
    match float (nth 2 parts "") with
    | Raise e => StrikeError e
    | Return strike =>
        let option_type :=
          if String.eqb (nth 3 parts "") "C" then call else put in
        let expiry_str := nth 1 parts "" ++ " 08:00:00" in
        match strptime expiry_str fmt_expiry with
        | Raise e => DateParseError e
        | Return expiry_dt => Parsed strike option_type expiry_dt
        end
    end.


(** *** Instrument names as the exchange writes them

    [UNDERLYING-DMMMYY-STRIKE-CLASS]: the day with or without a leading
    zero, the month as three capitals, the year as two digits, the strike
    as decimal digits.  These functions are not in the source; they say
    what a name encodes, to check the parser against. *)

Definition digit_char (d : Z) : ascii := ascii_of_N (Z.to_N (48 + d)).

Fixpoint digits_str (ds : list Z) : string :=
  match ds with
  | [] => EmptyString
  | d :: ds' => String (digit_char d) (digits_str ds')
  end.

Definition is_decimal_digit (d : Z) : Prop := 0 <= d <= 9.

Definition decimal_value (ds : list Z) : Z :=
  fold_left (fun acc d => 10 * acc + d) ds 0.

Definition two_digits (n : Z) : string := digits_str [n / 10; n mod 10].

Definition day_str (pad : bool) (d : Z) : string :=
  if pad || (10 <=? d) then two_digits d else digits_str [d].

Definition MONTHS : list string :=
  ["JAN"; "FEB"; "MAR"; "APR"; "MAY"; "JUN";
   "JUL"; "AUG"; "SEP"; "OCT"; "NOV"; "DEC"].

Definition expiry_name (pad : bool) (y m d : Z) : string :=
  day_str pad d ++ nth (Z.to_nat (m - 1)) MONTHS "" ++ two_digits (y mod 100).

Definition instrument_name (underlying : string) (pad : bool) (y m d : Z)
    (strike_digits : list Z) (class : string) : string :=
  underlying ++ "-" ++ expiry_name pad y m d ++ "-"
  ++ digits_str strike_digits ++ "-" ++ class.

(** *** Sample data

    A stand-in for the library, used to run the two functions on concrete
    inputs: each Greek is a fixed number, and the solver divides the price
    by the spot. *)
Definition sample_greek (value : Q)
  : option_type -> pyfloat -> pyfloat -> pyfloat -> pyfloat -> pyfloat ->
    outcome pyfloat :=
  fun _ _ _ _ _ _ => Return (Finite value).

Definition sample_solver
  : pyfloat -> pyfloat -> pyfloat -> pyfloat -> pyfloat -> option_type ->
    outcome pyfloat :=
  fun price spot _ _ _ _ =>
    match price, spot with
    | Finite a, Finite b =>
        if Qeq_bool b 0 then Raise (OtherError "ZeroDivisionError" "float division by zero")
        else Return (Finite (Qred (a / b)))
    | _, _ => Return NaN
    end.

(** A package whose two modules agree on delta and gamma and differ on
    vega and theta. *)
Definition sample_package : greeks_package :=
  mk_greeks_package
    (mk_greeks_module (sample_greek (123456789 # 1000000000))
                      (sample_greek (3 # 2000000))
                      (sample_greek (12346 # 1000))
                      (sample_greek (-3333 # 100)))
    (mk_greeks_module (sample_greek (123456789 # 1000000000))
                      (sample_greek (3 # 2000000))
                      (sample_greek (1234565 # 100000))
                      (sample_greek (-100 # 3))).

(** 2026-01-01 12:00:00.5 and 2026-06-01 00:00:00 *)
Definition new_year_2026 : datetime := mk_datetime 2026 1 1 12 0 0 500000.
Definition june_2026 : datetime := mk_datetime 2026 6 1 0 0 0 0.

End DataUtils.

(** ** What the library is asked

    Conditions on the arguments the two functions hand to [py_vollib]. *)

Module Domain.
Import Py.

(** A finite float above zero. *)
Definition positive_finite (x : pyfloat) : bool :=
  match x with
  | Finite q => negb (Qle_bool q 0)
  | _ => false
  end.

(** [x < 0] *)
Definition negative (x : pyfloat) : bool :=
  match x with
  | Finite q => is_neg q
  | Infinity sign => sign
  | NaN => false
  end.

End Domain.

(** ** More of the Python runtime: lists and numbers *)

Module PyList.
Import Py.

(** [sum(l)]: from 0, left to right. *)
Definition py_sum (l : list Q) : Q := fold_left Qplus l 0%Q.

(** [l[:stop]]; a negative [stop] counts from the end. *)
Definition slice_to {A} (l : list A) (stop : Z) : list A :=
  if 0 <=? stop then firstn (Z.to_nat stop) l
  else firstn (List.length l - Z.to_nat (- stop)) l.

(** [l[-1]] *)
Definition last_item {A} (l : list A) : outcome A :=
  match rev l with
  | x :: _ => Return x
  | [] => Raise (OtherError "IndexError" "list index out of range")
  end.

(** [x / y] on numbers *)
Definition py_div (x y : Q) : outcome Q :=
  if Qeq_bool y 0 then
    Raise (OtherError "ZeroDivisionError" "division by zero")
  else Return (x / y)%Q.

(** [sorted(l, key=key, reverse=True)]: the stable sort, largest key
    first; items with equal keys keep the order they had in [l]. *)
Fixpoint insert_desc {A} (key : A -> Q) (x : A) (l : list A) : list A :=
  match l with
  | [] => [x]
  | y :: l' =>
      if Qle_bool (key y) (key x) then x :: l
      else y :: insert_desc key x l'
  end.

Fixpoint sorted_desc {A} (key : A -> Q) (l : list A) : list A :=
  match l with
  | [] => []
  | x :: l' => insert_desc key x (sorted_desc key l')
  end.

(** A JSON number as a float. *)
Definition to_float (q : Q) : pyfloat := Finite (Qred q).

(** [bool(x)] for a number *)
Definition nonzero (q : Q) : bool := negb (Qeq_bool q 0).

End PyList.

(** ** What the exchange answers

    [deribit_api.py] hands the decoded JSON of the exchange to its
    callers.  Of each object the keys that [main.py] and
    [get_historical_index_price] read are kept, with the types the
    exchange documents: a key read with [d.get] is absent, [null] or a
    number; a key read with [d[...]] is present. *)

Module Exchange.

Inductive jnum : Type :=
| Missing
| Null
| Num (q : Q).

(** [d.get(k)] *)
Definition dict_get (x : jnum) : option Q :=
  match x with
  | Num q => Some q
  | Missing | Null => None
  end.

(** [d.get(k, default)] *)
Definition dict_get_default (x : jnum) (default : Q) : option Q :=
  match x with
  | Num q => Some q
  | Null => None
  | Missing => Some default
  end.

(** The value under ["stats"]. *)
Inductive jstats : Type :=
| StatsMissing
| StatsNull
| Stats (volume_usd volume : jnum).

Record ticker : Type := mk_ticker {
  mark_iv : jnum;
  mark_price : jnum;
  stats : jstats;
  open_interest : jnum;
  best_bid_price : jnum;
  best_ask_price : jnum;
  underlying_price : jnum;
  best_bid_amount : jnum;
  best_ask_amount : jnum;
  last_price : jnum
}.

Record trade : Type := mk_trade {
  trade_instrument_name : string;
  trade_price : Q;
  trade_amount : Q;
  trade_timestamp : Z
}.

Record settlement : Type := mk_settlement {
  settlement_instrument_name : string;
  settlement_timestamp : Z;
  settlement_type : option string;
  settlement_index_price : jnum;
  settlement_mark_price : jnum;
  settlement_session_profit_loss : jnum
}.

End Exchange.

(** ** Calls that change the world

    A computation that may read the clock or talk to the exchange takes
    the state of the world and returns the next one, with a value or an
    exception. *)

Module IO.
Import Py.

Definition io (W A : Type) : Type := W -> outcome A * W.

Definition ret {W A} (a : A) : io W A := fun w => (Return a, w).

Definition iobind {W A B} (m : io W A) (k : A -> io W B) : io W B :=
  fun w =>
    match m w with
    | (Return a, w') => k a w'
    | (Raise e, w') => (Raise e, w')
    end.

(** A pure step that may raise. *)
Definition lift {W A} (o : outcome A) : io W A := fun w => (o, w).

(** A call that cannot raise. *)
Definition perform {W A} (op : W -> A * W) : io W A :=
  fun w => let (a, w') := op w in (Return a, w').

Declare Scope io_scope.
Delimit Scope io_scope with io.
Notation "x <~ m ;; k" := (iobind m (fun x => k))
  (at level 61, m at next level, right associativity) : io_scope.

(** [for x in l: results = body(x, results)] *)
Fixpoint for_each {W A R} (body : A -> R -> io W R) (l : list A) (results : R)
  : io W R :=
  match l with
  | [] => ret results
  | x :: l' => iobind (body x results) (for_each body l')
  end.

End IO.

(** ** [deribit_api.py] *)

Module DeribitApi.
Import Py Exchange IO.
Local Open Scope io_scope.

(** Lines 186-188: the first settlement less than an hour from
    [timestamp] decides. *)
Fixpoint first_within_hour (timestamp : Z) (l : list settlement) : option Q :=
  match l with
  | [] => None
  | s :: l' =>
      if Z.abs (settlement_timestamp s - timestamp) <? 3600000
      then dict_get (settlement_index_price s)
      else first_within_hour timestamp l'
  end.

Section Client.

Variable world : Type.

(** [DeribitClient.get_last_settlements_by_currency(currency,
    search_start_timestamp, count)], a request to the exchange: the list
    under ["settlements"], or [None] when the request failed or the
    answer has no such key (the callers treat the two alike). *)
Variable get_last_settlements_by_currency :
  string -> Z -> Z -> world -> option (list settlement) * world.

Definition get_historical_index_price (currency : string) (timestamp : Z)
  : io world (option Q) :=
  settlements <~ perform (get_last_settlements_by_currency
                            currency timestamp 10) ;;
  match settlements with
  | Some l => ret (first_within_hour timestamp l)
  | None => ret None
  end.

End Client.

End DeribitApi.

(** ** [main.py]

    The functions that build the tables.  Console output and the progress
    bar are left out: the index price that lines 19, 73 and 225 print
    with [:,.2f] is a float, and formatting a float cannot raise.  A
    [DataFrame] built from a list of dictionaries is that list, one record
    per row. *)

Module Main.
Import Py Datetime DataUtils PyList Exchange IO.
Local Open Scope io_scope.

(** *** Instants

    An aware UTC [datetime] is the number of microseconds since
    1970-01-01 00:00:00. *)

(** [date(1970, 1, 1).toordinal()] *)
Definition EPOCH_ORDINAL : Z := 719163.

Definition MICROS_PER_DAY : Z := 86400000000.

(** [datetime.min] and [datetime.max] as instants *)
Definition MIN_INSTANT : Z := (1 - EPOCH_ORDINAL) * MICROS_PER_DAY.
Definition MAX_INSTANT : Z := (3652059 - EPOCH_ORDINAL + 1) * MICROS_PER_DAY - 1.

Definition in_datetime_range (us : Z) : bool :=
  (MIN_INSTANT <=? us) && (us <=? MAX_INSTANT).

(** [datetime.fromtimestamp(ms / 1000, tz=timezone.utc)]; outside the
    years 1 to 9999 it raises ([ValueError] or [OverflowError]). *)
Definition fromtimestamp_utc (ms : Z) : outcome Z :=
  if in_datetime_range (ms * 1000) then Return (ms * 1000)
  else Raise (ValueError "year is out of range").

(** [dt.replace(tzinfo=timezone.utc)] for the naive date-time [dt] *)
Definition instant_of (dt : datetime) : Z :=
  (toordinal dt - EPOCH_ORDINAL) * MICROS_PER_DAY
  + (second dt + minute dt * 60 + hour dt * 3600) * 1000000
  + microsecond dt.

(** [int(dt.timestamp() * 1000)] for the instant [us] *)
Definition timestamp_ms (us : Z) : Z := Z.quot us 1000.

(** [(a - b).days]: whole days, rounded down. *)
Definition days_between (a b : Z) : Z := (a - b) / MICROS_PER_DAY.

(** *** [get_live_trading_data]: the trades of one instrument *)

Record instrument_entry : Type := mk_entry {
  prices : list Q;
  volumes : list Q;
  timestamps : list Z
}.

(** The value [defaultdict] makes for a new key. *)
Definition empty_entry : instrument_entry := mk_entry [] [] [].

(** Lines 103-105: the three [append]s. *)
Definition record_trade (t : trade) (e : instrument_entry) : instrument_entry :=
  mk_entry (prices e ++ [trade_price t])%list
           (volumes e ++ [trade_amount t])%list
           (timestamps e ++ [trade_timestamp t])%list.

(** [instrument_data[inst]] updated for one trade; a new key goes to the
    end, as in a Python [dict]. *)
Fixpoint add_trade (t : trade) (d : list (string * instrument_entry))
  : list (string * instrument_entry) :=
  match d with
  | [] => [(trade_instrument_name t, record_trade t empty_entry)]
  | (k, e) :: d' =>
      if String.eqb k (trade_instrument_name t)
      then (k, record_trade t e) :: d'
      else (k, e) :: add_trade t d'
  end.

(** Lines 95-105 *)
Definition instrument_data (all_trades : list trade)
  : list (string * instrument_entry) :=
  fold_left (fun d t => add_trade t d) all_trades [].

(** [sum(x[1]["volumes"])] *)
Definition total_volume (x : string * instrument_entry) : Q :=
  py_sum (volumes (snd x)).

(** Lines 111-115 *)
Definition instruments_sorted (all_trades : list trade) (limit : Z)
  : list (string * instrument_entry) :=
  slice_to (sorted_desc total_volume (instrument_data all_trades)) limit.

(** Line 124: the volume-weighted average price, or the plain average
    when no volume is positive.  Sums, products and the quotient are
    exact; in double precision each of them is rounded. *)
Definition vwap_of (prices volumes : list Q) : outcome Q :=
  let total_vol := py_sum volumes in
  if negb (Qle_bool total_vol 0) then
    py_div (py_sum (map (fun pv => (fst pv * snd pv)%Q)
                        (combine prices volumes)))
           total_vol
  else py_div (py_sum prices) (inject_Z (Z.of_nat (List.length prices))).

(** [iv and 0 < iv < 500] *)
Definition sane_iv (iv : option pyfloat) : bool :=
  match iv with
  | Some (Finite q) =>
      nonzero q && negb (Qle_bool q 0) && negb (Qle_bool 500 q)
  | _ => false
  end.

Record live_row : Type := mk_live_row {
  live_instrument : string;
  live_vwap : Q;
  live_latest_price : Q;
  live_num_trades : nat;
  live_total_volume : Q;
  live_last_trade : string;
  live_spot_price : Q;
  live_calculated_iv : option pyfloat;
  live_delta : option pyfloat;
  live_gamma : option pyfloat;
  live_vega : option pyfloat;
  live_theta : option pyfloat;
  live_error : option string;
  live_expired : option bool
}.

(** *** The other tables *)

(** [ticker.get('stats', {}).get(key, 0)]; a [null] under ["stats"] has no
    [get]. *)
Definition stats_get (s : jstats) (key : jnum -> jnum -> jnum)
  : outcome (option Q) :=
  match s with
  | StatsMissing => Return (Some 0%Q)
  | StatsNull =>
      Raise (OtherError "AttributeError"
                        "'NoneType' object has no attribute 'get'")
  | Stats volume_usd volume =>
      Return (dict_get_default (key volume_usd volume) 0%Q)
  end.

Record current_row : Type := mk_current_row {
  cur_instrument : string;
  cur_mark_price : option Q;
  cur_bid : option Q;
  cur_ask : option Q;
  cur_volume_usd : option Q;
  cur_open_interest : option Q;
  cur_iv : option Q;
  cur_spot_price : Q;
  cur_greeks : greeks              (* [**greeks] *)
}.

Record snapshot_row : Type := mk_snapshot_row {
  snap_instrument : string;
  snap_expiry : option string;
  snap_strike : option string;
  snap_type : option string;
  snap_mark_price : option Q;
  snap_last_price : option Q;
  snap_bid : option Q;
  snap_ask : option Q;
  snap_bid_size : option Q;
  snap_ask_size : option Q;
  snap_volume : option Q;
  snap_volume_usd : option Q;
  snap_open_interest : option Q;
  snap_iv : option Q;
  snap_spot_price : Q;
  snap_underlying_price : option Q;
  snap_greeks : greeks             (* [**greeks] *)
}.

Record settlement_row : Type := mk_settlement_row {
  srow_instrument : string;
  srow_settlement_date : string;
  srow_settlement_time : string;
  srow_settlement_type : option string;
  srow_index_price : option Q;
  srow_mark_price : option Q;
  srow_session_profit_loss : option Q
}.

(** [if date_str:] *)
Definition given (date_str : option string) : option string :=
  match date_str with
  | Some (String _ _ as s) => Some s
  | Some EmptyString | None => None
  end.

(** Lines 160-162: 08:00:00 UTC of the day, in milliseconds. *)
Definition settlement_search_start (date_str : string) : outcome Z :=
  bind (strptime date_str fmt_date) (fun dt =>
  let dt := mk_datetime (year dt) (month dt) (day dt) 8 0 0 (microsecond dt) in
  Return (timestamp_ms (instant_of dt))).

(** Lines 184-193: whether the settlement at [ms] passes the filter on
    the day, and its instant. *)
Definition settlement_kept (date_str : option string) (ms : Z)
  : outcome (bool * Z) :=
  bind (fromtimestamp_utc ms) (fun settle_dt =>
  match given date_str with
  | Some s =>
      bind (strptime s fmt_date) (fun target_dt =>
      let days_diff := Z.abs (days_between settle_dt (instant_of target_dt)) in
      Return (negb (1 <? days_diff), settle_dt))
  | None => Return (true, settle_dt)
  end).

Section World.

Variable world : Type.

(** The exchange, through [DeribitClient]: each call is a request and
    answers with the decoded result, or with [None] or [[]] when the
    request failed.  A ticker that is [None] or an empty object is
    [None]. *)
Variable get_index_price : string -> world -> option Q * world.
Variable get_instruments : string -> bool -> world -> list string * world.
Variable get_ticker : string -> world -> option ticker * world.
Variable get_last_trades_by_currency :
  string -> Z -> Z -> Z -> world -> list trade * world.
Variable get_last_settlements_by_currency :
  string -> Z -> Z -> world -> option (list settlement) * world.

(** The clock: [datetime.utcnow()] as a naive date-time,
    [datetime.now(timezone.utc)] as an instant. *)
Variable utcnow : world -> datetime * world.
Variable now_utc : world -> Z * world.

(** [time.sleep(seconds)] *)
Variable sleep : Q -> world -> world.

(** [dt.strftime(format)] for the instant [dt]; [df.sort_values(
    'settlement_time', ascending=False)] of pandas. *)
Variable strftime : Z -> string -> string.
Variable sort_values_desc : list settlement_row -> list settlement_row.

(** [py_vollib] *)
Variable round : pyfloat -> nat -> pyfloat.
Variables delta gamma vega theta :
  option_type -> pyfloat -> pyfloat -> pyfloat -> pyfloat -> pyfloat ->
  outcome pyfloat.
Variable implied_volatility :
  pyfloat -> pyfloat -> pyfloat -> pyfloat -> pyfloat -> option_type ->
  outcome pyfloat.

(** A call of one of the valuation functions with no as-of string: the
    clock is read for it. *)
Definition with_clock {A} (f : datetime -> outcome A) : io world A :=
  fun w => let (now, w') := utcnow w in (f now, w').

(** Lines 118-150: the row of one instrument. *)
Definition live_row_of (spot_price : Q) (x : string * instrument_entry)
  : io world live_row :=
  let instrument := fst x in
  let data := snd x in
  let total_vol := py_sum (volumes data) in
  vwap <~ lift (vwap_of (prices data) (volumes data)) ;;
  latest_price <~ lift (last_item (prices data)) ;;
  iv <~ with_clock (calculate_iv_from_price implied_volatility instrument
                      (to_float spot_price) (to_float vwap) None) ;;
  greeks_iv <~ (if sane_iv iv then
                  g <~ with_clock (calculate_greeks round delta gamma vega theta
                                     instrument (to_float spot_price) iv None) ;;
                  ret (Some g, iv)
                else ret (None, None)) ;;
  last_ts <~ lift (last_item (timestamps data)) ;;
  last_trade_dt <~ lift (fromtimestamp_utc last_ts) ;;
  let g := fst greeks_iv in
  ret (mk_live_row instrument vwap latest_price (List.length (prices data))
         total_vol (strftime last_trade_dt "%Y-%m-%d %H:%M:%S") spot_price
         (snd greeks_iv)
         (option_map key_delta g) (option_map key_gamma g)
         (option_map key_vega g) (option_map key_theta g)
         (match g with Some g => key_error g | None => None end)
         (match g with Some g => key_expired g | None => None end)).

Definition get_live_trading_data (currency : string) (minutes_back limit : Z)
  : io world (list live_row) :=
  spot_price <~ perform (get_index_price currency) ;;
  match spot_price with
  | None => ret []
  | Some spot_price =>
      if negb (nonzero spot_price) then ret []
      else
        now <~ perform now_utc ;;
        let now_ms := timestamp_ms now in
        let start_ms := now_ms - minutes_back * 60 * 1000 in
        all_trades <~ perform (get_last_trades_by_currency
                                 currency start_ms now_ms 1000) ;;
        match all_trades with
        | [] => ret []
        | _ :: _ =>
            for_each (fun x results =>
                        row <~ live_row_of spot_price x ;;
                        ret (results ++ [row])%list)
                     (instruments_sorted all_trades limit) []
        end
  end.

(** Lines 31-56: one turn of the loop of [get_current_options_data]. *)
Definition current_row_of (spot_price : Q) (name : string)
    (results : list current_row) : io world (list current_row) :=
  ticker <~ perform (get_ticker name) ;;
  match ticker with
  | None => ret results
  | Some ticker =>
      let iv := dict_get (mark_iv ticker) in
      let mark_price := dict_get (mark_price ticker) in
      volume_usd <~ lift (stats_get (stats ticker) (fun vu _ => vu)) ;;
      let open_interest := dict_get_default (open_interest ticker) 0 in
      let bid := dict_get_default (best_bid_price ticker) 0 in
      let ask := dict_get_default (best_ask_price ticker) 0 in
      greeks <~ with_clock (calculate_greeks round delta gamma vega theta name
                              (to_float spot_price) (option_map to_float iv)
                              None) ;;
      _ <~ perform (fun w => (tt, sleep (1 # 10) w)) ;;
      ret (results ++ [mk_current_row name mark_price bid ask volume_usd
                                      open_interest iv spot_price greeks])%list
  end.

Definition get_current_options_data (currency : string) (limit : Z)
  : io world (list current_row) :=
  spot_price <~ perform (get_index_price currency) ;;
  match spot_price with
  | None => ret []
  | Some spot_price =>
      if negb (nonzero spot_price) then ret []
      else
        names <~ perform (get_instruments currency false) ;;
        match names with
        | [] => ret []
        | _ :: _ =>
            for_each (current_row_of spot_price) (slice_to names limit) []
        end
  end.

(** Lines 239-283: one turn of the loop of [snapshot_market]. *)
Definition snapshot_row_of (spot_price : Q) (name : string)
    (results : list snapshot_row) : io world (list snapshot_row) :=
  ticker <~ perform (get_ticker name) ;;
  match ticker with
  | None => ret results
  | Some ticker =>
      let parts := split "-" name in
      let expiry := nth_error parts 1 in
      let strike := nth_error parts 2 in
      let option_type := nth_error parts 3 in
      let iv := dict_get (mark_iv ticker) in
      let mark_price := dict_get (mark_price ticker) in
      let underlying_price := dict_get (underlying_price ticker) in
      volume_usd <~ lift (stats_get (stats ticker) (fun vu _ => vu)) ;;
      volume <~ lift (stats_get (stats ticker) (fun _ v => v)) ;;
      let open_interest := dict_get_default (open_interest ticker) 0 in
      let bid := dict_get_default (best_bid_price ticker) 0 in
      let ask := dict_get_default (best_ask_price ticker) 0 in
      let bid_size := dict_get_default (best_bid_amount ticker) 0 in
      let ask_size := dict_get_default (best_ask_amount ticker) 0 in
      let last_price := dict_get_default (last_price ticker) 0 in
      greeks <~ with_clock (calculate_greeks round delta gamma vega theta name
                              (to_float spot_price) (option_map to_float iv)
                              None) ;;
      _ <~ perform (fun w => (tt, sleep (1 # 20) w)) ;;
      ret (results ++ [mk_snapshot_row name expiry strike option_type
                         mark_price last_price bid ask bid_size ask_size
                         volume volume_usd open_interest iv spot_price
                         underlying_price greeks])%list
  end.

(** [if limit: names = names[:limit]] *)
Definition limited (names : list string) (limit : option Z) : list string :=
  match limit with
  | Some n => if n =? 0 then names else slice_to names n
  | None => names
  end.

Definition snapshot_market (currency : string) (limit : option Z)
  : io world (list snapshot_row) :=
  spot_price <~ perform (get_index_price currency) ;;
  match spot_price with
  | None => ret []
  | Some spot_price =>
      if negb (nonzero spot_price) then ret []
      else
        names <~ perform (get_instruments currency false) ;;
        match names with
        | [] => ret []
        | _ :: _ =>
            for_each (snapshot_row_of spot_price) (limited names limit) []
        end
  end.

(** Lines 183-203: one turn of the loop of [get_settlement_data]. *)
Definition settlement_row_of (date_str : option string) (s : settlement)
    (results : list settlement_row) : io world (list settlement_row) :=
  kept <~ lift (settlement_kept date_str (settlement_timestamp s)) ;;
  let settle_dt := snd kept in
  if fst kept then
    ret (results ++ [mk_settlement_row
                       (settlement_instrument_name s)
                       (strftime settle_dt "%Y-%m-%d")
                       (strftime settle_dt "%Y-%m-%d %H:%M:%S")
                       (settlement_type s)
                       (dict_get (settlement_index_price s))
                       (dict_get (settlement_mark_price s))
                       (dict_get (settlement_session_profit_loss s))])%list
  else ret results.

Definition get_settlement_data (currency : string)
    (date_str : option string) (days_back : Z)
  : io world (list settlement_row) :=
  timestamp_ms <~ match given date_str with
                  | Some s => lift (settlement_search_start s)
                  | None =>
                      now <~ perform now_utc ;;
                      let dt := now - days_back * MICROS_PER_DAY in
                      if in_datetime_range dt then ret (timestamp_ms dt)
                      else lift (Raise (OtherError "OverflowError"
                                          "date value out of range"))
                  end ;;
  settlements <~ perform (get_last_settlements_by_currency
                            currency timestamp_ms 1000) ;;
  match settlements with
  | None => ret []
  | Some l =>
      results <~ for_each (settlement_row_of date_str) l [] ;;
      match results with
      | [] => ret []
      | _ :: _ => ret (sort_values_desc results)
      end
  end.

End World.

End Main.

(** ** Notions the properties are stated with *)

Module Notions.
Import Py Datetime PyList Exchange Main.

(** [l1] is [l2] with some items left out. *)
Inductive subsequence {A : Type} : list A -> list A -> Prop :=
| subsequence_nil : subsequence [] []
| subsequence_skip x l1 l2 : subsequence l1 l2 -> subsequence l1 (x :: l2)
| subsequence_keep x l1 l2 : subsequence l1 l2 -> subsequence (x :: l1) (x :: l2).

(** Largest key first. *)
Definition desc {A : Type} (key : A -> Q) (a b : A) : Prop :=
  (key b <= key a)%Q.

(** The items of [l] without repetition, each where it first occurs. *)
Definition distinct (l : list string) : list string :=
  fold_left (fun seen x =>
               if existsb (String.eqb x) seen then seen
               else (seen ++ [x])%list)
            l [].

(** The trades of one instrument, in the order they came. *)
Definition trades_for (name : string) (all_trades : list trade) : list trade :=
  filter (fun t => String.eqb name (trade_instrument_name t)) all_trades.

Definition entry_of (ts : list trade) : instrument_entry :=
  mk_entry (map trade_price ts) (map trade_amount ts) (map trade_timestamp ts).

(** 00:00:00 UTC of the day of [dt], in milliseconds since the epoch. *)
Definition midnight_ms (dt : datetime) : Z :=
  (toordinal dt - EPOCH_ORDINAL) * 86400000.

(** The settlements from 24 hours before 00:00:00 UTC of the day of [dt]
    up to, but not including, 48 hours after it. *)
Definition in_day_window (dt : datetime) (s : settlement) : bool :=
  (-86400000 <=? settlement_timestamp s - midnight_ms dt)
  && (settlement_timestamp s - midnight_ms dt <? 172800000).

(** What a row of the settlement table says about the settlement it was
    built from; [strftime] formats an instant. *)
Definition row_of_settlement (strftime : Z -> string -> string)
    (x : settlement) (row : settlement_row) : Prop :=
  srow_instrument row = settlement_instrument_name x /\
  srow_settlement_time row
  = strftime (settlement_timestamp x * 1000) "%Y-%m-%d %H:%M:%S" /\
  srow_settlement_type row = settlement_type x /\
  srow_index_price row = dict_get (settlement_index_price x).

(** [a <= b] on naive date-times: field by field, the year first. *)
Definition datetime_fields (t : datetime) : list Z :=
  [year t; month t; day t; hour t; minute t; second t; microsecond t].

Fixpoint lex_leb (a b : list Z) : bool :=
  match a, b with
  | x :: a', y :: b' => (x <? y) || ((x =? y) && lex_leb a' b')
  | _, _ => true
  end.

Definition datetime_leb (a b : datetime) : bool :=
  lex_leb (datetime_fields a) (datetime_fields b).

(** The extra day of a leap year. *)
Definition leap_day (y : Z) : Z := if _is_leap y then 1 else 0.

(** The fields of a date-time that [datetime] accepts. *)
Definition valid_datetime (t : datetime) : Prop :=
  1 <= year t <= 9999 /\ 1 <= month t <= 12 /\
  1 <= day t <= _days_in_month (year t) (month t) /\
  0 <= hour t <= 23 /\ 0 <= minute t <= 59 /\ 0 <= second t <= 59 /\
  0 <= microsecond t <= 999999.

(** The fields [_strptime] has read, before the constructor checks the
    year, the day and the second. *)
Definition fields_read (t : datetime) : Prop :=
  1 <= month t <= 12 /\ 0 <= hour t <= 23 /\ 0 <= minute t <= 59 /\
  0 <= second t <= 61 /\ 0 <= microsecond t <= 999999.

End Notions.

(** ** Sample data for the tables

    A world to run the functions of [deribit_api.py] and [main.py] in:
    the state counts the requests made, and the clock stands at noon of
    1 January 2026. *)

Module Samples.
Import Py Datetime DataUtils Domain PyList Exchange IO DeribitApi Main.

(** A library that answers only for a finite positive [t] and a [sigma]
    that is not negative. *)
Definition picky_greek (value : Q)
  : option_type -> pyfloat -> pyfloat -> pyfloat -> pyfloat -> pyfloat ->
    outcome pyfloat :=
  fun _ _ _ t _ sigma =>
    if positive_finite t && negb (negative sigma) then Return (Finite value)
    else Raise (ValueError "math domain error").

Definition picky_solver
  : pyfloat -> pyfloat -> pyfloat -> pyfloat -> pyfloat -> option_type ->
    outcome pyfloat :=
  fun price spot strike t r flag =>
    if positive_finite t then sample_solver price spot strike t r flag
    else Raise (ValueError "math domain error").

(** The four values the sample library gives, and the dictionary they
    make. *)
Definition sample_delta := sample_greek (1 # 2).
Definition sample_gamma := sample_greek (1 # 1000).
Definition sample_vega := sample_greek 12.
Definition sample_theta := sample_greek (-30).

Definition sample_greeks : greeks :=
  mk_greeks (Finite (1 # 2)) (Finite (1 # 1000)) (Finite 12) (Finite (-30))
            None None.

Definition sample_world : Type := nat.

Definition sample_index_price (currency : string) (w : sample_world)
  : option Q * sample_world :=
  (Some 90000%Q, S w).

Definition sample_names : list string :=
  ["BTC-27MAR26-80000-C"; "BTC-27MAR26-90000-P"; "BTC-PERPETUAL";
   "BTC-26JUN26-100000-C"].

Definition sample_instruments (currency : string) (expired : bool)
    (w : sample_world) : list string * sample_world :=
  (sample_names, S w).

(** Deribit writes some strikes with a [d] for the decimal point. *)
Definition names_with_bad_strike : list string :=
  ["BTC-27MAR26-80000-C"; "XRP_USDC-27MAR26-0d54-C"; "BTC-27MAR26-90000-P"].

Definition bad_instruments (currency : string) (expired : bool)
    (w : sample_world) : list string * sample_world :=
  (names_with_bad_strike, S w).

Definition sample_ticker : ticker :=
  mk_ticker (Num 55) (Num (1 # 10)) (Stats (Num 1000) (Num 12)) (Num 3)
            Missing (Num (1 # 5)) (Num 90100) Null Missing (Num (1 # 10)).

(** No ticker for the put. *)
Definition sample_get_ticker (name : string) (w : sample_world)
  : option ticker * sample_world :=
  (if String.eqb name "BTC-27MAR26-90000-P" then None else Some sample_ticker,
   S w).

Definition answering_ticker (name : string) (w : sample_world)
  : option ticker * sample_world :=
  (Some sample_ticker, S w).

(** 2026-01-01 12:00:00 UTC, in milliseconds *)
Definition NOON : Z := 1767268800000.

Definition sample_trades : list trade :=
  [mk_trade "BTC-27MAR26-80000-C" (1 # 10) 2 (NOON - 60000);
   mk_trade "BTC-27MAR26-90000-P" (1 # 20) 5 (NOON - 50000);
   mk_trade "BTC-PERPETUAL" 90000 1 (NOON - 40000);
   mk_trade "BTC-27MAR26-80000-C" (3 # 25) 1 (NOON - 30000)].

Definition sample_get_trades (currency : string)
    (start_timestamp end_timestamp count : Z) (w : sample_world)
  : list trade * sample_world :=
  (sample_trades, S w).

Definition trades_with_bad_strike : list trade :=
  (sample_trades
   ++ [mk_trade "XRP_USDC-27MAR26-0d54-C" (1 # 100) 10 (NOON - 20000)])%list.

Definition bad_get_trades (currency : string)
    (start_timestamp end_timestamp count : Z) (w : sample_world)
  : list trade * sample_world :=
  (trades_with_bad_strike, S w).

Definition sample_utcnow (w : sample_world) : datetime * sample_world :=
  (new_year_2026, w).

Definition sample_now_utc (w : sample_world) : Z * sample_world :=
  (instant_of new_year_2026, w).

Definition sample_sleep (seconds : Q) (w : sample_world) : sample_world := w.

(** Stand-ins for [strftime] and for the sort of pandas. *)
Definition sample_strftime (dt : Z) (format : string) : string := format.

Definition sample_sort (rows : list settlement_row) : list settlement_row :=
  rev rows.

(** 2026-01-26 00:00:00 UTC, in milliseconds *)
Definition JAN_26 : Z := 1769385600000.

(** Settlements at 08:00 of the 28th, the 27th, the 26th, the 25th and
    the 24th. *)
Definition sample_settlements : list settlement :=
  [mk_settlement "BTC-28JAN26" (JAN_26 + 201600000) (Some "settlement")
                 (Num 88300) Missing Missing;
   mk_settlement "BTC-27JAN26" (JAN_26 + 115200000) (Some "delivery")
                 (Num 88000) (Num 1) Missing;
   mk_settlement "BTC-26JAN26" (JAN_26 + 28800000) (Some "delivery")
                 (Num 87500) Missing Missing;
   mk_settlement "BTC-25JAN26" (JAN_26 - 57600000) (Some "delivery")
                 Null Missing (Num 2);
   mk_settlement "BTC-24JAN26" (JAN_26 - 144000000) (Some "delivery")
                 (Num 86000) Missing Missing].

Definition sample_get_settlements (currency : string)
    (search_start_timestamp count : Z) (w : sample_world)
  : option (list settlement) * sample_world :=
  (Some sample_settlements, S w).

(** The table of a run, empty when the run raised. *)
Definition rows_of {A} (run : outcome (list A) * sample_world) : list A :=
  match fst run with
  | Return rows => rows
  | Raise _ => []
  end.

Definition sample_live_run : outcome (list live_row) * sample_world :=
  get_live_trading_data sample_world sample_index_price sample_get_trades
    sample_utcnow sample_now_utc sample_strftime
    Py.round sample_delta sample_gamma sample_vega sample_theta sample_solver
    "BTC" 60 200 0%nat.

(** The run on the trades with the bad strike. *)
Definition bad_live_run : outcome (list live_row) * sample_world :=
  get_live_trading_data sample_world sample_index_price bad_get_trades
    sample_utcnow sample_now_utc sample_strftime
    Py.round sample_delta sample_gamma sample_vega sample_theta sample_solver
    "BTC" 60 200 0%nat.

(** The row of the put in [sample_live_run]. *)
Definition sample_live_row : live_row :=
  mk_live_row "BTC-27MAR26-90000-P" (5 # 100) (1 # 20) 1 5
              "%Y-%m-%d %H:%M:%S" 90000 (Some (Finite 5))
              (Some (Finite (1 # 2))) (Some (Finite (1 # 1000)))
              (Some (Finite 12)) (Some (Finite (-30))) None None.

Definition sample_current_run : outcome (list current_row) * sample_world :=
  get_current_options_data sample_world sample_index_price sample_instruments
    sample_get_ticker sample_utcnow sample_sleep
    Py.round sample_delta sample_gamma sample_vega sample_theta "BTC" 3 0%nat.

Definition sample_snapshot_run : outcome (list snapshot_row) * sample_world :=
  snapshot_market sample_world sample_index_price sample_instruments
    sample_get_ticker sample_utcnow sample_sleep
    Py.round sample_delta sample_gamma sample_vega sample_theta "BTC" None 0%nat.

End Samples.
(** * Properties *)

(** ** The pattern matcher of [strptime] *)

Module StrptimeFacts.
Import Py Datetime.

Lemma first_success_app {A B} (k : A -> option B) (l1 l2 : list A) :
  first_success k (l1 ++ l2) =
  match first_success k l1 with
  | Some b => Some b
  | None => first_success k l2
  end.
Proof.
  induction l1 as [|a l1 IH]; simpl; [reflexivity|].
  destruct (k a); [reflexivity | exact IH].
Qed.

Lemma first_success_flat_map {A B C} (k : B -> option C) (g : A -> list B)
    (l : list A) :
  first_success k (flat_map g l) =
  first_success (fun a => first_success k (g a)) l.
Proof.
  induction l as [|a l IH]; simpl; [reflexivity|].
  rewrite first_success_app, IH. reflexivity.
Qed.

Lemma first_success_ext {A B} (k k' : A -> option B) (l : list A) :
  (forall a, k a = k' a) -> first_success k l = first_success k' l.
Proof.
  intros E. induction l as [|a l IH]; simpl; [reflexivity|].
  rewrite E, IH. reflexivity.
Qed.

Lemma first_success_hd {A B} (k : A -> option B) (g : A -> list B)
    (l : list A) :
  (forall a, k a = hd_error (g a)) ->
  first_success k l = hd_error (flat_map g l).
Proof.
  intros E. induction l as [|a l IH]; simpl; [reflexivity|].
  rewrite E, IH. destruct (g a); reflexivity.
Qed.

(** [run] returns the best of [paths]. *)
Lemma run_best_path ds : forall s t, run ds s t = hd_error (paths ds s t).
Proof.
  induction ds as [|d ds IH]; intros s t; simpl; [reflexivity|].
  apply first_success_hd. intros vr. apply IH.
Qed.

(** Matching [ds1 ++ ds2]: the first way through [ds1] after which [ds2]
    matches. *)
Lemma run_app ds1 ds2 : forall s t,
  run (ds1 ++ ds2) s t =
  first_success (fun p => run ds2 (snd p) (fst p)) (paths ds1 s t).
Proof.
  induction ds1 as [|d ds1 IH]; intros s t; simpl.
  - destruct (run ds2 s t); reflexivity.
  - rewrite first_success_flat_map.
    apply first_success_ext. intros vr. apply IH.
Qed.

Lemma paths_blind sfx ds :
  Forall (blind_to sfx) ds ->
  forall s t, paths ds (s ++ sfx) t = map (keep_path sfx) (paths ds s t).
Proof.
  induction 1 as [|d ds Hd _ IH]; intros s t; simpl; [reflexivity|].
  rewrite Hd, flat_map_concat_map, flat_map_concat_map.
  rewrite concat_map, !map_map. f_equal.
  apply map_ext. intros vr. apply IH.
Qed.

(** *** The directives of ["%d%b%y"] are blind to [" 08:00:00"] *)

Lemma one_keep lo hi s c sfx :
  digit_val c = None ->
  one lo hi (s ++ String c sfx) = map (keep (String c sfx)) (one lo hi s).
Proof.
  intros Hc. destruct s as [|a s]; simpl.
  - unfold digit_in. rewrite Hc. reflexivity.
  - destruct (digit_in lo hi a); reflexivity.
Qed.

Lemma two_keep lo1 hi1 lo2 hi2 s c sfx :
  digit_val c = None ->
  two lo1 hi1 lo2 hi2 (s ++ String c sfx) =
  map (keep (String c sfx)) (two lo1 hi1 lo2 hi2 s).
Proof.
  intros Hc. destruct s as [|a s]; simpl.
  - unfold digit_in. rewrite Hc. reflexivity.
  - destruct (digit_in lo1 hi1 a); [|reflexivity].
    rewrite one_keep by exact Hc. rewrite !map_map.
    apply map_ext. intros [y r']. reflexivity.
Qed.

Lemma space_digit_keep s :
  space_digit (s ++ " 08:00:00") = map (keep " 08:00:00") (space_digit s).
Proof.
  destruct s as [|a s]; simpl; [reflexivity|].
  destruct (Ascii.eqb a " "); [|reflexivity].
  apply one_keep. reflexivity.
Qed.

Lemma ci_prefix_keep name : forall s sfx,
  contains " " name = false ->
  ci_prefix name (s ++ String " " sfx) =
  option_map (fun r => r ++ String " " sfx) (ci_prefix name s).
Proof.
  induction name as [|a name IH]; intros s sfx Hn; simpl; [reflexivity|].
  simpl in Hn. apply orb_false_elim in Hn as [Ha Hn].
  destruct s as [|c s]; cbn [ci_prefix String.append option_map].
  - change (to_lower " ") with " "%char.
    rewrite Ascii.eqb_sym, Ha. reflexivity.
  - destruct (Ascii.eqb (to_lower c) a); [apply IH; exact Hn | reflexivity].
Qed.

Lemma month_alts_keep names : forall idx s sfx,
  Forall (fun name => contains " " name = false) names ->
  month_alts names idx (s ++ String " " sfx) =
  map (keep (String " " sfx)) (month_alts names idx s).
Proof.
  induction names as [|name names IH]; intros idx s sfx Hn; simpl;
    [reflexivity|].
  inversion Hn as [|? ? H1 H2]; subst.
  rewrite ci_prefix_keep by exact H1.
  destruct (ci_prefix name s); simpl; rewrite IH by exact H2; reflexivity.
Qed.

Lemma fmt_dby_blind : Forall (blind_to " 08:00:00") fmt_dby.
Proof.
  repeat constructor; intros s; unfold alts.
  - rewrite !two_keep, one_keep, space_digit_keep by reflexivity.
    rewrite !map_app. reflexivity.
  - apply month_alts_keep. repeat constructor.
  - apply two_keep. reflexivity.
Qed.

Lemma check_fields_inv t t' : check_fields t = Return t' ->
  t' = t /\ (1 <=? year t) && (year t <=? 9999) = true /\
  (1 <=? day t) && (day t <=? _days_in_month (year t) (month t)) = true.
Proof.
  unfold check_fields.
  destruct ((1 <=? year t) && (year t <=? 9999)); simpl; [|discriminate].
  destruct ((1 <=? day t) && (day t <=? _days_in_month (year t) (month t)));
    simpl; [|discriminate].
  destruct (second t <=? 59); simpl; [|discriminate].
  intros [= <-]. auto.
Qed.

Lemma first_success_some {A B} (k : A -> option B) (l : list A) b :
  first_success k l = Some b -> exists a, In a l /\ k a = Some b.
Proof.
  induction l as [|a l IH]; simpl; [discriminate|].
  destruct (k a) eqn:Ka.
  - intros [= ->]. exists a. auto.
  - intros H. destruct (IH H) as (a' & Hin & Ha'). exists a'. auto.
Qed.

(** No directive of the model reads microseconds. *)
Lemma run_microsecond ds : forall s t t' rest,
  run ds s t = Some (t', rest) -> microsecond t' = microsecond t.
Proof.
  induction ds as [|d ds IH]; intros s t t' rest; simpl.
  - intros [= <- _]. reflexivity.
  - intros H. apply first_success_some in H as (vr & _ & H).
    apply IH in H. rewrite H. destruct d; reflexivity.
Qed.

(** The directives other than [%H], [%M] and [%S] leave the time of day
    as it was. *)
Lemma run_time_of_day ds : forall s t t' rest,
  run ds s t = Some (t', rest) ->
  forallb (fun d => negb (is_time_directive d)) ds = true ->
  hour t' = hour t /\ minute t' = minute t /\ second t' = second t.
Proof.
  induction ds as [|d ds IH]; intros s t t' rest; simpl.
  - intros [= <- _] _. auto.
  - intros H Hd. apply andb_prop in Hd as [Hd Hds].
    apply first_success_some in H as (vr & _ & H).
    destruct (IH _ _ _ _ H Hds) as (-> & -> & ->).
    destruct d; try discriminate Hd; auto.
Qed.

(** The expiry field read with ["%d%b%y"] and the field followed by
    [" 08:00:00"] read with ["%d%b%y %H:%M:%S"] give the same date, the
    latter at 08:00:00. *)
Lemma strptime_expiry_str e d0 :
  strptime e fmt_dby = Return d0 ->
  strptime (e ++ " 08:00:00") fmt_expiry = Return (at_settlement d0).
Proof.
  unfold strptime at 1.
  destruct (run fmt_dby e initial) as [[t [|c rest]]|] eqn:Hrun;
    try discriminate.
  intros Hchk. apply check_fields_inv in Hchk as (-> & Hy & Hd).
  pose proof (run_microsecond _ _ _ _ _ Hrun) as Hus.
  rewrite run_best_path in Hrun.
  unfold strptime, fmt_expiry.
  rewrite run_app, (paths_blind _ _ fmt_dby_blind).
  destruct (paths fmt_dby e initial) as [|p ps]; [discriminate|].
  injection Hrun as ->. simpl.
  unfold check_fields. simpl. rewrite Hy, Hd, Hus. reflexivity.
Qed.

End StrptimeFacts.

(** ** The two functions of [data_utils.py] *)

Module DataUtilsFacts.
Import Py Datetime DataUtils StrptimeFacts.

(** *** Arithmetic of the idealised floats *)

Lemma le0_fdiv_lit x c : le0 (fdiv_lit x c) = le0 x.
Proof.
  destruct x as [a| |]; try reflexivity. simpl.
  apply eq_true_iff_eq. rewrite !Qle_bool_iff.
  assert (E : (Qred (a / (Z.pos c # 1)) == a / (Z.pos c # 1))%Q)
    by apply Qred_correct.
  rewrite E.
  destruct a as [n d]. unfold Qle, Qdiv, Qmult, Qinv. simpl. lia.
Qed.

Lemma seconds_per_year_value :
  (Zpos seconds_per_year # 1 == (36525 # 100) * 24 * 3600)%Q.
Proof. reflexivity. Qed.

(** [round] gives a multiple of [10^-ndigits] at most half a unit away. *)
Lemma round_decimal_places q ndigits :
  exists (k : Z) (q' : Q),
    round (Finite q) ndigits = Finite q' /\
    (q' == (k # 1) / (10 ^ Z.of_nat ndigits # 1))%Q /\
    (Qabs (q' - q) <= (1 # 2) / (10 ^ Z.of_nat ndigits # 1))%Q.
Proof.
  set (scale := 10 ^ Z.of_nat ndigits).
  assert (Hs : 0 < scale) by (apply Z.pow_pos_nonneg; lia).
  set (x := (q * (scale # 1))%Q).
  exists (round_half_even x), (Qred ((round_half_even x # 1) / (scale # 1))).
  split; [reflexivity|]. split; [apply Qred_correct|].
  rewrite Qred_correct.
  assert (Hpos : (0 < scale # 1)%Q) by (unfold Qlt; simpl; lia).
  assert (Hq : (q == x / (scale # 1))%Q).
  { unfold x. field. intros E. rewrite E in Hpos. discriminate. }
  clearbody x. rewrite Hq. clear Hq.
  assert (Hx : (Qabs ((round_half_even x # 1) - x) <= 1 # 2)%Q).
  { unfold round_half_even.
    pose proof (Qfloor_le x) as Hlo. pose proof (Qlt_floor x) as Hhi.
    set (f := Qfloor x) in *.
    assert (Hf1 : ((f + 1 # 1) == (f # 1) + 1)%Q)
      by (unfold Qeq, Qplus; simpl; lia).
    rewrite Hf1 in Hhi. change (inject_Z f) with (f # 1) in Hlo.
    apply Qabs_Qle_condition.
    destruct (Qcompare_spec (x - (f # 1)) (1 # 2)) as [E|L|G];
      [destruct (Z.even f)| |]; rewrite ?Hf1;
      generalize dependent (f # 1); intros fq; intros; split; lra. }
  setoid_replace ((round_half_even x # 1) / (scale # 1) - x / (scale # 1))%Q
    with (((round_half_even x # 1) - x) / (scale # 1))%Q
    by (field; intros E; rewrite E in Hpos; discriminate).
  unfold Qdiv at 1. rewrite Qabs_Qmult.
  rewrite (Qabs_pos (/ (scale # 1))) by (apply Qlt_le_weak, Qinv_lt_0_compat, Hpos).
  apply Qmult_le_compat_r; [exact Hx|].
  apply Qlt_le_weak, Qinv_lt_0_compat, Hpos.
Qed.

(** *** The field count *)

Lemma length_four {A} (l : list A) :
  Nat.eqb (List.length l) 4 = true ->
  exists a b c d, l = [a; b; c; d].
Proof.
  destruct l as [|a [|b [|c [|d [|x l]]]]]; try discriminate.
  intros _. exists a, b, c, d. reflexivity.
Qed.

Section Valuation.

Variable round : pyfloat -> nat -> pyfloat.
Variables delta gamma vega theta :
  option_type -> pyfloat -> pyfloat -> pyfloat -> pyfloat -> pyfloat ->
  outcome pyfloat.
Variable implied_volatility :
  pyfloat -> pyfloat -> pyfloat -> pyfloat -> pyfloat -> option_type ->
  outcome pyfloat.

Local Notation "'calculate_greeks'" :=
  (DataUtils.calculate_greeks round delta gamma vega theta).
Local Notation "'greeks_at'" := (DataUtils.greeks_at round delta gamma vega theta).
Local Notation "'calculate_iv_from_price'" :=
  (DataUtils.calculate_iv_from_price implied_volatility).
Local Notation "'implied_vol_at'" :=
  (DataUtils.implied_vol_at implied_volatility).

(** *** The two functions through the parser *)

Lemma calculate_greeks_parsed instrument spot_price iv snapshot_date_str utcnow :
  calculate_greeks instrument spot_price iv snapshot_date_str utcnow =
  match parse_instrument instrument with
  | InvalidFormat => Return (zeroed_error "Invalid instrument format")
  | StrikeError e => Raise e
  | DateParseError e =>
      Return (zeroed_error ("Date parse error: " ++ str_of_exn e))
  | Parsed strike ty expiry_dt =>
      match now_of snapshot_date_str utcnow with
      | Raise e => Return (zeroed_error ("Date parse error: " ++ str_of_exn e))
      | Return now =>
          if le0 (total_seconds expiry_dt now) then Return zeroed_expired
          else greeks_at ty spot_price strike
                 (fdiv_lit (total_seconds expiry_dt now) seconds_per_year) iv
      end
  end.
Proof.
  unfold DataUtils.calculate_greeks, parse_instrument.
  destruct (negb (Nat.eqb (List.length (split "-" instrument)) 4));
    [reflexivity|].
  destruct (float (nth 2 (split "-" instrument) "")) as [strike|e];
    [|reflexivity].
  cbn [bind]. unfold time_to_expiry.
  destruct (strptime _ fmt_expiry) as [expiry_dt|e]; [|reflexivity].
  cbn [bind]. destruct (now_of snapshot_date_str utcnow) as [now|e];
    [|reflexivity].
  cbn [bind]. destruct (le0 (total_seconds expiry_dt now)); reflexivity.
Qed.

Lemma calculate_iv_from_price_parsed instrument spot_price option_price
    snapshot_date_str utcnow :
  calculate_iv_from_price instrument spot_price option_price
                          snapshot_date_str utcnow =
  match parse_instrument instrument with
  | InvalidFormat => Return None
  | StrikeError e => Raise e
  | DateParseError e => Return None
  | Parsed strike ty expiry_dt =>
      match now_of snapshot_date_str utcnow with
      | Raise e => Return None
      | Return now =>
          if le0 (total_seconds expiry_dt now) then Return None
          else implied_vol_at ty spot_price strike
                 (fdiv_lit (total_seconds expiry_dt now) seconds_per_year)
                 option_price
      end
  end.
Proof.
  unfold DataUtils.calculate_iv_from_price, parse_instrument.
  destruct (negb (Nat.eqb (List.length (split "-" instrument)) 4));
    [reflexivity|].
  destruct (float (nth 2 (split "-" instrument) "")) as [strike|e];
    [|reflexivity].
  cbn [bind]. unfold time_to_expiry.
  destruct (strptime _ fmt_expiry) as [expiry_dt|e]; [|reflexivity].
  cbn [bind]. destruct (now_of snapshot_date_str utcnow) as [now|e];
    [|reflexivity].
  cbn [bind]. destruct (le0 (total_seconds expiry_dt now)); reflexivity.
Qed.

(** The tail of [calculate_greeks] never raises. *)
Lemma greeks_at_returns ty spot_price strike t iv :
  exists g, greeks_at ty spot_price strike t iv = Return g.
Proof.
  unfold DataUtils.greeks_at. destruct iv as [x|]; [|eauto].
  destruct (invalid_iv (Some x)); [eauto|].
  destruct (rounded_greeks _ _ _ _ _ _ _ _ _) as [g|e]; simpl; eauto.
Qed.

Lemma implied_vol_at_returns ty spot_price strike t option_price :
  exists v, implied_vol_at ty spot_price strike t option_price = Return v.
Proof.
  unfold DataUtils.implied_vol_at.
  destruct (implied_volatility _ _ _ _ _ _) as [x|e]; simpl; eauto.
Qed.

(** [calculate_greeks] raises exactly when the name has four fields and
    [float] rejects the third. *)
Lemma calculate_greeks_raises_iff instrument spot_price iv snapshot_date_str
    utcnow e :
  calculate_greeks instrument spot_price iv snapshot_date_str utcnow = Raise e
  <-> parse_instrument instrument = StrikeError e.
Proof.
  rewrite calculate_greeks_parsed.
  destruct (parse_instrument instrument) as [|e'|e'|strike ty expiry_dt].
  - split; discriminate.
  - split; intros [= ->]; reflexivity.
  - split; discriminate.
  - destruct (now_of snapshot_date_str utcnow) as [now|e'']; [|split; discriminate].
    destruct (le0 _); [split; discriminate|].
    destruct (greeks_at_returns ty spot_price strike
                (fdiv_lit (total_seconds expiry_dt now) seconds_per_year) iv)
      as [g ->].
    split; discriminate.
Qed.

Lemma calculate_iv_from_price_raises_iff instrument spot_price option_price
    snapshot_date_str utcnow e :
  calculate_iv_from_price instrument spot_price option_price
                          snapshot_date_str utcnow = Raise e
  <-> parse_instrument instrument = StrikeError e.
Proof.
  rewrite calculate_iv_from_price_parsed.
  destruct (parse_instrument instrument) as [|e'|e'|strike ty expiry_dt].
  - split; discriminate.
  - split; intros [= ->]; reflexivity.
  - split; discriminate.
  - destruct (now_of snapshot_date_str utcnow) as [now|e'']; [|split; discriminate].
    destruct (le0 _); [split; discriminate|].
    destruct (implied_vol_at_returns ty spot_price strike
                (fdiv_lit (total_seconds expiry_dt now) seconds_per_year)
                option_price) as [v ->].
    split; discriminate.
Qed.

(** A name whose field count is not four gets the zeroed dictionary
    tagged as an invalid format. *)
Lemma calculate_greeks_wrong_field_count instrument spot_price iv
    snapshot_date_str utcnow :
  List.length (split "-" instrument) <> 4%nat ->
  calculate_greeks instrument spot_price iv snapshot_date_str utcnow =
  Return (zeroed_error "Invalid instrument format").
Proof.
  intros H. unfold DataUtils.calculate_greeks.
  apply Nat.eqb_neq in H. rewrite H. reflexivity.
Qed.

(** *** Malformed instrument names *)

(** C1. [calculate_greeks] does not turn every failure into a zeroed
    dictionary: on the name [BTC-27MAR26-abc-C], which has four fields and
    a third field that is no number, [float] raises [ValueError] before
    the first [try], and the exception reaches the caller, whatever the
    other arguments are. *)
Theorem calculate_greeks_non_numeric_strike_raises :
  forall spot_price iv snapshot_date_str utcnow,
    calculate_greeks "BTC-27MAR26-abc-C" spot_price iv snapshot_date_str
                     utcnow
    = Raise (ValueError "could not convert string to float").
Proof. reflexivity. Qed.

(** C2. [calculate_iv_from_price] does not collapse every failure to
    [None]: on [BTC-27MAR26-abc-C] the [ValueError] of [float] reaches the
    caller, whatever the other arguments are. *)
Theorem calculate_iv_from_price_non_numeric_strike_raises :
  forall spot_price option_price snapshot_date_str utcnow,
    calculate_iv_from_price "BTC-27MAR26-abc-C" spot_price option_price
                            snapshot_date_str utcnow
    = Raise (ValueError "could not convert string to float").
Proof. reflexivity. Qed.

(** The same on a name that writes a decimal strike with a [d]. *)
Lemma calculate_greeks_decimal_strike_raises :
  forall spot_price iv snapshot_date_str utcnow,
    calculate_greeks "XRP_USDC-30AUG24-0d54-C" spot_price iv snapshot_date_str
                     utcnow
    = Raise (ValueError "could not convert string to float").
Proof. reflexivity. Qed.

(** *** The parser *)

Lemma parse_instrument_of_fields
    instrument underlying expiry strike_str class strike d0 :
  split "-" instrument = [underlying; expiry; strike_str; class] ->
  float strike_str = Return strike ->
  strptime expiry fmt_dby = Return d0 ->
  parse_instrument instrument =
  Parsed strike (if String.eqb class "C" then call else put)
         (at_settlement d0).
Proof.
  intros Hs Hf Hd.
  unfold parse_instrument. rewrite Hs.
  cbn [List.length Nat.eqb negb nth]. rewrite Hf.
  rewrite (strptime_expiry_str _ _ Hd). reflexivity.
Qed.


(** *** The time to expiry *)

(** C4. For a name that parses and an observation instant [now] (the
    as-of string when one is given, the clock reading [utcnow] when none
    is), the time to expiry is the difference of the two instants in
    seconds divided by [365.25 * 24 * 3600]; when it is not positive the
    result is the zeroed dictionary tagged expired, for every [iv], valid
    or not; when it is positive the function goes on with that [t]. *)
Theorem expired_before_iv_validation :
  forall instrument spot_price iv snapshot_date_str utcnow
         strike ty expiry_dt now,
    parse_instrument instrument = Parsed strike ty expiry_dt ->
    now_of snapshot_date_str utcnow = Return now ->
    now_of None utcnow = Return utcnow /\
    (Zpos seconds_per_year # 1 == (36525 # 100) * 24 * 3600)%Q /\
    (le0 (fdiv_lit (total_seconds expiry_dt now) seconds_per_year) = true ->
     calculate_greeks instrument spot_price iv snapshot_date_str utcnow
     = Return zeroed_expired) /\
    (le0 (fdiv_lit (total_seconds expiry_dt now) seconds_per_year) = false ->
     calculate_greeks instrument spot_price iv snapshot_date_str utcnow
     = greeks_at ty spot_price strike
         (fdiv_lit (total_seconds expiry_dt now) seconds_per_year) iv).
Proof.
  intros instrument spot_price iv snapshot_date_str utcnow
         strike ty expiry_dt now Hp Hn.
  split; [reflexivity|]. split; [apply seconds_per_year_value|].
  rewrite le0_fdiv_lit, calculate_greeks_parsed, Hp, Hn.
  split; intros ->; reflexivity.
Qed.

(** *** Validation of the volatility *)

(** C5, as amended.  For a name that parses, an observation instant that
    is available and a positive time to expiry, an [iv] that is [None],
    zero or negative gives the zeroed dictionary tagged ["Invalid IV"],
    whatever the spot price and the strike are. *)
Theorem invalid_iv_on_live_instrument :
  forall instrument spot_price iv snapshot_date_str utcnow
         strike ty expiry_dt now,
    parse_instrument instrument = Parsed strike ty expiry_dt ->
    now_of snapshot_date_str utcnow = Return now ->
    le0 (total_seconds expiry_dt now) = false ->
    invalid_iv iv = true ->
    calculate_greeks instrument spot_price iv snapshot_date_str utcnow
    = Return (zeroed_error "Invalid IV").
Proof.
  intros instrument spot_price iv snapshot_date_str utcnow
         strike ty expiry_dt now Hp Hn Hl Hiv.
  rewrite calculate_greeks_parsed, Hp, Hn, Hl.
  unfold DataUtils.greeks_at. destruct iv as [x|]; [|reflexivity].
  rewrite Hiv. reflexivity.
Qed.

(** *** The success paths *)

(** When the name parses, the time to expiry [t] is positive and [iv] is
    positive, the routines bound to [delta], [gamma], [vega] and [theta]
    are called with [(flag, spot, strike, t, r, sigma)], where
    [sigma = iv / 100] and [r = 0.05]; when they return, the result holds
    [round] of delta with 4 digits, of gamma with 6, of vega with 4 and of
    theta with 4, and no tag. *)
Lemma calculate_greeks_wiring :
  forall instrument spot_price x snapshot_date_str utcnow
         strike ty expiry_dt now d g v th,
    parse_instrument instrument = Parsed strike ty expiry_dt ->
    now_of snapshot_date_str utcnow = Return now ->
    le0 (total_seconds expiry_dt now) = false ->
    invalid_iv (Some x) = false ->
    delta ty spot_price strike
          (fdiv_lit (total_seconds expiry_dt now) seconds_per_year)
          (Finite (1 # 20)) (fdiv_lit x 100) = Return d ->
    gamma ty spot_price strike
          (fdiv_lit (total_seconds expiry_dt now) seconds_per_year)
          (Finite (1 # 20)) (fdiv_lit x 100) = Return g ->
    vega ty spot_price strike
         (fdiv_lit (total_seconds expiry_dt now) seconds_per_year)
         (Finite (1 # 20)) (fdiv_lit x 100) = Return v ->
    theta ty spot_price strike
          (fdiv_lit (total_seconds expiry_dt now) seconds_per_year)
          (Finite (1 # 20)) (fdiv_lit x 100) = Return th ->
    calculate_greeks instrument spot_price (Some x) snapshot_date_str utcnow
    = Return (mk_greeks (round d 4) (round g 6) (round v 4) (round th 4)
                        None None).
Proof.
  intros instrument spot_price x snapshot_date_str utcnow
         strike ty expiry_dt now d g v th Hp Hn Hl Hiv Hd Hg Hv Ht.
  rewrite calculate_greeks_parsed, Hp, Hn, Hl.
  unfold DataUtils.greeks_at. rewrite Hiv.
  unfold rounded_greeks, r. rewrite Hd, Hg, Hv, Ht. reflexivity.
Qed.

(** C7. When the name parses and the time to expiry [t] is positive, the
    option price is first multiplied by the spot price, the library's
    [implied_volatility] is called with
    [(price * spot, spot, strike, t, 0.05, flag)], and when it returns
    [sigma] the result is [sigma * 100]. *)
Theorem calculate_iv_from_price_success :
  forall instrument spot_price option_price snapshot_date_str utcnow
         strike ty expiry_dt now sigma,
    parse_instrument instrument = Parsed strike ty expiry_dt ->
    now_of snapshot_date_str utcnow = Return now ->
    le0 (total_seconds expiry_dt now) = false ->
    implied_volatility (fmul option_price spot_price) spot_price strike
      (fdiv_lit (total_seconds expiry_dt now) seconds_per_year)
      (Finite (1 # 20)) ty = Return sigma ->
    calculate_iv_from_price instrument spot_price option_price
                            snapshot_date_str utcnow
    = Return (Some (fmul sigma (of_Z 100))).
Proof.
  intros instrument spot_price option_price snapshot_date_str utcnow
         strike ty expiry_dt now sigma Hp Hn Hl Hs.
  rewrite calculate_iv_from_price_parsed, Hp, Hn, Hl.
  unfold DataUtils.implied_vol_at, r. rewrite Hs. reflexivity.
Qed.

(** *** Dependence on the clock *)

Lemma now_of_given s utcnow utcnow' :
  s <> "" -> now_of (Some s) utcnow = now_of (Some s) utcnow'.
Proof. destruct s; [congruence | reflexivity]. Qed.


(** *** An as-of date without a time *)

Lemma total_seconds_settlement d0 now :
  year now = year d0 -> month now = month d0 -> day now = day d0 ->
  hour now = 0 -> minute now = 0 -> second now = 0 -> microsecond now = 0 ->
  total_seconds (at_settlement d0) now = of_Z (8 * 3600).
Proof.
  intros Hy Hm Hd Hh Hmi Hs Hus.
  assert (E : sub_micros (at_settlement d0) now = 28800000000).
  { unfold sub_micros, toordinal.
    cbn [at_settlement year month day hour minute second microsecond].
    rewrite Hy, Hm, Hd, Hh, Hmi, Hs, Hus. lia. }
  unfold total_seconds. rewrite E. reflexivity.
Qed.

(** C10. An as-of string without a space is read with ["%Y-%m-%d"], that
    is as 00:00:00 of its day.  When it names the day [d0] that the
    expiry field of the instrument names, the time to expiry is the eight
    hours up to the settlement, [8 * 3600 / (365.25 * 24 * 3600)] years,
    and neither function takes the expired exit: both go on with that
    [t]. *)
Theorem as_of_expiry_date_not_expired :
  forall instrument underlying expiry strike_str class strike d0 s
         spot_price iv option_price utcnow,
    split "-" instrument = [underlying; expiry; strike_str; class] ->
    float strike_str = Return strike ->
    strptime expiry fmt_dby = Return d0 ->
    contains " " s = false ->
    strptime s fmt_date = Return d0 ->
    now_of (Some s) utcnow = Return d0 /\
    time_to_expiry (expiry ++ " 08:00:00") (Some s) utcnow
    = Return (Live (fdiv_lit (of_Z (8 * 3600)) seconds_per_year)) /\
    calculate_greeks instrument spot_price iv (Some s) utcnow
    = greeks_at (if String.eqb class "C" then call else put) spot_price
        strike (fdiv_lit (of_Z (8 * 3600)) seconds_per_year) iv /\
    calculate_iv_from_price instrument spot_price option_price (Some s) utcnow
    = implied_vol_at (if String.eqb class "C" then call else put) spot_price
        strike (fdiv_lit (of_Z (8 * 3600)) seconds_per_year) option_price.
Proof.
  intros instrument underlying expiry strike_str class strike d0 s
         spot_price iv option_price utcnow Hsp Hf Hd Hs Ha.
  assert (Hnow : now_of (Some s) utcnow = Return d0).
  { destruct s as [|a s]; [discriminate Ha|]. unfold now_of.
    rewrite Hs. exact Ha. }
  assert (Hmid : hour d0 = 0 /\ minute d0 = 0 /\ second d0 = 0
                 /\ microsecond d0 = 0).
  { unfold strptime in Ha.
    destruct (run fmt_date s initial) as [[t [|c rest]]|] eqn:Hrun;
      try discriminate.
    apply check_fields_inv in Ha as (-> & _).
    pose proof (run_microsecond _ _ _ _ _ Hrun) as Hus.
    apply run_time_of_day in Hrun as (Hh & Hmi & Hse); [|reflexivity].
    auto. }
  destruct Hmid as (Hh & Hmi & Hse & Hus).
  assert (Hdiff : total_seconds (at_settlement d0) d0 = of_Z (8 * 3600))
    by (apply total_seconds_settlement; auto).
  pose proof (parse_instrument_of_fields _ _ _ _ _ _ _ Hsp Hf Hd) as Hp.
  split; [exact Hnow|]. split; [|split].
  - unfold time_to_expiry.
    rewrite (strptime_expiry_str _ _ Hd). cbn [bind].
    rewrite Hnow. cbn [bind]. rewrite Hdiff. reflexivity.
  - rewrite calculate_greeks_parsed, Hp, Hnow, Hdiff. reflexivity.
  - rewrite calculate_iv_from_price_parsed, Hp, Hnow, Hdiff. reflexivity.
Qed.

(** *** The price handed to the solver

    The wrapper adds no error of its own to a round trip: given the price
    [p] in quote currency divided by the spot, the solver is asked about
    [p] itself, and a relative error [tol] of its answer on the decimal
    volatility is the relative error of the percentage returned. *)
Lemma iv_from_underlying_price :
  forall instrument s p v sg tol snapshot_date_str utcnow
         strike ty expiry_dt now,
    parse_instrument instrument = Parsed strike ty expiry_dt ->
    now_of snapshot_date_str utcnow = Return now ->
    le0 (total_seconds expiry_dt now) = false ->
    ~ (s == 0)%Q ->
    implied_volatility (Finite (Qred p)) (Finite s) strike
      (fdiv_lit (total_seconds expiry_dt now) seconds_per_year)
      (Finite (1 # 20)) ty = Return (Finite sg) ->
    (Qabs (sg - v / 100) <= tol * (v / 100))%Q ->
    exists v',
      calculate_iv_from_price instrument (Finite s) (Finite (Qred (p / s)))
                              snapshot_date_str utcnow
      = Return (Some (Finite v')) /\
      (Qabs (v' - v) <= tol * v)%Q.
Proof.
  intros instrument s p v sg tol snapshot_date_str utcnow
         strike ty expiry_dt now Hp Hn Hl Hs Hsolve Htol.
  exists (Qred (sg * 100)). split.
  - rewrite calculate_iv_from_price_parsed, Hp, Hn, Hl.
    unfold DataUtils.implied_vol_at, r. cbn [fmul].
    replace (Qred (Qred (p / s) * s)) with (Qred p).
    + rewrite Hsolve. reflexivity.
    + apply Qred_complete. rewrite Qred_correct. field. exact Hs.
  - assert (E : (Qred (sg * 100) - v == (sg - v / 100) * 100)%Q)
      by (rewrite Qred_correct; field).
    rewrite E, Qabs_Qmult. change (Qabs 100) with 100%Q.
    setoid_replace (tol * v)%Q with (tol * (v / 100) * 100)%Q by field.
    apply Qmult_le_compat_r; [exact Htol | discriminate].
Qed.

End Valuation.


(** *** The theorems on concrete calls *)


(** At the settlement instant itself [t] is zero: expired, although [iv]
    is missing. *)
Lemma expired_before_iv_validation_witness :
  calculate_greeks Py.round (sample_greek 0) (sample_greek 0) (sample_greek 0)
                   (sample_greek 0)
                   "BTC-27MAR26-80000-C" (of_Z 90000) None
                   (Some "2026-03-27 08:00:00") new_year_2026
  = Return zeroed_expired.
Proof.
  exact (proj1 (proj2 (proj2
           (expired_before_iv_validation
              Py.round (sample_greek 0) (sample_greek 0) (sample_greek 0)
              (sample_greek 0)
              "BTC-27MAR26-80000-C" (of_Z 90000) None
              (Some "2026-03-27 08:00:00") new_year_2026
              (of_Z 80000) call (mk_datetime 2026 3 27 8 0 0 0)
              (mk_datetime 2026 3 27 8 0 0 0) eq_refl eq_refl)))
           eq_refl).
Defined.

(** C5, as stated, fails: an instrument that expired in 2020, valued on
    the clock of 2026 with no [iv], is tagged expired, not
    ["Invalid IV"]. *)
Lemma invalid_iv_tag_after_expiry_check :
  ~ (forall round delta gamma vega theta instrument spot_price iv
            snapshot_date_str utcnow,
        invalid_iv iv = true ->
        calculate_greeks round delta gamma vega theta instrument spot_price iv
                         snapshot_date_str utcnow
        = Return (zeroed_error "Invalid IV")).
Proof.
  intros H.
  specialize (H Py.round (sample_greek 0) (sample_greek 0) (sample_greek 0)
                (sample_greek 0) "BTC-27MAR20-80000-C" (of_Z 90000) None
                None new_year_2026 eq_refl).
  discriminate H.
Qed.

Lemma invalid_iv_on_live_instrument_witness :
  calculate_greeks Py.round (sample_greek 0) (sample_greek 0) (sample_greek 0)
                   (sample_greek 0)
                   "BTC-27MAR26-80000-C" (of_Z 90000) (Some (of_Z (-5)))
                   None new_year_2026
  = Return (zeroed_error "Invalid IV").
Proof.
  exact (invalid_iv_on_live_instrument
           Py.round (sample_greek 0) (sample_greek 0) (sample_greek 0)
           (sample_greek 0)
           "BTC-27MAR26-80000-C" (of_Z 90000) (Some (of_Z (-5)))
           None new_year_2026
           (of_Z 80000) call (mk_datetime 2026 3 27 8 0 0 0) new_year_2026
           eq_refl eq_refl eq_refl eq_refl).
Defined.



(** A price of 0.1 of the underlying at a spot of 90000 is 9000 in quote
    currency; the sample solver answers 9000 / 90000, returned as 10. *)
Lemma calculate_iv_from_price_success_witness :
  calculate_iv_from_price sample_solver
                          "BTC-27MAR26-80000-C" (of_Z 90000) (Finite (1 # 10))
                          None new_year_2026
  = Return (Some (of_Z 10)).
Proof.
  exact (calculate_iv_from_price_success sample_solver
           "BTC-27MAR26-80000-C" (of_Z 90000) (Finite (1 # 10))
           None new_year_2026
           (of_Z 80000) call (mk_datetime 2026 3 27 8 0 0 0) new_year_2026
           (Finite (1 # 10))
           eq_refl eq_refl eq_refl eq_refl).
Defined.



(** Valued as of its expiry date, [BTC-27MAR26-80000-C] has eight hours
    left, 4/4383 of a year. *)
Lemma as_of_expiry_date_not_expired_witness :
  time_to_expiry "27MAR26 08:00:00" (Some "2026-03-27") june_2026
  = Return (Live (Finite (4 # 4383))).
Proof.
  exact (proj1 (proj2
           (as_of_expiry_date_not_expired
              Py.round (sample_greek 0) (sample_greek 0) (sample_greek 0)
              (sample_greek 0) sample_solver
              "BTC-27MAR26-80000-C" "BTC" "27MAR26" "80000" "C"
              (of_Z 80000) (mk_datetime 2026 3 27 0 0 0 0) "2026-03-27"
              (of_Z 90000) None (of_Z 0) june_2026
              eq_refl eq_refl eq_refl eq_refl eq_refl))).
Defined.

End DataUtilsFacts.

(** ** Names as the exchange writes them *)

Module NameFacts.
Import Py Datetime DataUtils StrptimeFacts.

Lemma split_no_sep sep s : contains sep s = false -> split sep s = [s].
Proof.
  induction s as [|c s IH]; simpl; [reflexivity|].
  intros H. apply orb_false_elim in H as [Hc Hs].
  rewrite Hc, (IH Hs). reflexivity.
Qed.

Lemma split_field sep s rest :
  contains sep s = false ->
  split sep (s ++ String sep rest) = s :: split sep rest.
Proof.
  induction s as [|c s IH]; simpl.
  - intros _. rewrite Ascii.eqb_refl. reflexivity.
  - intros H. apply orb_false_elim in H as [Hc Hs].
    rewrite Hc, (IH Hs). reflexivity.
Qed.

Lemma split_four_fields a b c d :
  contains "-" a = false -> contains "-" b = false ->
  contains "-" c = false -> contains "-" d = false ->
  split "-" (a ++ "-" ++ b ++ "-" ++ c ++ "-" ++ d) = [a; b; c; d].
Proof.
  intros Ha Hb Hc Hd.
  change ("-" ++ b ++ "-" ++ c ++ "-" ++ d)
    with (String "-" (b ++ String "-" (c ++ String "-" d))).
  rewrite !split_field by assumption.
  rewrite split_no_sep by assumption. reflexivity.
Qed.

(** *** Decimal digits *)

Ltac each_digit d H :=
  assert (d = 0 \/ d = 1 \/ d = 2 \/ d = 3 \/ d = 4 \/ d = 5 \/ d = 6
          \/ d = 7 \/ d = 8 \/ d = 9) as Hcases by (unfold is_decimal_digit in H; lia);
  clear H;
  repeat (destruct Hcases as [->|Hcases]); [..|subst d].

Lemma digit_val_digit_char d :
  is_decimal_digit d -> digit_val (digit_char d) = Some d.
Proof. intros H. each_digit d H; reflexivity. Qed.

Lemma digit_char_plain d rest :
  is_decimal_digit d ->
  is_c_space (digit_char d) = false /\
  Ascii.eqb (digit_char d) "_" = false /\
  Ascii.eqb (digit_char d) "-" = false /\
  sign_of (String (digit_char d) rest) = (false, String (digit_char d) rest).
Proof. intros H. each_digit d H; repeat split; reflexivity. Qed.

Lemma digits_from_digits_str ds : forall acc len,
  Forall is_decimal_digit ds ->
  digits_from acc len (digits_str ds)
  = (fold_left (fun a d => 10 * a + d) ds acc, (len + List.length ds)%nat,
     EmptyString).
Proof.
  induction ds as [|d ds IH]; intros acc len H; simpl.
  - rewrite Nat.add_0_r. reflexivity.
  - inversion H as [|? ? Hd Hds]; subst.
    rewrite (digit_val_digit_char d Hd), (IH _ _ Hds).
    rewrite Nat.add_succ_r. reflexivity.
Qed.

Lemma contains_digits_str c ds :
  (forall d, is_decimal_digit d -> Ascii.eqb (digit_char d) c = false) ->
  Forall is_decimal_digit ds -> contains c (digits_str ds) = false.
Proof.
  intros Hc. induction 1 as [|d ds Hd _ IH]; simpl; [reflexivity|].
  rewrite (Hc d Hd), IH. reflexivity.
Qed.

Lemma lstrip_digits_str ds :
  Forall is_decimal_digit ds -> lstrip (digits_str ds) = digits_str ds.
Proof.
  destruct 1 as [|d ds Hd _]; simpl; [reflexivity|].
  destruct (digit_char_plain d "" Hd) as (-> & _). reflexivity.
Qed.

Lemma rstrip_digits_str ds :
  Forall is_decimal_digit ds -> rstrip (digits_str ds) = digits_str ds.
Proof.
  induction 1 as [|d ds Hd Hds IH]; simpl; [reflexivity|].
  rewrite IH. destruct Hds as [|d' ds' _ _]; simpl; [|reflexivity].
  destruct (digit_char_plain d "" Hd) as (-> & _). reflexivity.
Qed.

(** [float] reads a run of decimal digits as its value. *)
Lemma float_digits_str ds :
  ds <> [] -> Forall is_decimal_digit ds ->
  float (digits_str ds) = Return (of_Z (decimal_value ds)).
Proof.
  intros Hne Hds. unfold float.
  rewrite contains_digits_str;
    [|intros d Hd; apply (digit_char_plain d "" Hd)|exact Hds].
  rewrite lstrip_digits_str, rstrip_digits_str by exact Hds.
  unfold strtod.
  destruct ds as [|d ds]; [congruence|].
  inversion Hds as [|? ? Hd Hds']; subst.
  cbn [digits_str].
  destruct (digit_char_plain d (digits_str ds) Hd) as (_ & _ & _ & ->).
  change (String (digit_char d) (digits_str ds)) with (digits_str (d :: ds)).
  unfold digits. rewrite digits_from_digits_str by exact Hds.
  cbn [List.length Nat.add exponent_of whole].
  unfold scale10, of_Z, decimal_value.
  set (v := fold_left _ _ _).
  change (0 - Z.of_nat 0) with 0. change (Z.of_nat 0) with 0.
  cbn [Z.leb Z.compare Z.pow]. 
  replace (v * 1 + 0) with v by lia. replace (v * 1) with v by lia.
  rewrite Qcanon.Qred_identity; [reflexivity|]. simpl. apply Z.gcd_1_r.
Qed.

(** *** The expiry field *)

Lemma flat_map_flat_map {A B C} (k : B -> list C) (g : A -> list B)
    (l : list A) :
  flat_map k (flat_map g l) = flat_map (fun a => flat_map k (g a)) l.
Proof.
  induction l as [|a l IH]; simpl; [reflexivity|].
  rewrite flat_map_app, IH. reflexivity.
Qed.

Lemma paths_app ds1 ds2 : forall s t,
  paths (ds1 ++ ds2) s t
  = flat_map (fun p => paths ds2 (snd p) (fst p)) (paths ds1 s t).
Proof.
  induction ds1 as [|d ds1 IH]; intros s t; simpl.
  - rewrite app_nil_r. reflexivity.
  - rewrite flat_map_flat_map. apply flat_map_ext. intros vr. apply IH.
Qed.

(** [z] is one of the [k] integers from [lo] on: one goal for each. *)
Ltac enumerate z lo k :=
  lazymatch k with
  | O => exfalso; lia
  | S ?k' =>
      let H := fresh "Hne" in
      destruct (Z.eq_dec z lo) as [H|H];
      [ subst z
      | let lo' := eval compute in (lo + 1) in enumerate z lo' k' ]
  end.

(** The day and the month: one way to match, whatever follows the
    month. *)
Lemma paths_day_month pad d m rest :
  1 <= d <= 31 -> 1 <= m <= 12 ->
  paths [Dd; Db] (day_str pad d ++ nth (Z.to_nat (m - 1)) MONTHS "" ++ rest)
        initial
  = [(mk_datetime 1900 m d 0 0 0 0, rest)].
Proof.
  intros Hd Hm.
  enumerate m 1 12%nat; enumerate d 1 31%nat; destruct pad; reflexivity.
Qed.

Lemma two_digits_read n :
  0 <= n <= 99 -> two 0 9 0 9 (two_digits n) = [(n, EmptyString)].
Proof.
  intros Hn. unfold two_digits, two, one, digit_in. cbn [digits_str].
  assert (Ha : is_decimal_digit (n / 10))
    by (unfold is_decimal_digit; Z.div_mod_to_equations; lia).
  assert (Hb : is_decimal_digit (n mod 10))
    by (unfold is_decimal_digit; Z.div_mod_to_equations; lia).
  rewrite (digit_val_digit_char _ Ha), (digit_val_digit_char _ Hb).
  unfold is_decimal_digit in Ha, Hb.
  replace ((0 <=? n / 10) && (n / 10 <=? 9)) with true
    by (symmetry; apply andb_true_intro; split; apply Z.leb_le; lia).
  replace ((0 <=? n mod 10) && (n mod 10 <=? 9)) with true
    by (symmetry; apply andb_true_intro; split; apply Z.leb_le; lia).
  cbn [map]. rewrite (Z.div_mod n 10) at 3 by lia. reflexivity.
Qed.

Lemma contains_app c s1 s2 :
  contains c (s1 ++ s2) = contains c s1 || contains c s2.
Proof.
  induction s1 as [|a s1 IH]; simpl; [reflexivity|].
  rewrite IH. apply orb_assoc.
Qed.

Lemma contains_dash_digits ds :
  Forall is_decimal_digit ds -> contains "-" (digits_str ds) = false.
Proof.
  apply contains_digits_str. intros d Hd. apply (digit_char_plain d "" Hd).
Qed.

Lemma two_digits_digits n :
  0 <= n <= 99 -> Forall is_decimal_digit [n / 10; n mod 10].
Proof.
  intros Hn.
  repeat constructor; unfold is_decimal_digit; Z.div_mod_to_equations; lia.
Qed.

Lemma days_in_month_le y m : _days_in_month y m <= 31.
Proof.
  unfold _days_in_month. destruct ((m =? 2) && _is_leap y); [lia|].
  generalize (Z.to_nat m). intros n. unfold _DAYS_IN_MONTH.
  do 13 (destruct n as [|n]; [simpl; lia|]).
  destruct n; simpl; lia.
Qed.

(** Every expiry field the exchange can write is free of dashes and is
    read back by ["%d%b%y"] as the date it was written from. *)
Lemma expiry_name_read_back pad y m d :
  1969 <= y <= 2068 -> 1 <= m <= 12 -> 1 <= d <= _days_in_month y m ->
  contains "-" (expiry_name pad y m d) = false /\
  strptime (expiry_name pad y m d) fmt_dby
  = Return (mk_datetime y m d 0 0 0 0).
Proof.
  intros Hy Hm Hd.
  pose proof (days_in_month_le y m) as Hle.
  assert (Hyy : 0 <= y mod 100 <= 99) by (Z.div_mod_to_equations; lia).
  split.
  - unfold expiry_name. rewrite !contains_app.
    assert (Hyear : contains "-" (two_digits (y mod 100)) = false)
      by (apply (contains_dash_digits [(y mod 100) / 10; (y mod 100) mod 10]),
            two_digits_digits; exact Hyy).
    rewrite Hyear.
    assert (Hday : contains "-" (day_str pad d) = false).
    { unfold day_str. destruct (pad || (10 <=? d)) eqn:Hpad.
      - apply (contains_dash_digits [d / 10; d mod 10]), two_digits_digits.
        lia.
      - apply orb_false_elim in Hpad as [_ Hlt]. apply Z.leb_gt in Hlt.
        apply (contains_dash_digits [d]). repeat constructor;
          unfold is_decimal_digit; lia. }
    rewrite Hday. enumerate m 1 12%nat; reflexivity.
  - unfold strptime. rewrite run_best_path.
    change fmt_dby with (([Dd; Db] ++ [Dy])%list).
    unfold expiry_name.
    rewrite paths_app, paths_day_month by lia.
    cbn [flat_map paths fst snd app alts].
    rewrite two_digits_read by exact Hyy.
    cbn [flat_map app hd_error set_field fst snd
         year month day hour minute second microsecond].
    assert (Hyear : (if y mod 100 <=? 68 then y mod 100 + 2000
                     else y mod 100 + 1900) = y).
    { destruct (Z.leb_spec (y mod 100) 68) as [L|L];
        Z.div_mod_to_equations; lia. }
    rewrite Hyear. unfold check_fields.
    cbn [year month day hour minute second microsecond].
    replace ((1 <=? y) && (y <=? 9999)) with true
      by (symmetry; apply andb_true_intro; split; apply Z.leb_le; lia).
    replace ((1 <=? d) && (d <=? _days_in_month y m)) with true
      by (symmetry; apply andb_true_intro; split; apply Z.leb_le; lia).
    reflexivity.
Qed.

(** *** The whole name *)

(** Every name the exchange can write, with an underlying and a class
    free of dashes, a date between 1969 and 2068 and a strike of decimal
    digits, is parsed to the strike, the class and the date it was written
    from, the date at 08:00:00. *)
Lemma parse_instrument_name underlying pad y m d strike_digits class :
  contains "-" underlying = false -> contains "-" class = false ->
  1969 <= y <= 2068 -> 1 <= m <= 12 -> 1 <= d <= _days_in_month y m ->
  strike_digits <> [] -> Forall is_decimal_digit strike_digits ->
  parse_instrument
    (instrument_name underlying pad y m d strike_digits class)
  = Parsed (of_Z (decimal_value strike_digits))
           (if String.eqb class "C" then call else put)
           (mk_datetime y m d 8 0 0 0).
Proof.
  intros Hu Hc Hy Hm Hd Hne Hds.
  destruct (expiry_name_read_back pad y m d Hy Hm Hd) as [He Hread].
  apply (DataUtilsFacts.parse_instrument_of_fields
           _ underlying (expiry_name pad y m d) (digits_str strike_digits)
           class _ (mk_datetime y m d 0 0 0 0)).
  - apply split_four_fields; try assumption.
    apply contains_digits_str; [|exact Hds].
    intros d' Hd'. apply (digit_char_plain d' "" Hd').
  - apply float_digits_str; assumption.
  - exact Hread.
Qed.

End NameFacts.

(** ** Further properties of [data_utils.py] *)

Module DataUtilsMore.
Import Py Datetime DataUtils Domain Samples DataUtilsFacts.

Lemma positive_finite_fdiv_lit x c :
  le0 x = false -> (exists q, x = Finite q) ->
  positive_finite (fdiv_lit x c) = true.
Proof.
  intros Hle [q ->]. unfold positive_finite, fdiv_lit.
  change (Qle_bool (Qred (q / (Z.pos c # 1))) 0)
    with (le0 (fdiv_lit (Finite q) c)).
  rewrite le0_fdiv_lit, Hle. reflexivity.
Qed.

Lemma parse_instrument_strike_error instrument e :
  parse_instrument instrument = StrikeError e <->
  exists a b c d, split "-" instrument = [a; b; c; d] /\ float c = Raise e.
Proof.
  unfold parse_instrument. split.
  - destruct (Nat.eqb (List.length (split "-" instrument)) 4) eqn:Hlen;
      [|discriminate].
    destruct (length_four _ Hlen) as (a & b & c & d & Hs). rewrite Hs.
    cbn [negb nth]. destruct (float c) as [k|e'] eqn:Hf.
    + destruct (strptime _ _); discriminate.
    + intros [= ->]. exists a, b, c, d. auto.
  - intros (a & b & c & d & Hs & Hf). rewrite Hs.
    cbn [List.length Nat.eqb negb nth]. rewrite Hf. reflexivity.
Qed.

Lemma parse_instrument_invalid_format instrument :
  parse_instrument instrument = InvalidFormat <->
  List.length (split "-" instrument) <> 4%nat.
Proof.
  unfold parse_instrument.
  destruct (Nat.eqb (List.length (split "-" instrument)) 4) eqn:Hlen;
    cbn [negb].
  - apply Nat.eqb_eq in Hlen. split; [|lia].
    destruct (float _); [destruct (strptime _ _)|]; discriminate.
  - apply Nat.eqb_neq in Hlen. tauto.
Qed.

Section Valuation.

Variable round : pyfloat -> nat -> pyfloat.
Variables delta gamma vega theta :
  option_type -> pyfloat -> pyfloat -> pyfloat -> pyfloat -> pyfloat ->
  outcome pyfloat.
Variable implied_volatility :
  pyfloat -> pyfloat -> pyfloat -> pyfloat -> pyfloat -> option_type ->
  outcome pyfloat.

Local Notation "'calculate_greeks'" :=
  (DataUtils.calculate_greeks round delta gamma vega theta).
Local Notation "'greeks_at'" := (DataUtils.greeks_at round delta gamma vega theta).
Local Notation "'calculate_iv_from_price'" :=
  (DataUtils.calculate_iv_from_price implied_volatility).
Local Notation "'implied_vol_at'" :=
  (DataUtils.implied_vol_at implied_volatility).

(** X1. On float arguments (the spot price, the option price, an [iv]
    that is a float or [None]) the two functions raise in one case only:
    the name has exactly four dash-separated fields and [float] rejects
    the third; the exception is then the one [float] raised.  No failure
    of the library, no unreadable date and no reading of the clock makes
    either of them raise.  (An [int] in place of a float is outside the
    statement: lines 52 and 103 are outside the [try] blocks and raise
    [OverflowError] on an [int] too large for a float.) *)
Theorem raises_only_on_strike :
  forall instrument spot_price iv option_price snapshot_date_str utcnow e,
    (calculate_greeks instrument spot_price iv snapshot_date_str utcnow
     = Raise e
     <-> exists a b c d,
           split "-" instrument = [a; b; c; d] /\ float c = Raise e) /\
    (calculate_iv_from_price instrument spot_price option_price
                             snapshot_date_str utcnow = Raise e
     <-> exists a b c d,
           split "-" instrument = [a; b; c; d] /\ float c = Raise e).
Proof.
  intros. split.
  - rewrite calculate_greeks_raises_iff. apply parse_instrument_strike_error.
  - rewrite calculate_iv_from_price_raises_iff.
    apply parse_instrument_strike_error.
Qed.

(** X2. No partial results.  Whatever [calculate_greeks] returns is one
    of three dictionaries: the zeroed one tagged expired, the zeroed one
    tagged with an error message, or, with no tag at all, the four
    library values rounded to 4, 6, 4 and 4 places; the last only when
    [iv] passed validation and all four library calls returned. *)
Theorem greeks_all_or_nothing :
  forall instrument spot_price iv snapshot_date_str utcnow g,
    calculate_greeks instrument spot_price iv snapshot_date_str utcnow
    = Return g ->
    g = zeroed_expired \/
    (exists msg, g = zeroed_error msg) \/
    (exists x strike ty t d gm v th,
        iv = Some x /\ invalid_iv iv = false /\
        delta ty spot_price strike t r (fdiv_lit x 100) = Return d /\
        gamma ty spot_price strike t r (fdiv_lit x 100) = Return gm /\
        vega ty spot_price strike t r (fdiv_lit x 100) = Return v /\
        theta ty spot_price strike t r (fdiv_lit x 100) = Return th /\
        g = mk_greeks (round d 4) (round gm 6) (round v 4) (round th 4)
                      None None).
Proof.
  intros instrument spot_price iv snapshot_date_str utcnow g.
  rewrite calculate_greeks_parsed.
  destruct (parse_instrument instrument) as [|e|e|strike ty expiry_dt].
  - intros [= <-]. right. left. eauto.
  - discriminate.
  - intros [= <-]. right. left. eauto.
  - destruct (now_of snapshot_date_str utcnow) as [now|e].
    2:{ intros [= <-]. right. left. eauto. }
    destruct (le0 (total_seconds expiry_dt now)).
    { intros [= <-]. left. reflexivity. }
    unfold DataUtils.greeks_at. destruct iv as [x|].
    2:{ intros [= <-]. right. left. eauto. }
    destruct (invalid_iv (Some x)) eqn:Hiv.
    { intros [= <-]. right. left. eauto. }
    unfold rounded_greeks.
    destruct (delta _ _ _ _ _ _) as [d|e] eqn:Hd; cbn [bind try_except].
    2:{ intros [= <-]. right. left. eauto. }
    destruct (gamma _ _ _ _ _ _) as [gm|e] eqn:Hg; cbn [bind try_except].
    2:{ intros [= <-]. right. left. eauto. }
    destruct (vega _ _ _ _ _ _) as [v|e] eqn:Hv; cbn [bind try_except].
    2:{ intros [= <-]. right. left. eauto. }
    destruct (theta _ _ _ _ _ _) as [th|e] eqn:Ht; cbn [bind try_except].
    2:{ intros [= <-]. right. left. eauto. }
    intros [= <-]. right. right.
    exists x, strike, ty,
      (fdiv_lit (total_seconds expiry_dt now) seconds_per_year), d, gm, v, th.
    repeat split; assumption.
Qed.

(** The tag of an invalid format is given for the field count and for
    nothing else. *)
Lemma invalid_format_tag instrument spot_price iv snapshot_date_str utcnow g :
  calculate_greeks instrument spot_price iv snapshot_date_str utcnow
  = Return g ->
  (key_error g = Some "Invalid instrument format"
   <-> List.length (split "-" instrument) <> 4%nat).
Proof.
  intros Hg. rewrite <- parse_instrument_invalid_format.
  rewrite calculate_greeks_parsed in Hg.
  destruct (parse_instrument instrument) as [|e|e|strike ty expiry_dt].
  - injection Hg as <-. split; reflexivity.
  - discriminate.
  - injection Hg as <-. split; discriminate.
  - split; [|discriminate]. intros Hk. exfalso.
    destruct (now_of snapshot_date_str utcnow) as [now|e].
    2:{ injection Hg as <-. discriminate. }
    destruct (le0 _).
    { injection Hg as <-. discriminate. }
    unfold DataUtils.greeks_at in Hg. destruct iv as [x|].
    2:{ injection Hg as <-. discriminate. }
    destruct (invalid_iv (Some x)).
    { injection Hg as <-. discriminate. }
    unfold rounded_greeks in Hg.
    destruct (delta _ _ _ _ _ _); cbn [bind try_except] in Hg.
    2:{ injection Hg as <-. discriminate. }
    destruct (gamma _ _ _ _ _ _); cbn [bind try_except] in Hg.
    2:{ injection Hg as <-. discriminate. }
    destruct (vega _ _ _ _ _ _); cbn [bind try_except] in Hg.
    2:{ injection Hg as <-. discriminate. }
    destruct (theta _ _ _ _ _ _); cbn [bind try_except] in Hg.
    2:{ injection Hg as <-. discriminate. }
    injection Hg as <-. discriminate.
Qed.

(** X3. [calculate_iv_from_price] returns a number exactly when the name
    parses, the observation instant is available, the time to expiry is
    positive and the solver returns; the number is the solver's answer
    times 100.  In every other case in which it returns, it returns
    [None]. *)
Theorem implied_vol_some_iff :
  forall instrument spot_price option_price snapshot_date_str utcnow v,
    calculate_iv_from_price instrument spot_price option_price
                            snapshot_date_str utcnow = Return (Some v)
    <-> exists strike ty expiry_dt now sigma,
          parse_instrument instrument = Parsed strike ty expiry_dt /\
          now_of snapshot_date_str utcnow = Return now /\
          le0 (total_seconds expiry_dt now) = false /\
          implied_volatility (fmul option_price spot_price) spot_price strike
            (fdiv_lit (total_seconds expiry_dt now) seconds_per_year)
            (Finite (1 # 20)) ty = Return sigma /\
          v = fmul sigma (of_Z 100).
Proof.
  intros instrument spot_price option_price snapshot_date_str utcnow v.
  rewrite calculate_iv_from_price_parsed. split.
  - destruct (parse_instrument instrument) as [|e|e|strike ty expiry_dt];
      try discriminate.
    destruct (now_of snapshot_date_str utcnow) as [now|e]; [|discriminate].
    destruct (le0 (total_seconds expiry_dt now)) eqn:Hl; [discriminate|].
    unfold DataUtils.implied_vol_at.
    destruct (implied_volatility _ _ _ _ _ _) as [sigma|e] eqn:Hs;
      cbn [bind try_except]; [|discriminate].
    intros [= <-]. exists strike, ty, expiry_dt, now, sigma.
    repeat split; auto.
  - intros (strike & ty & expiry_dt & now & sigma & -> & -> & -> & Hs & ->).
    unfold DataUtils.implied_vol_at, r. rewrite Hs. reflexivity.
Qed.

End Valuation.

(** On 1 January 2026, at [iv = 55], the four sample values come back,
    untagged. *)
Lemma greeks_all_or_nothing_witness :
  sample_greeks = zeroed_expired \/
  (exists msg, sample_greeks = zeroed_error msg) \/
  (exists x strike ty t d gm v th,
      Some (Finite 55) = Some x /\ invalid_iv (Some (Finite 55)) = false /\
      sample_delta ty (of_Z 90000) strike t r (fdiv_lit x 100) = Return d /\
      sample_gamma ty (of_Z 90000) strike t r (fdiv_lit x 100) = Return gm /\
      sample_vega ty (of_Z 90000) strike t r (fdiv_lit x 100) = Return v /\
      sample_theta ty (of_Z 90000) strike t r (fdiv_lit x 100) = Return th /\
      sample_greeks
      = mk_greeks (round d 4) (round gm 6) (round v 4) (round th 4)
                  None None).
Proof.
  exact (greeks_all_or_nothing
           Py.round sample_delta sample_gamma sample_vega sample_theta
           "BTC-27MAR26-80000-C" (of_Z 90000) (Some (Finite 55)) None
           new_year_2026 sample_greeks eq_refl).
Defined.

Lemma le0_false_not_negative x : le0 x = false -> negative x = false.
Proof.
  destruct x as [q|sign|]; cbn [le0 negative]; auto.
  unfold is_neg. intros H.
  destruct (Qle_bool 0 q) eqn:E; [reflexivity|].
  exfalso. destruct (Qlt_le_dec q 0) as [L|L].
  - apply Qlt_le_weak, Qle_bool_iff in L. congruence.
  - apply Qle_bool_iff in L. congruence.
Qed.

(** X4. The library is never asked about an expired option or with a
    negative volatility.  The Greeks routines are called with a finite
    positive [t], the rate 0.05 and a [sigma] that is not negative, and
    the solver with a finite positive [t] and the rate 0.05: two
    libraries that agree on such arguments give the same results in both
    functions, however they differ elsewhere.  ([sigma] is [iv / 100] for
    an [iv] above zero; the quotient of a very small [iv] is zero in
    double precision, so zero is not excluded.) *)
Theorem library_domain :
  forall round delta gamma vega theta implied_volatility
         delta' gamma' vega' theta' implied_volatility'
         instrument spot_price iv option_price snapshot_date_str utcnow,
    (forall ty S K t sigma,
        positive_finite t = true -> negative sigma = false ->
        delta ty S K t (Finite (1 # 20)) sigma
        = delta' ty S K t (Finite (1 # 20)) sigma /\
        gamma ty S K t (Finite (1 # 20)) sigma
        = gamma' ty S K t (Finite (1 # 20)) sigma /\
        vega ty S K t (Finite (1 # 20)) sigma
        = vega' ty S K t (Finite (1 # 20)) sigma /\
        theta ty S K t (Finite (1 # 20)) sigma
        = theta' ty S K t (Finite (1 # 20)) sigma) ->
    (forall price S K t ty,
        positive_finite t = true ->
        implied_volatility price S K t (Finite (1 # 20)) ty
        = implied_volatility' price S K t (Finite (1 # 20)) ty) ->
    calculate_greeks round delta gamma vega theta
                     instrument spot_price iv snapshot_date_str utcnow
    = calculate_greeks round delta' gamma' vega' theta'
                       instrument spot_price iv snapshot_date_str utcnow /\
    calculate_iv_from_price implied_volatility
                            instrument spot_price option_price
                            snapshot_date_str utcnow
    = calculate_iv_from_price implied_volatility'
                              instrument spot_price option_price
                              snapshot_date_str utcnow.
Proof.
  intros round delta gamma vega theta implied_volatility
         delta' gamma' vega' theta' implied_volatility'
         instrument spot_price iv option_price snapshot_date_str utcnow
         Hg Hs.
  rewrite !calculate_greeks_parsed, !calculate_iv_from_price_parsed.
  destruct (parse_instrument instrument) as [|e|e|strike ty expiry_dt];
    try (split; reflexivity).
  destruct (now_of snapshot_date_str utcnow) as [now|e];
    [|split; reflexivity].
  destruct (le0 (total_seconds expiry_dt now)) eqn:Hl; [split; reflexivity|].
  assert (Ht : positive_finite
                 (fdiv_lit (total_seconds expiry_dt now) seconds_per_year)
               = true)
    by (apply positive_finite_fdiv_lit; [exact Hl | unfold total_seconds; eauto]).
  split.
  - unfold greeks_at. destruct iv as [x|]; [|reflexivity].
    destruct (invalid_iv (Some x)) eqn:Hiv; [reflexivity|].
    assert (Hx : negative (fdiv_lit x 100) = false).
    { apply le0_false_not_negative. rewrite le0_fdiv_lit. simpl in Hiv.
      apply orb_false_elim in Hiv as [_ Hiv]. exact Hiv. }
    destruct (Hg ty spot_price strike _ _ Ht Hx) as (Ed & Eg & Ev & Et).
    unfold rounded_greeks, r. rewrite Ed, Eg, Ev, Et. reflexivity.
  - unfold implied_vol_at, r. rewrite (Hs _ spot_price strike _ ty Ht).
    reflexivity.
Qed.

(** The sample library and the one that raises for an expired option or
    a negative volatility give the same results for a live call. *)
Lemma library_domain_witness :
  calculate_greeks Py.round sample_delta sample_gamma sample_vega sample_theta
                   "BTC-27MAR26-80000-C" (of_Z 90000) (Some (Finite 55))
                   None new_year_2026
  = calculate_greeks Py.round (picky_greek (1 # 2)) (picky_greek (1 # 1000))
                     (picky_greek 12) (picky_greek (-30))
                     "BTC-27MAR26-80000-C" (of_Z 90000) (Some (Finite 55))
                     None new_year_2026 /\
  calculate_iv_from_price sample_solver
                          "BTC-27MAR26-80000-C" (of_Z 90000) (Finite (1 # 10))
                          None new_year_2026
  = calculate_iv_from_price picky_solver
                            "BTC-27MAR26-80000-C" (of_Z 90000)
                            (Finite (1 # 10)) None new_year_2026.
Proof.
  apply (library_domain
           Py.round
           sample_delta sample_gamma sample_vega sample_theta sample_solver
           (picky_greek (1 # 2)) (picky_greek (1 # 1000))
           (picky_greek 12) (picky_greek (-30)) picky_solver
           "BTC-27MAR26-80000-C" (of_Z 90000) (Some (Finite 55))
           (Finite (1 # 10)) None new_year_2026).
  - intros ty S K t sigma Ht Hs. unfold picky_greek. rewrite Ht, Hs.
    repeat split; reflexivity.
  - intros price S K t ty Ht. unfold picky_solver. rewrite Ht. reflexivity.
Defined.

End DataUtilsMore.

(** ** Lists, sums and sorting *)

Module PyListFacts.
Import Py PyList Notions.

(** The [i]-th item of a slice is the [i]-th item of the list. *)
Lemma slice_to_prefix {A} (l : list A) stop :
  exists rest, l = (slice_to l stop ++ rest)%list.
Proof.
  unfold slice_to. destruct (0 <=? stop).
  - exists (skipn (Z.to_nat stop) l). symmetry. apply firstn_skipn.
  - exists (skipn (List.length l - Z.to_nat (- stop)) l).
    symmetry. apply firstn_skipn.
Qed.

Lemma slice_to_length {A} (l : list A) stop :
  0 <= stop -> (List.length (slice_to l stop) <= Z.to_nat stop)%nat.
Proof.
  intros H. unfold slice_to.
  replace (0 <=? stop) with true by (symmetry; apply Z.leb_le; exact H).
  apply firstn_le_length.
Qed.

Lemma In_slice_to {A} (l : list A) stop x : In x (slice_to l stop) -> In x l.
Proof.
  intros H. destruct (slice_to_prefix l stop) as [rest E].
  rewrite E. apply in_or_app. left. exact H.
Qed.

Lemma subsequence_nil_l {A} (l : list A) : subsequence [] l.
Proof. induction l; constructor; assumption. Qed.

Lemma subsequence_refl {A} (l : list A) : subsequence l l.
Proof. induction l; constructor; assumption. Qed.

Lemma subsequence_app_r {A} (l1 l2 rest : list A) :
  subsequence l1 l2 -> subsequence l1 (l2 ++ rest).
Proof.
  induction 1; simpl.
  - induction rest; constructor; assumption.
  - constructor; assumption.
  - constructor; assumption.
Qed.

Lemma subsequence_length {A} (l1 l2 : list A) :
  subsequence l1 l2 -> (List.length l1 <= List.length l2)%nat.
Proof. induction 1; simpl; lia. Qed.

Lemma subsequence_In {A} (l1 l2 : list A) x :
  subsequence l1 l2 -> In x l1 -> In x l2.
Proof.
  induction 1; simpl; auto.
  intros [->|H']; auto.
Qed.

Lemma subsequence_NoDup {A} (l1 l2 : list A) :
  subsequence l1 l2 -> NoDup l2 -> NoDup l1.
Proof.
  induction 1; intros Hnd; [constructor| |].
  - inversion Hnd; auto.
  - inversion Hnd as [|? ? Hx Hl]; subst. constructor; auto.
    intros Hin. apply Hx. eapply subsequence_In; eassumption.
Qed.

(** *** [sorted] *)

Section Sorted.
Context {A : Type} (key : A -> Q).

Lemma insert_desc_perm x l : Permutation (x :: l) (insert_desc key x l).
Proof.
  induction l as [|y l IH]; simpl; [reflexivity|].
  destruct (Qle_bool (key y) (key x)); [reflexivity|].
  rewrite perm_swap. constructor. exact IH.
Qed.

Lemma sorted_desc_perm l : Permutation l (sorted_desc key l).
Proof.
  induction l as [|x l IH]; simpl; [constructor|].
  rewrite <- insert_desc_perm. constructor. exact IH.
Qed.

Lemma insert_desc_sorted x l :
  StronglySorted (desc key) l -> StronglySorted (desc key) (insert_desc key x l).
Proof.
  induction 1 as [|y l Hl IH Hy]; simpl.
  - repeat constructor.
  - destruct (Qle_bool (key y) (key x)) eqn:E.
    + apply Qle_bool_iff in E. constructor.
      * constructor; assumption.
      * constructor; [exact E|].
        eapply Forall_impl; [|exact Hy].
        intros z Hz. unfold desc in *. eapply Qle_trans; eassumption.
    + constructor; [exact IH|].
      assert (Hxy : desc key y x).
      { unfold desc. destruct (Qlt_le_dec (key y) (key x)) as [L|L];
          [|exact L].
        apply Qlt_le_weak in L. apply Qle_bool_iff in L. congruence. }
      rewrite <- insert_desc_perm. constructor; assumption.
Qed.

Lemma sorted_desc_sorted l : StronglySorted (desc key) (sorted_desc key l).
Proof.
  induction l as [|x l IH]; simpl; [constructor|].
  apply insert_desc_sorted, IH.
Qed.

End Sorted.

Lemma StronglySorted_app_l {A} (R : A -> A -> Prop) l1 l2 :
  StronglySorted R (l1 ++ l2) -> StronglySorted R l1.
Proof.
  induction l1 as [|x l1 IH]; simpl; intros H; [constructor|].
  inversion H as [|? ? Hs Hf]; subst. constructor; [auto|].
  apply Forall_app in Hf. tauto.
Qed.

End PyListFacts.

(** ** Loops over calls *)

Module IOFacts.
Import Py IO Notions PyListFacts.

(** A loop whose body either leaves the results as they are or appends
    one row [P] relates to the item: the rows added are rows of a
    subsequence of the items, in order. *)
Lemma for_each_rows {W A R} (P : A -> R -> Prop)
    (body : A -> list R -> io W (list R)) :
  (forall x results w results' w',
      body x results w = (Return results', w') ->
      results' = results \/
      exists row, results' = (results ++ [row])%list /\ P x row) ->
  forall l results w rows w',
    for_each body l results w = (Return rows, w') ->
    exists picks,
      rows = (results ++ map snd picks)%list /\
      subsequence (map fst picks) l /\
      Forall (fun p => P (fst p) (snd p)) picks.
Proof.
  intros Hbody. induction l as [|x l IH]; intros results w rows w'; simpl.
  - unfold ret. intros [= <- _]. exists []. simpl.
    rewrite app_nil_r. repeat split; constructor.
  - unfold iobind. destruct (body x results w) as [[results1|e] w1] eqn:Hb;
      [|discriminate].
    intros Hrest. destruct (IH _ _ _ _ Hrest) as (picks & -> & Hsub & Hall).
    destruct (Hbody _ _ _ _ _ Hb) as [->|(row & -> & Hrow)].
    + exists picks. repeat split; [constructor|]; assumption.
    + exists ((x, row) :: picks). simpl.
      rewrite <- app_assoc. repeat split; constructor; assumption.
Qed.

(** A loop whose body always appends one row: a row for each item. *)
Lemma for_each_every {W A R} (P : A -> R -> Prop)
    (body : A -> list R -> io W (list R)) :
  (forall x results w results' w',
      body x results w = (Return results', w') ->
      exists row, results' = (results ++ [row])%list /\ P x row) ->
  forall l results w rows w',
    for_each body l results w = (Return rows, w') ->
    exists new, rows = (results ++ new)%list /\ Forall2 P l new.
Proof.
  intros Hbody. induction l as [|x l IH]; intros results w rows w'; simpl.
  - unfold ret. intros [= <- _]. exists []. rewrite app_nil_r.
    split; constructor.
  - unfold iobind. destruct (body x results w) as [[results1|e] w1] eqn:Hb;
      [|discriminate].
    intros Hrest. destruct (IH _ _ _ _ Hrest) as (new & -> & Hall).
    destruct (Hbody _ _ _ _ _ Hb) as (row & -> & Hrow).
    exists (row :: new). rewrite <- app_assoc. split; [reflexivity|].
    constructor; assumption.
Qed.

(** A loop raises what one of its turns raises. *)
Lemma for_each_raises {W A R} (body : A -> R -> io W R) :
  forall l results w e w',
    for_each body l results w = (Raise e, w') ->
    exists x results1 w1 w2,
      In x l /\ body x results1 w1 = (Raise e, w2).
Proof.
  induction l as [|x l IH]; intros results w e w'; simpl.
  - unfold ret. discriminate.
  - unfold iobind. destruct (body x results w) as [[results1|e1] w1] eqn:Hb.
    + intros H. destruct (IH _ _ _ _ H) as (y & r1 & wa & wb & Hin & Hy).
      exists y, r1, wa, wb. auto.
    + intros [= <- <-]. exists x, results, w, w1. auto.
Qed.

End IOFacts.

(** ** [deribit_api.py]: the historical index price *)

Module DeribitApiFacts.
Import Py Exchange IO DeribitApi Samples.

Lemma first_within_hour_skip timestamp pre : forall rest,
  Forall (fun s => 3600000 <= Z.abs (settlement_timestamp s - timestamp)) pre ->
  first_within_hour timestamp (pre ++ rest)
  = first_within_hour timestamp rest.
Proof.
  induction pre as [|s pre IH]; intros rest H; simpl; [reflexivity|].
  inversion H as [|? ? Hs Hpre]; subst.
  replace (Z.abs (settlement_timestamp s - timestamp) <? 3600000) with false
    by (symmetry; apply Z.ltb_ge; exact Hs).
  apply IH. exact Hpre.
Qed.

Section Client.

Variable world : Type.
Variable get_last_settlements_by_currency :
  string -> Z -> Z -> world -> option (list settlement) * world.

Local Notation "'get_historical_index_price'" :=
  (DeribitApi.get_historical_index_price
     world get_last_settlements_by_currency).

(** X5. [get_historical_index_price] answers with the first settlement
    of the list that lies less than an hour (3,600,000 ms) from the
    timestamp, not the nearest one: when the settlements before [s] are
    an hour or more away and [s] is less than an hour away, the result is
    the index price of [s], and [None] when [s] has none, whatever
    follows [s] in the list. *)
Theorem historical_price_first_match :
  forall currency timestamp w pre s post w',
    get_last_settlements_by_currency currency timestamp 10 w
    = (Some (pre ++ s :: post)%list, w') ->
    Forall (fun s' =>
              3600000 <= Z.abs (settlement_timestamp s' - timestamp)) pre ->
    Z.abs (settlement_timestamp s - timestamp) < 3600000 ->
    get_historical_index_price currency timestamp w
    = (Return (dict_get (settlement_index_price s)), w').
Proof.
  intros currency timestamp w pre s post w' Hget Hpre Hs.
  unfold DeribitApi.get_historical_index_price, iobind, perform.
  rewrite Hget. unfold ret.
  rewrite first_within_hour_skip by exact Hpre. simpl.
  replace (Z.abs (settlement_timestamp s - timestamp) <? 3600000) with true
    by (symmetry; apply Z.ltb_lt; exact Hs).
  reflexivity.
Qed.

(** X6. A price that [get_historical_index_price] returns is the index
    price of a settlement of the answer that lies less than an hour from
    the timestamp. *)
Theorem historical_price_sound :
  forall currency timestamp w p w',
    get_historical_index_price currency timestamp w = (Return (Some p), w') ->
    exists l s,
      get_last_settlements_by_currency currency timestamp 10 w = (Some l, w')
      /\ In s l /\
      Z.abs (settlement_timestamp s - timestamp) < 3600000 /\
      settlement_index_price s = Num p.
Proof.
  intros currency timestamp w p w'.
  unfold DeribitApi.get_historical_index_price, iobind, perform.
  destruct (get_last_settlements_by_currency currency timestamp 10 w)
    as [[l|] w1]; unfold ret; [|discriminate].
  intros [= Hp <-]. exists l.
  assert (exists s, In s l /\
             Z.abs (settlement_timestamp s - timestamp) < 3600000 /\
             settlement_index_price s = Num p) as (s & Hin & Hs & Hn).
  { induction l as [|s l IH]; simpl in Hp; [discriminate|].
    destruct (Z.ltb_spec (Z.abs (settlement_timestamp s - timestamp))
                         3600000) as [L|L].
    - exists s. split; [left; reflexivity|]. split; [exact L|].
      destruct (settlement_index_price s); simpl in Hp;
        try discriminate. congruence.
    - destruct (IH Hp) as (s' & Hin & Hs'). exists s'.
      split; [right; exact Hin | exact Hs']. }
  exists s. auto.
Qed.

End Client.

(** Asked for 08:30 of 26 January 2026, the sample exchange lists the
    settlements of the 28th and the 27th first; the one of the 26th, half
    an hour away, decides. *)
Lemma historical_price_first_match_witness :
  get_historical_index_price sample_world sample_get_settlements
                             "BTC" (JAN_26 + 30600000) 0%nat
  = (Return (Some 87500%Q), 1%nat).
Proof.
  refine (historical_price_first_match sample_world sample_get_settlements
            "BTC" (JAN_26 + 30600000) 0%nat
            (firstn 2 sample_settlements)
            (mk_settlement "BTC-26JAN26" (JAN_26 + 28800000) (Some "delivery")
                           (Num 87500) Missing Missing)
            (skipn 3 sample_settlements) 1%nat eq_refl _ _).
  - repeat constructor; vm_compute; intros H; discriminate H.
  - reflexivity.
Defined.

Lemma historical_price_sound_witness :
  exists l s,
    sample_get_settlements "BTC" (JAN_26 + 30600000) 10 0%nat
    = (Some l, 1%nat) /\
    In s l /\
    Z.abs (settlement_timestamp s - (JAN_26 + 30600000)) < 3600000 /\
    settlement_index_price s = Num 87500.
Proof.
  exact (historical_price_sound sample_world sample_get_settlements
           "BTC" (JAN_26 + 30600000) 0%nat 87500%Q 1%nat eq_refl).
Defined.

End DeribitApiFacts.

(** ** [main.py]: the trades of [get_live_trading_data] *)

Module LiveFacts.
Import Py Datetime DataUtils PyList Exchange IO Main Notions.
Import PyListFacts IOFacts.

Lemma existsb_eqb_In x l : existsb (String.eqb x) l = true <-> In x l.
Proof.
  rewrite existsb_exists. split.
  - intros (y & Hy & E). apply String.eqb_eq in E. subst. exact Hy.
  - intros H. exists x. split; [exact H | apply String.eqb_refl].
Qed.

Lemma distinct_snoc l x :
  distinct (l ++ [x])
  = if existsb (String.eqb x) (distinct l) then distinct l
    else (distinct l ++ [x])%list.
Proof. unfold distinct. rewrite fold_left_app. reflexivity. Qed.

Lemma distinct_In l : forall x, In x (distinct l) <-> In x l.
Proof.
  induction l as [|y l IH] using rev_ind; intros x; [simpl; tauto|].
  rewrite distinct_snoc, in_app_iff.
  destruct (existsb (String.eqb y) (distinct l)) eqn:E.
  - apply existsb_eqb_In in E. rewrite IH. simpl.
    split; [tauto|]. intros [H|[<-|[]]]; [exact H|]. apply IH, E.
  - rewrite in_app_iff, IH. reflexivity.
Qed.

Lemma distinct_NoDup l : NoDup (distinct l).
Proof.
  induction l as [|y l IH] using rev_ind; [constructor|].
  rewrite distinct_snoc.
  destruct (existsb (String.eqb y) (distinct l)) eqn:E; [exact IH|].
  apply NoDup_app; [exact IH | repeat constructor; simpl; tauto |].
  intros x Hx [<-|[]].
  apply existsb_eqb_In in Hx. congruence.
Qed.

Lemma instrument_data_snoc trades t :
  instrument_data (trades ++ [t]) = add_trade t (instrument_data trades).
Proof. unfold instrument_data. rewrite fold_left_app. reflexivity. Qed.

Lemma add_trade_new t f keys :
  ~ In (trade_instrument_name t) keys ->
  add_trade t (map (fun k => (k, f k)) keys)
  = (map (fun k => (k, f k)) keys
     ++ [(trade_instrument_name t, record_trade t empty_entry)])%list.
Proof.
  induction keys as [|k keys IH]; simpl; intros H; [reflexivity|].
  destruct (String.eqb_spec k (trade_instrument_name t)) as [E|E];
    [tauto|].
  rewrite IH by tauto. reflexivity.
Qed.

Lemma add_trade_old t f keys :
  NoDup keys -> In (trade_instrument_name t) keys ->
  add_trade t (map (fun k => (k, f k)) keys)
  = map (fun k => (k, if String.eqb k (trade_instrument_name t)
                      then record_trade t (f k) else f k)) keys.
Proof.
  induction keys as [|k keys IH]; simpl; intros Hnd Hin; [tauto|].
  inversion Hnd as [|? ? Hk Hnd']; subst.
  destruct (String.eqb_spec k (trade_instrument_name t)) as [E|E].
  - f_equal. apply map_ext_in. intros k' Hk'.
    destruct (String.eqb_spec k' (trade_instrument_name t)) as [E'|E'];
      [|reflexivity].
    congruence.
  - f_equal. apply IH; [exact Hnd'|]. destruct Hin; [congruence|assumption].
Qed.

Lemma entry_of_snoc ts t :
  entry_of (ts ++ [t]) = record_trade t (entry_of ts).
Proof. unfold entry_of, record_trade. simpl. rewrite !map_app. reflexivity. Qed.

Lemma trades_for_snoc k trades t :
  trades_for k (trades ++ [t])
  = if String.eqb k (trade_instrument_name t)
    then (trades_for k trades ++ [t])%list else trades_for k trades.
Proof.
  unfold trades_for. rewrite filter_app. simpl.
  destruct (String.eqb k (trade_instrument_name t));
    [reflexivity | apply app_nil_r].
Qed.

Lemma trades_for_none k trades :
  ~ In k (map trade_instrument_name trades) -> trades_for k trades = [].
Proof.
  induction trades as [|t trades IH]; simpl; intros H; [reflexivity|].
  destruct (String.eqb_spec k (trade_instrument_name t)) as [E|E].
  - exfalso. apply H. left. congruence.
  - apply IH. tauto.
Qed.

Lemma trades_for_some k trades :
  In k (map trade_instrument_name trades) -> trades_for k trades <> [].
Proof.
  induction trades as [|t trades IH]; simpl; intros H; [tauto|].
  destruct (String.eqb_spec k (trade_instrument_name t)) as [E|E];
    [discriminate|].
  apply IH. destruct H; [congruence|assumption].
Qed.

Lemma trades_for_In k trades t :
  In t (trades_for k trades) <-> In t trades /\ trade_instrument_name t = k.
Proof.
  unfold trades_for. rewrite filter_In, String.eqb_eq.
  split; intros [H E]; split; congruence.
Qed.

(** The grouping as a map over the names that traded. *)
Lemma instrument_data_map :
  forall all_trades,
    instrument_data all_trades
    = map (fun name => (name, entry_of (trades_for name all_trades)))
          (distinct (map trade_instrument_name all_trades)).
Proof.
  induction all_trades as [|t trades IH] using rev_ind; [reflexivity|].
  rewrite instrument_data_snoc, IH, map_app.
  change (map trade_instrument_name [t]) with [trade_instrument_name t].
  rewrite distinct_snoc.
  pose proof (distinct_NoDup (map trade_instrument_name trades)) as Hnd.
  destruct (existsb _ _) eqn:E.
  - apply existsb_eqb_In in E. rewrite add_trade_old by assumption.
    apply map_ext. intros k. rewrite trades_for_snoc.
    destruct (String.eqb k (trade_instrument_name t));
      [rewrite entry_of_snoc|]; reflexivity.
  - assert (Hnot : ~ In (trade_instrument_name t)
                       (distinct (map trade_instrument_name trades)))
      by (intros H; apply existsb_eqb_In in H; congruence).
    rewrite add_trade_new by exact Hnot. rewrite map_app. simpl.
    f_equal.
    + apply map_ext_in. intros k Hk. rewrite trades_for_snoc.
      destruct (String.eqb_spec k (trade_instrument_name t)) as [Ek|Ek];
        [congruence | reflexivity].
    + rewrite trades_for_snoc, String.eqb_refl, entry_of_snoc.
      rewrite trades_for_none by (rewrite <- distinct_In; exact Hnot).
      reflexivity.
Qed.

(** What an entry of the grouping is. *)
Lemma instrument_data_entry all_trades x :
  In x (instrument_data all_trades) ->
  snd x = entry_of (trades_for (fst x) all_trades) /\
  trades_for (fst x) all_trades <> [].
Proof.
  rewrite instrument_data_map, in_map_iff.
  intros (k & <- & Hk). simpl. split; [reflexivity|].
  apply trades_for_some, distinct_In, Hk.
Qed.

Lemma instrument_data_NoDup all_trades :
  NoDup (map fst (instrument_data all_trades)).
Proof.
  rewrite instrument_data_map, map_map. simpl. rewrite map_id.
  apply distinct_NoDup.
Qed.

(** X7. The grouping of lines 95-105 has one entry for each instrument
    that traded and none twice, in the order of the instruments' first
    trades, and the entry of an instrument holds the prices, amounts and
    timestamps of exactly its trades, in the order they came. *)
Theorem instrument_data_groups :
  forall all_trades,
    instrument_data all_trades
    = map (fun name => (name, entry_of (trades_for name all_trades)))
          (distinct (map trade_instrument_name all_trades)) /\
    NoDup (map fst (instrument_data all_trades)) /\
    forall name,
      In name (map fst (instrument_data all_trades))
      <-> In name (map trade_instrument_name all_trades).
Proof.
  intros all_trades.
  split; [apply instrument_data_map|].
  split; [apply instrument_data_NoDup|].
  intros name. rewrite instrument_data_map, map_map. simpl. rewrite map_id.
  apply distinct_In.
Qed.

(** *** The average price *)

Lemma length_positive {A} (l : list A) :
  l <> [] -> (0 < inject_Z (Z.of_nat (List.length l)))%Q.
Proof.
  destruct l as [|a l]; [congruence|]. intros _.
  unfold Qlt. simpl. lia.
Qed.

(** The average of line 124 is defined on every entry with a trade. *)
Lemma vwap_returns ts :
  ts <> [] ->
  exists v, vwap_of (prices (entry_of ts)) (volumes (entry_of ts)) = Return v.
Proof.
  intros Hne. unfold vwap_of, py_div.
  destruct (Qle_bool (py_sum (volumes (entry_of ts))) 0) eqn:E; cbn [negb].
  - simpl prices. rewrite length_map.
    destruct (Qeq_bool (inject_Z (Z.of_nat (List.length ts))) 0) eqn:E0;
      [|eauto].
    apply Qeq_bool_iff in E0. pose proof (length_positive ts Hne) as H.
    rewrite E0 in H. discriminate.
  - destruct (Qeq_bool (py_sum (volumes (entry_of ts))) 0) eqn:E0; [|eauto].
    apply Qeq_bool_iff in E0.
    assert (Qle_bool (py_sum (volumes (entry_of ts))) 0 = true)
      by (apply Qle_bool_iff; rewrite E0; apply Qle_refl).
    congruence.
Qed.

(** The instruments the rows are built from: at most [limit] of them
    (for a [limit] that is not negative), each one an instrument of the
    grouping and none twice, ordered by total traded volume, the largest
    first. *)
Lemma instruments_sorted_by_volume :
  forall all_trades limit,
    0 <= limit ->
    StronglySorted (desc total_volume) (instruments_sorted all_trades limit)
    /\ (List.length (instruments_sorted all_trades limit)
        <= Z.to_nat limit)%nat
    /\ NoDup (map fst (instruments_sorted all_trades limit))
    /\ (forall x, In x (instruments_sorted all_trades limit) ->
                  In x (instrument_data all_trades)).
Proof.
  intros all_trades limit Hlimit. unfold instruments_sorted.
  set (sorted := sorted_desc total_volume (instrument_data all_trades)).
  destruct (slice_to_prefix sorted limit) as [rest E].
  pose proof (sorted_desc_sorted total_volume (instrument_data all_trades))
    as Hs.
  pose proof (sorted_desc_perm total_volume (instrument_data all_trades))
    as Hp.
  fold sorted in Hs, Hp.
  split; [|split; [|split]].
  - rewrite E in Hs. eapply StronglySorted_app_l. exact Hs.
  - apply slice_to_length. exact Hlimit.
  - assert (Hnd : NoDup (map fst sorted)).
    { eapply Permutation_NoDup; [apply Permutation_map; exact Hp|].
      apply instrument_data_NoDup. }
    rewrite E, map_app in Hnd. eapply NoDup_app_remove_r. exact Hnd.
  - intros x Hx. eapply Permutation_in; [symmetry; exact Hp|].
    eapply In_slice_to. exact Hx.
Qed.

End LiveFacts.

(** ** [main.py]: the rows of [get_live_trading_data] *)

Module LiveRowFacts.
Import Py Datetime DataUtils PyList Exchange IO Main Notions.
Import PyListFacts IOFacts DataUtilsFacts LiveFacts.

Lemma float_raises s e : float s = Raise e -> e = float_error.
Proof.
  unfold float, whole.
  destruct (if contains "_" s then drop_underscores "000" s else Some s)
    as [s1|]; [|congruence].
  destruct (strtod (rstrip (lstrip s1))) as [[x [|c rest]]|];
    try congruence.
  destruct (parse_inf_or_nan (rstrip (lstrip s1))) as [[x [|c rest]]|];
    congruence.
Qed.

Lemma strike_error_is_float_error instrument e :
  parse_instrument instrument = StrikeError e -> e = float_error.
Proof.
  unfold parse_instrument.
  destruct (negb _); [discriminate|].
  destruct (float _) as [k|e'] eqn:Hf.
  - destruct (strptime _ _); discriminate.
  - intros [= <-]. eapply float_raises. exact Hf.
Qed.

Lemma last_item_returns {A} (l : list A) :
  l <> [] -> exists x, last_item l = Return x.
Proof.
  intros H. unfold last_item. destruct (rev l) as [|x r] eqn:E; [|eauto].
  exfalso. apply H. rewrite <- (rev_involutive l), E. reflexivity.
Qed.

Lemma sane_iv_inv iv :
  sane_iv iv = true ->
  exists q, iv = Some (Finite q) /\ (0 < q)%Q /\ (q < 500)%Q /\
            invalid_iv iv = false.
Proof.
  destruct iv as [[q| |]|]; simpl; try discriminate.
  intros H. apply andb_prop in H as [H H500].
  apply andb_prop in H as [Hnz Hpos].
  exists q. split; [reflexivity|].
  assert (Hq : Qle_bool q 0 = false)
    by (destruct (Qle_bool q 0); [discriminate | reflexivity]).
  assert (H5 : Qle_bool 500 q = false)
    by (destruct (Qle_bool 500 q); [discriminate | reflexivity]).
  split; [|split].
  - destruct (Qlt_le_dec 0 q) as [L|L]; [exact L|].
    apply Qle_bool_iff in L. congruence.
  - destruct (Qlt_le_dec q 500) as [L|L]; [exact L|].
    apply Qle_bool_iff in L. congruence.
  - unfold nonzero in Hnz. rewrite Hnz, Hq. reflexivity.
Qed.

Lemma rows_follow_instruments xs rows :
  Forall2 (fun x row => live_instrument row = fst x /\
                        live_total_volume row = total_volume x) xs rows ->
  StronglySorted (desc total_volume) xs ->
  NoDup (map fst xs) ->
  StronglySorted (desc live_total_volume) rows /\
  NoDup (map live_instrument rows) /\
  List.length rows = List.length xs.
Proof.
  intros Hrel.
  assert (Hkeys : map live_instrument rows = map fst xs).
  { induction Hrel as [|? ? ? ? [E _] _ IH]; simpl;
      [reflexivity | rewrite E, IH; reflexivity]. }
  intros Hs Hnd. split; [|split].
  - clear Hkeys Hnd.
    induction Hrel as [|x row xs rows [Hi Hv] Hrel IH]; [constructor|].
    inversion Hs as [|? ? Hs' Hall]; subst.
    constructor; [apply IH; exact Hs'|].
    clear - Hall Hrel Hv. induction Hrel as [|y r ys rs [_ Ev] _ IH'];
      [constructor|].
    inversion Hall as [|? ? Hy Hall']; subst.
    constructor; [|apply IH'; exact Hall'].
    unfold desc in *. rewrite Hv, Ev. exact Hy.
  - rewrite Hkeys. exact Hnd.
  - symmetry. eapply Forall2_length. exact Hrel.
Qed.

Section World.

Variable world : Type.
Variable get_index_price : string -> world -> option Q * world.
Variable get_last_trades_by_currency :
  string -> Z -> Z -> Z -> world -> list trade * world.
Variable utcnow : world -> datetime * world.
Variable now_utc : world -> Z * world.
Variable strftime : Z -> string -> string.
Variable round : pyfloat -> nat -> pyfloat.
Variables delta gamma vega theta :
  option_type -> pyfloat -> pyfloat -> pyfloat -> pyfloat -> pyfloat ->
  outcome pyfloat.
Variable implied_volatility :
  pyfloat -> pyfloat -> pyfloat -> pyfloat -> pyfloat -> option_type ->
  outcome pyfloat.

Local Notation "'live_row_of'" :=
  (Main.live_row_of world utcnow strftime round delta gamma vega theta
                    implied_volatility).
Local Notation "'get_live_trading_data'" :=
  (Main.get_live_trading_data world get_index_price
     get_last_trades_by_currency utcnow now_utc strftime
     round delta gamma vega theta implied_volatility).

(** The Greeks of a row whose volatility passed the sanity check. *)
Lemma sane_greeks instrument spot iv w1 now2 v :
  calculate_iv_from_price implied_volatility instrument spot v None
    (fst (utcnow w1)) = Return iv ->
  sane_iv iv = true ->
  exists g,
    calculate_greeks round delta gamma vega theta instrument spot iv None now2
    = Return g /\
    (key_error g = None \/
     exists e, key_error g = Some ("Greeks calc error: " ++ str_of_exn e)).
Proof.
  intros Hiv Hsane.
  destruct (sane_iv_inv _ Hsane) as (q & -> & _ & _ & Hvalid).
  rewrite calculate_iv_from_price_parsed in Hiv.
  rewrite calculate_greeks_parsed.
  destruct (parse_instrument instrument) as [|e|e|strike ty expiry_dt];
    try discriminate.
  cbn [now_of].
  destruct (le0 (total_seconds expiry_dt now2)).
  - exists zeroed_expired. split; [reflexivity | left; reflexivity].
  - unfold greeks_at. rewrite Hvalid.
    destruct (rounded_greeks _ _ _ _ _ _ _ _ _) as [g|e] eqn:Hr;
      cbn [try_except].
    + exists g. split; [reflexivity|]. left.
      unfold rounded_greeks in Hr.
      destruct (delta _ _ _ _ _ _); cbn [bind] in Hr; [|discriminate].
      destruct (gamma _ _ _ _ _ _); cbn [bind] in Hr; [|discriminate].
      destruct (vega _ _ _ _ _ _); cbn [bind] in Hr; [|discriminate].
      destruct (theta _ _ _ _ _ _); cbn [bind] in Hr; [|discriminate].
      injection Hr as <-. reflexivity.
    + eexists. split; [reflexivity|]. right. exists e. reflexivity.
Qed.

(** What a row says about the instrument it was built from. *)
Lemma live_row_of_row spot x w row w' :
  live_row_of spot x w = (Return row, w') ->
  live_instrument row = fst x /\
  live_total_volume row = total_volume x /\
  live_num_trades row = List.length (prices (snd x)) /\
  live_spot_price row = spot /\
  vwap_of (prices (snd x)) (volumes (snd x)) = Return (live_vwap row) /\
  ((live_calculated_iv row = None /\
    live_delta row = None /\ live_gamma row = None /\
    live_vega row = None /\ live_theta row = None /\
    live_error row = None /\ live_expired row = None) \/
   (exists q d gm v th,
       live_calculated_iv row = Some (Finite q) /\
       (0 < q)%Q /\ (q < 500)%Q /\
       live_delta row = Some d /\ live_gamma row = Some gm /\
       live_vega row = Some v /\ live_theta row = Some th /\
       (live_error row = None \/
        exists e, live_error row
                  = Some ("Greeks calc error: " ++ str_of_exn e)))).
Proof.
  unfold Main.live_row_of, iobind, lift, with_clock, ret.
  destruct (vwap_of _ _) as [vwap|e]; [|discriminate].
  destruct (last_item (prices (snd x))) as [latest|e]; [|discriminate].
  destruct (utcnow w) as [now1 w1] eqn:Hnow1.
  destruct (calculate_iv_from_price _ _ _ _ _ _) as [iv|e] eqn:Hiv;
    [|discriminate].
  destruct (sane_iv iv) eqn:Hsane.
  - destruct (utcnow w1) as [now2 w2].
    assert (Hiv' : calculate_iv_from_price implied_volatility (fst x)
                     (to_float spot) (to_float vwap) None (fst (utcnow w))
                   = Return iv) by (rewrite Hnow1; exact Hiv).
    destruct (sane_greeks _ _ _ _ now2 _ Hiv' Hsane) as (g & -> & Hg).
    destruct (last_item (timestamps (snd x))) as [ts|e]; [|discriminate].
    destruct (fromtimestamp_utc ts) as [dt|e]; [|discriminate].
    intros [= <- _]. cbn.
    repeat split; try reflexivity. right.
    destruct (sane_iv_inv _ Hsane) as (q & -> & Hq0 & Hq500 & _).
    exists q, (key_delta g), (key_gamma g), (key_vega g), (key_theta g).
    repeat split; auto.
  - destruct (last_item (timestamps (snd x))) as [ts|e]; [|discriminate].
    destruct (fromtimestamp_utc ts) as [dt|e]; [|discriminate].
    intros [= <- _]. cbn.
    repeat split; try reflexivity. left. repeat split; reflexivity.
Qed.

(** A row can fail to be built in two ways only. *)
Lemma live_row_of_raises all_trades spot x w e w' :
  In x (instrument_data all_trades) ->
  live_row_of spot x w = (Raise e, w') ->
  e = float_error \/ e = ValueError "year is out of range".
Proof.
  intros Hx. destruct (instrument_data_entry _ _ Hx) as [Hentry Hne].
  unfold Main.live_row_of, iobind, lift, with_clock, ret.
  rewrite Hentry.
  destruct (vwap_returns _ Hne) as [vwap ->].
  destruct (last_item_returns (prices (entry_of (trades_for (fst x) all_trades))))
    as [latest ->].
  { simpl. destruct (trades_for (fst x) all_trades); [congruence|discriminate]. }
  destruct (last_item_returns
              (timestamps (entry_of (trades_for (fst x) all_trades))))
    as [ts Hts].
  { simpl. destruct (trades_for (fst x) all_trades); [congruence|discriminate]. }
  destruct (utcnow w) as [now1 w1].
  destruct (calculate_iv_from_price _ _ _ _ _ _) as [iv|e1] eqn:Hiv.
  - destruct (sane_iv iv).
    + destruct (utcnow w1) as [now2 w2].
      destruct (calculate_greeks _ _ _ _ _ _ _ _ _) as [g|e2] eqn:Hg.
      * rewrite Hts. unfold fromtimestamp_utc.
        destruct (in_datetime_range _); [discriminate|].
        intros [= <- _]. right. reflexivity.
      * intros [= <- _]. left.
        apply calculate_greeks_raises_iff in Hg.
        eapply strike_error_is_float_error. exact Hg.
    + rewrite Hts. unfold fromtimestamp_utc.
      destruct (in_datetime_range _); [discriminate|].
      intros [= <- _]. right. reflexivity.
  - intros [= <- _]. left.
    apply calculate_iv_from_price_raises_iff in Hiv.
    eapply strike_error_is_float_error. exact Hiv.
Qed.

(** The table is the rows of the instruments of [instruments_sorted], or
    empty. *)
Lemma live_rows currency minutes_back limit w rows w' :
  get_live_trading_data currency minutes_back limit w = (Return rows, w') ->
  rows = [] \/
  exists all_trades,
    Forall2 (fun x row => exists w1 w2, live_row_of (live_spot_price row) x w1
                                        = (Return row, w2))
            (instruments_sorted all_trades limit) rows.
Proof.
  unfold Main.get_live_trading_data, iobind, perform, ret.
  destruct (get_index_price currency w) as [[spot|] w1];
    [|intros [= <- _]; left; reflexivity].
  destruct (negb (nonzero spot)); [intros [= <- _]; left; reflexivity|].
  destruct (now_utc w1) as [now w2].
  destruct (get_last_trades_by_currency _ _ _ _ w2) as [[|t trades] w3];
    [intros [= <- _]; left; reflexivity|].
  intros H. right. exists (t :: trades).
  apply (for_each_every
           (fun x row => exists w1 w2,
                live_row_of (live_spot_price row) x w1 = (Return row, w2)))
    in H.
  - destruct H as (new & -> & H). exact H.
  - clear. intros x results wa results' wb.
    unfold iobind, ret.
    destruct (live_row_of spot x wa) as [[row|e] wc] eqn:Hrow;
      [|discriminate].
    intros [= <- <-]. exists row. split; [reflexivity|].
    destruct (live_row_of_row _ _ _ _ _ Hrow) as (_ & _ & _ & -> & _).
    exists wa, wc. exact Hrow.
Qed.

(** X9. The table of [get_live_trading_data] is ordered by total traded
    volume, the largest first, has no instrument twice, and has at most
    [limit] rows when [limit] is not negative. *)
Theorem live_table_by_volume :
  forall currency minutes_back limit w rows w',
    0 <= limit ->
    get_live_trading_data currency minutes_back limit w = (Return rows, w') ->
    StronglySorted (desc live_total_volume) rows /\
    NoDup (map live_instrument rows) /\
    (List.length rows <= Z.to_nat limit)%nat.
Proof.
  intros currency minutes_back limit w rows w' Hlimit Hrun.
  destruct (live_rows _ _ _ _ _ _ Hrun) as [->|(all_trades & Hrows)].
  { repeat split; [constructor | constructor | simpl; lia]. }
  destruct (instruments_sorted_by_volume all_trades limit Hlimit)
    as (Hsorted & Hlen & Hnd & _).
  assert (Hrel : Forall2 (fun x row => live_instrument row = fst x /\
                                        live_total_volume row = total_volume x)
                         (instruments_sorted all_trades limit) rows).
  { eapply Forall2_impl; [|exact Hrows].
    intros x row (w1 & w2 & Hrow).
    destruct (live_row_of_row _ _ _ _ _ Hrow) as (Hi & Hv & _). auto. }
  destruct (rows_follow_instruments _ _ Hrel Hsorted Hnd)
    as (Hs & Hn & Hl).
  repeat split; [exact Hs | exact Hn | lia].
Qed.

(** X10. In every row of the table the volatility is either absent, and
    then the four Greeks are absent too and the row has no tag, or a
    number strictly between 0 and 500, and then the four Greeks are
    present and the only error a row can carry is that of a library
    failure: never an invalid format, a date parse error or an invalid
    IV. *)
Theorem live_rows_sane :
  forall currency minutes_back limit w rows w' row,
    get_live_trading_data currency minutes_back limit w = (Return rows, w') ->
    In row rows ->
    (live_calculated_iv row = None /\
     live_delta row = None /\ live_gamma row = None /\
     live_vega row = None /\ live_theta row = None /\
     live_error row = None /\ live_expired row = None) \/
    (exists q d gm v th,
        live_calculated_iv row = Some (Finite q) /\
        (0 < q)%Q /\ (q < 500)%Q /\
        live_delta row = Some d /\ live_gamma row = Some gm /\
        live_vega row = Some v /\ live_theta row = Some th /\
        (live_error row = None \/
         exists e, live_error row
                   = Some ("Greeks calc error: " ++ str_of_exn e))).
Proof.
  intros currency minutes_back limit w rows w' row Hrun Hin.
  destruct (live_rows _ _ _ _ _ _ Hrun) as [->|(all_trades & Hrows)];
    [destruct Hin|].
  assert (exists x w1 w2,
             live_row_of (live_spot_price row) x w1 = (Return row, w2))
    as (x & w1 & w2 & Hrow).
  { clear Hrun. induction Hrows as [|x r xs rs Hr _ IH]; [destruct Hin|].
    destruct Hin as [->|Hin]; [|apply IH; exact Hin].
    destruct Hr as (w1 & w2 & Hr). exists x, w1, w2. exact Hr. }
  destruct (live_row_of_row _ _ _ _ _ Hrow) as (_ & _ & _ & _ & _ & H).
  exact H.
Qed.

End World.

(** The table of the sample trades: the put (volume 5), the call (3),
    the perpetual (1). *)
Lemma live_table_by_volume_witness :
  StronglySorted (desc live_total_volume) (Samples.rows_of Samples.sample_live_run) /\
  NoDup (map live_instrument (Samples.rows_of Samples.sample_live_run)) /\
  (List.length (Samples.rows_of Samples.sample_live_run) <= Z.to_nat 200)%nat.
Proof.
  refine (live_table_by_volume
            Samples.sample_world Samples.sample_index_price
            Samples.sample_get_trades Samples.sample_utcnow
            Samples.sample_now_utc Samples.sample_strftime
            Py.round Samples.sample_delta Samples.sample_gamma Samples.sample_vega
            Samples.sample_theta sample_solver
            "BTC" 60 200 0%nat
            (Samples.rows_of Samples.sample_live_run) 2%nat _ _).
  - lia.
  - vm_compute. reflexivity.
Defined.

(** The row of the put has a volatility of 5 and its four Greeks. *)
Lemma live_rows_sane_witness :
  (live_calculated_iv Samples.sample_live_row = None /\
   live_delta Samples.sample_live_row = None /\
   live_gamma Samples.sample_live_row = None /\
   live_vega Samples.sample_live_row = None /\
   live_theta Samples.sample_live_row = None /\
   live_error Samples.sample_live_row = None /\
   live_expired Samples.sample_live_row = None) \/
  (exists q d gm v th,
      live_calculated_iv Samples.sample_live_row = Some (Finite q) /\
      (0 < q)%Q /\ (q < 500)%Q /\
      live_delta Samples.sample_live_row = Some d /\
      live_gamma Samples.sample_live_row = Some gm /\
      live_vega Samples.sample_live_row = Some v /\
      live_theta Samples.sample_live_row = Some th /\
      (live_error Samples.sample_live_row = None \/
       exists e, live_error Samples.sample_live_row
                 = Some ("Greeks calc error: " ++ str_of_exn e))).
Proof.
  refine (live_rows_sane
            Samples.sample_world Samples.sample_index_price
            Samples.sample_get_trades Samples.sample_utcnow
            Samples.sample_now_utc Samples.sample_strftime
            Py.round Samples.sample_delta Samples.sample_gamma Samples.sample_vega
            Samples.sample_theta sample_solver
            "BTC" 60 200 0%nat
            (Samples.rows_of Samples.sample_live_run) 2%nat
            Samples.sample_live_row _ _).
  - vm_compute. reflexivity.
  - vm_compute. left. reflexivity.
Defined.

End LiveRowFacts.

(** ** [main.py]: failures of [get_live_trading_data] *)

Module LiveFailureFacts.
Import Py Datetime DataUtils PyList Exchange IO Main Notions.
Import PyListFacts IOFacts DataUtilsFacts LiveFacts LiveRowFacts.

(** In the embedding, where prices, amounts and the index price are
    floats, a raise of [get_live_trading_data] is the one of [float] on
    the third field of a traded name or the one of [fromtimestamp] on the
    timestamp of a last trade. *)
Lemma live_raises :
  forall world get_index_price get_last_trades_by_currency utcnow now_utc
         strftime round delta gamma vega theta implied_volatility
         currency minutes_back limit (w : world) e w',
    get_live_trading_data world get_index_price get_last_trades_by_currency
      utcnow now_utc strftime round delta gamma vega theta implied_volatility
      currency minutes_back limit w = (Raise e, w') ->
    e = float_error \/ e = ValueError "year is out of range".
Proof.
  intros world get_index_price get_last_trades_by_currency utcnow now_utc
         strftime round delta gamma vega theta implied_volatility
         currency minutes_back limit w e w'.
  unfold get_live_trading_data, iobind, perform, ret.
  destruct (get_index_price currency w) as [[spot|] w1]; [|discriminate].
  destruct (negb (nonzero spot)); [discriminate|].
  destruct (now_utc w1) as [now w2].
  destruct (get_last_trades_by_currency _ _ _ _ w2) as [[|t trades] w3];
    [discriminate|].
  intros H. apply for_each_raises in H
    as (x & results1 & wa & wb & Hin & Hbody).
  unfold iobind in Hbody.
  destruct (live_row_of _ _ _ _ _ _ _ _ _ spot x wa) as [[row|e1] wc] eqn:Hrow;
    [discriminate|].
  injection Hbody as <- <-.
  eapply live_row_of_raises; [|exact Hrow].
  unfold instruments_sorted in Hin. apply In_slice_to in Hin.
  eapply Permutation_in; [symmetry; apply sorted_desc_perm | exact Hin].
Qed.

(** X11. The averaging and the indexing of [get_live_trading_data] never
    fail: whatever the exchange answers, the function raises neither
    [ZeroDivisionError] nor [IndexError].  Every instrument of the
    grouping has a trade, so the plain average divides by a length of at
    least one and [prices[-1]] and [timestamps[-1]] exist; the weighted
    average is taken only when the total volume is above zero. *)
Theorem live_averaging_never_fails :
  forall world get_index_price get_last_trades_by_currency utcnow now_utc
         strftime round delta gamma vega theta implied_volatility
         currency minutes_back limit (w : world) e w',
    get_live_trading_data world get_index_price get_last_trades_by_currency
      utcnow now_utc strftime round delta gamma vega theta implied_volatility
      currency minutes_back limit w = (Raise e, w') ->
    exn_class e <> "ZeroDivisionError" /\ exn_class e <> "IndexError".
Proof.
  intros world get_index_price get_last_trades_by_currency utcnow now_utc
         strftime round delta gamma vega theta implied_volatility
         currency minutes_back limit w e w' H.
  apply live_raises in H. destruct H as [-> | ->]; split; discriminate.
Qed.

(** A trade on [XRP_USDC-27MAR26-0d54-C] among the sample trades: the
    run raises, and what it raises is the [ValueError] of [float]. *)
Lemma live_averaging_never_fails_witness :
  Samples.bad_live_run = (Raise float_error, 2%nat) /\
  exn_class float_error <> "ZeroDivisionError" /\
  exn_class float_error <> "IndexError".
Proof.
  assert (H : Samples.bad_live_run = (Raise float_error, 2%nat))
    by (vm_compute; reflexivity).
  split; [exact H|].
  exact (live_averaging_never_fails
           Samples.sample_world Samples.sample_index_price
           Samples.bad_get_trades Samples.sample_utcnow
           Samples.sample_now_utc Samples.sample_strftime
           Py.round Samples.sample_delta Samples.sample_gamma
           Samples.sample_vega Samples.sample_theta sample_solver
           "BTC" 60 200 0%nat float_error 2%nat H).
Defined.

End LiveFailureFacts.

(** ** [main.py]: the tables built from tickers *)

Module TickerTableFacts.
Import Py Datetime DataUtils PyList Exchange IO Main Notions.
Import PyListFacts IOFacts DataUtilsFacts LiveRowFacts.

Lemma stats_get_returns s key :
  s <> StatsNull -> exists v, stats_get s key = Return v.
Proof.
  intros H. destruct s; simpl;
    [eexists; reflexivity | congruence | eexists; reflexivity].
Qed.

Section World.

Variable world : Type.
Variable get_index_price : string -> world -> option Q * world.
Variable get_instruments : string -> bool -> world -> list string * world.
Variable get_ticker : string -> world -> option ticker * world.
Variable utcnow : world -> datetime * world.
Variable sleep : Q -> world -> world.
Variable round : pyfloat -> nat -> pyfloat.
Variables delta gamma vega theta :
  option_type -> pyfloat -> pyfloat -> pyfloat -> pyfloat -> pyfloat ->
  outcome pyfloat.

Local Notation "'current_row_of'" :=
  (Main.current_row_of world get_ticker utcnow sleep round delta gamma vega theta).
Local Notation "'get_current_options_data'" :=
  (Main.get_current_options_data world get_index_price get_instruments
     get_ticker utcnow sleep round delta gamma vega theta).
Local Notation "'snapshot_row_of'" :=
  (Main.snapshot_row_of world get_ticker utcnow sleep round delta gamma vega theta).
Local Notation "'snapshot_market'" :=
  (Main.snapshot_market world get_index_price get_instruments
     get_ticker utcnow sleep round delta gamma vega theta).
Local Notation "'calculate_greeks'" :=
  (DataUtils.calculate_greeks round delta gamma vega theta).

(** One turn of the loop of [get_current_options_data]. *)
Lemma current_row_of_turn spot name results w results' w' :
  current_row_of spot name results w = (Return results', w') ->
  results' = results \/
  exists row,
    results' = (results ++ [row])%list /\
    cur_instrument row = name /\ cur_spot_price row = spot /\
    exists now,
      calculate_greeks name (to_float spot) (option_map to_float (cur_iv row))
                       None now = Return (cur_greeks row).
Proof.
  unfold Main.current_row_of, iobind, perform, lift, with_clock, ret.
  destruct (get_ticker name w) as [[ticker|] w1];
    [|intros [= <- _]; left; reflexivity].
  destruct (stats_get _ _) as [volume_usd|e]; [|discriminate].
  destruct (utcnow w1) as [now w2].
  destruct (DataUtils.calculate_greeks _ _ _ _ _ _ _ _ _) as [g|e] eqn:Hg;
    [|discriminate].
  intros [= <- _]. right. eexists. split; [reflexivity|]. cbn.
  repeat split. exists now. exact Hg.
Qed.

(** X12. The table of [get_current_options_data] has its rows in the
    order of the instrument list, cut to [limit]: the instruments of the
    rows are a subsequence of [names[:limit]] (an instrument without a
    ticker has no row), so there are at most [limit] rows when [limit] is
    not negative; and the Greeks of each row are those
    [calculate_greeks] gives for the row's own instrument, spot price and
    [iv]. *)
Theorem current_table_rows :
  forall currency limit w rows w',
    get_current_options_data currency limit w = (Return rows, w') ->
    subsequence (map cur_instrument rows)
      (slice_to (fst (get_instruments currency false
                        (snd (get_index_price currency w)))) limit) /\
    (0 <= limit -> (List.length rows <= Z.to_nat limit)%nat) /\
    forall row, In row rows ->
      exists now,
        calculate_greeks (cur_instrument row) (to_float (cur_spot_price row))
                         (option_map to_float (cur_iv row)) None now
        = Return (cur_greeks row).
Proof.
  intros currency limit w rows w'.
  unfold Main.get_current_options_data, iobind, perform, ret.
  destruct (get_index_price currency w) as [[spot|] w1]; cbn [snd].
  2:{ intros [= <- _]. repeat split; [apply subsequence_nil_l | simpl; lia |].
      intros row []. }
  destruct (negb (nonzero spot)).
  { intros [= <- _]. repeat split; [apply subsequence_nil_l | simpl; lia |].
    intros row []. }
  destruct (get_instruments currency false w1) as [names w2]; cbn [fst].
  destruct names as [|n names].
  { intros [= <- _]. repeat split; [apply subsequence_nil_l | simpl; lia |].
    intros row []. }
  intros H.
  apply (for_each_rows
           (fun name row =>
              cur_instrument row = name /\
              exists now,
                calculate_greeks name (to_float (cur_spot_price row))
                  (option_map to_float (cur_iv row)) None now
                = Return (cur_greeks row))) in H.
  - destruct H as (picks & -> & Hsub & Hall). simpl.
    assert (Hnames : map cur_instrument (map snd picks) = map fst picks).
    { clear - Hall. induction Hall as [|p ps [E _] _ IH]; simpl;
        [reflexivity | rewrite E, IH; reflexivity]. }
    split; [rewrite Hnames; exact Hsub|]. split.
    + intros Hlimit. rewrite length_map, <- (length_map fst).
      apply subsequence_length in Hsub.
      pose proof (slice_to_length (n :: names) limit Hlimit). lia.
    + intros row Hin. apply in_map_iff in Hin as (p & <- & Hp).
      rewrite Forall_forall in Hall. destruct (Hall p Hp) as [E Hg].
      rewrite E. exact Hg.
  - clear. intros name results wa results' wb Hturn.
    destruct (current_row_of_turn _ _ _ _ _ _ Hturn)
      as [->|(row & -> & Hn & Hs & now & Hg)]; [left; reflexivity|].
    right. exists row. split; [reflexivity|]. split; [exact Hn|].
    exists now. rewrite Hs. exact Hg.
Qed.

(** One turn of the loop of [snapshot_market]. *)
Lemma snapshot_row_of_turn spot name results w results' w' :
  snapshot_row_of spot name results w = (Return results', w') ->
  results' = results \/
  exists row,
    results' = (results ++ [row])%list /\
    snap_instrument row = name /\
    snap_expiry row = nth_error (split "-" name) 1 /\
    snap_strike row = nth_error (split "-" name) 2 /\
    snap_type row = nth_error (split "-" name) 3 /\
    exists now,
      calculate_greeks name (to_float spot) (option_map to_float (snap_iv row))
                       None now = Return (snap_greeks row).
Proof.
  unfold Main.snapshot_row_of, iobind, perform, lift, with_clock, ret.
  destruct (get_ticker name w) as [[ticker|] w1];
    [|intros [= <- _]; left; reflexivity].
  destruct (stats_get _ (fun vu _ => vu)) as [volume_usd|e]; [|discriminate].
  destruct (stats_get _ (fun _ v => v)) as [volume|e]; [|discriminate].
  destruct (utcnow w1) as [now w2].
  destruct (DataUtils.calculate_greeks _ _ _ _ _ _ _ _ _) as [g|e] eqn:Hg;
    [|discriminate].
  intros [= <- _]. right. eexists. split; [reflexivity|]. cbn.
  repeat split. exists now. exact Hg.
Qed.

(** X14. In the table of [snapshot_market] the columns read off the name
    agree with the tag of the Greeks: a row is tagged
    ["Invalid instrument format"] exactly when its name does not have
    four dash-separated fields, and a row without that tag has its
    expiry, strike and type columns filled with the second, third and
    fourth field of the name.  The rows follow the instrument list,
    which is cut only by a [limit] that is neither [None] nor 0. *)
Theorem snapshot_table_rows :
  forall currency limit w rows w',
    snapshot_market currency limit w = (Return rows, w') ->
    subsequence (map snap_instrument rows)
      (limited (fst (get_instruments currency false
                       (snd (get_index_price currency w)))) limit) /\
    forall row, In row rows ->
      (key_error (snap_greeks row) = Some "Invalid instrument format"
       <-> List.length (split "-" (snap_instrument row)) <> 4%nat) /\
      (key_error (snap_greeks row) <> Some "Invalid instrument format" ->
       exists a b c d,
         split "-" (snap_instrument row) = [a; b; c; d] /\
         snap_expiry row = Some b /\ snap_strike row = Some c /\
         snap_type row = Some d).
Proof.
  intros currency limit w rows w'.
  unfold Main.snapshot_market, iobind, perform, ret.
  destruct (get_index_price currency w) as [[spot|] w1]; cbn [snd].
  2:{ intros [= <- _]. split; [apply subsequence_nil_l | intros row []]. }
  destruct (negb (nonzero spot)).
  { intros [= <- _]. split; [apply subsequence_nil_l | intros row []]. }
  destruct (get_instruments currency false w1) as [names w2]; cbn [fst].
  destruct names as [|n names].
  { intros [= <- _]. split; [apply subsequence_nil_l | intros row []]. }
  intros H.
  apply (for_each_rows
           (fun name row =>
              snap_instrument row = name /\
              snap_expiry row = nth_error (split "-" name) 1 /\
              snap_strike row = nth_error (split "-" name) 2 /\
              snap_type row = nth_error (split "-" name) 3 /\
              exists spot iv now,
                calculate_greeks name spot iv None now
                = Return (snap_greeks row))) in H.
  - destruct H as (picks & -> & Hsub & Hall). simpl.
    assert (Hnames : map snap_instrument (map snd picks) = map fst picks).
    { clear - Hall. induction Hall as [|p ps [E _] _ IH]; simpl;
        [reflexivity | rewrite E, IH; reflexivity]. }
    split; [rewrite Hnames; exact Hsub|].
    intros row Hin. apply in_map_iff in Hin as (p & <- & Hp).
    rewrite Forall_forall in Hall.
    destruct (Hall p Hp) as (E & He & Hs & Ht & sp & iv & now & Hg).
    rewrite E, He, Hs, Ht.
    pose proof (DataUtilsMore.invalid_format_tag _ _ _ _ _ _ _ _ _ _ _ Hg)
      as Htag.
    split; [exact Htag|].
    intros Hnot.
    destruct (Nat.eqb (List.length (split "-" (fst p))) 4) eqn:Hlen.
    + destruct (length_four _ Hlen) as (a & b & c & d & Hsplit).
      exists a, b, c, d. rewrite Hsplit. repeat split.
    + apply Nat.eqb_neq in Hlen. apply Htag in Hlen. contradiction.
  - clear. intros name results wa results' wb Hturn.
    destruct (snapshot_row_of_turn _ _ _ _ _ _ Hturn)
      as [->|(row & -> & Hn & He & Hs & Ht & now & Hg)]; [left; reflexivity|].
    right. exists row. split; [reflexivity|]. repeat split; try assumption.
    eauto.
Qed.

(** A name whose strike [float] rejects, once its ticker is there, ends
    the turn with an exception. *)
Lemma current_row_of_bad spot bad e results w :
  parse_instrument bad = StrikeError e ->
  (forall w, exists t w', get_ticker bad w = (Some t, w')) ->
  exists e' w', current_row_of spot bad results w = (Raise e', w').
Proof.
  intros Hbad Hticker.
  unfold Main.current_row_of, iobind, perform, lift, with_clock, ret.
  destruct (Hticker w) as (t & w1 & ->).
  destruct (stats_get _ _) as [volume_usd|e1]; [|eauto].
  destruct (utcnow w1) as [now w2].
  apply (calculate_greeks_raises_iff round delta gamma vega theta bad
           (to_float spot) (option_map to_float (dict_get (mark_iv t)))
           None now) in Hbad.
  rewrite Hbad. eauto.
Qed.

Lemma snapshot_row_of_bad spot bad e results w :
  parse_instrument bad = StrikeError e ->
  (forall w, exists t w', get_ticker bad w = (Some t, w')) ->
  exists e' w', snapshot_row_of spot bad results w = (Raise e', w').
Proof.
  intros Hbad Hticker.
  unfold Main.snapshot_row_of, iobind, perform, lift, with_clock, ret.
  destruct (Hticker w) as (t & w1 & ->).
  destruct (stats_get _ (fun vu _ => vu)) as [volume_usd|e1]; [|eauto].
  destruct (stats_get _ (fun _ v => v)) as [volume|e1]; [|eauto].
  destruct (utcnow w1) as [now w2].
  apply (calculate_greeks_raises_iff round delta gamma vega theta bad
           (to_float spot) (option_map to_float (dict_get (mark_iv t)))
           None now) in Hbad.
  rewrite Hbad. eauto.
Qed.

(** A loop with a turn that always raises does not return. *)
Lemma for_each_stops {R} (body : string -> R -> io world R) bad :
  (forall results w, exists e w', body bad results w = (Raise e, w')) ->
  forall l results w,
    In bad l -> exists e w', for_each body l results w = (Raise e, w').
Proof.
  intros Hbad. induction l as [|name l IH]; intros results w Hin;
    [destruct Hin|].
  cbn [for_each]. unfold iobind.
  destruct (body name results w) as [[results1|e1] w1] eqn:Hturn; [|eauto].
  destruct Hin as [->|Hin]; [|apply IH; exact Hin].
  destruct (Hbad results w) as (e & w' & He). congruence.
Qed.

(** X13. One bad name loses the whole table.  When the spot price and
    the instrument list are there, and one of the names processed has
    four fields and a third field that [float] rejects, and the request
    for its ticker is answered, [get_current_options_data] and
    [snapshot_market] return no table, not even the rows built before:
    an exception reaches the caller (the [ValueError] of [float], unless
    an earlier step raised). *)
Theorem bad_name_loses_table :
  forall currency limit snapshot_limit w spot w1 name names w2 bad e,
    get_index_price currency w = (Some spot, w1) ->
    nonzero spot = true ->
    get_instruments currency false w1 = (name :: names, w2) ->
    In bad (slice_to (name :: names) limit) ->
    In bad (limited (name :: names) snapshot_limit) ->
    parse_instrument bad = StrikeError e ->
    (forall w, exists t w', get_ticker bad w = (Some t, w')) ->
    (exists e' w', get_current_options_data currency limit w
                   = (Raise e', w')) /\
    (exists e' w', snapshot_market currency snapshot_limit w
                   = (Raise e', w')).
Proof.
  intros currency limit snapshot_limit w spot w1 name names w2 bad e
         Hspot Hnz Hnames Hin Hin' Hbad Hticker.
  split.
  - unfold Main.get_current_options_data, iobind, perform, ret.
    rewrite Hspot. cbv beta iota. rewrite Hnz. cbn [negb]. cbv beta iota.
    rewrite Hnames. cbv beta iota.
    apply (for_each_stops (current_row_of spot) bad); [|exact Hin].
    intros results wa. eapply current_row_of_bad; eauto.
  - unfold Main.snapshot_market, iobind, perform, ret.
    rewrite Hspot. cbv beta iota. rewrite Hnz. cbn [negb]. cbv beta iota.
    rewrite Hnames. cbv beta iota.
    apply (for_each_stops (snapshot_row_of spot) bad); [|exact Hin'].
    intros results wa. eapply snapshot_row_of_bad; eauto.
Qed.

End World.

(** The first three sample names: the put has no ticker, so two rows. *)
Lemma current_table_rows_witness :
  subsequence (map cur_instrument (Samples.rows_of Samples.sample_current_run))
              (slice_to Samples.sample_names 3) /\
  (0 <= 3 ->
   (List.length (Samples.rows_of Samples.sample_current_run)
    <= Z.to_nat 3)%nat) /\
  forall row, In row (Samples.rows_of Samples.sample_current_run) ->
    exists now,
      calculate_greeks Py.round Samples.sample_delta Samples.sample_gamma
                       Samples.sample_vega Samples.sample_theta
                       (cur_instrument row) (to_float (cur_spot_price row))
                       (option_map to_float (cur_iv row)) None now
      = Return (cur_greeks row).
Proof.
  refine (current_table_rows
            Samples.sample_world Samples.sample_index_price
            Samples.sample_instruments Samples.sample_get_ticker
            Samples.sample_utcnow Samples.sample_sleep
            Py.round Samples.sample_delta Samples.sample_gamma Samples.sample_vega
            Samples.sample_theta
            "BTC" 3 0%nat
            (Samples.rows_of Samples.sample_current_run) 5%nat _).
  vm_compute. reflexivity.
Defined.

(** With [XRP_USDC-27MAR26-0d54-C] second in the list, both tables are
    lost. *)
Lemma bad_name_loses_table_witness :
  (exists e w',
      get_current_options_data
        Samples.sample_world Samples.sample_index_price
        Samples.bad_instruments Samples.answering_ticker
        Samples.sample_utcnow Samples.sample_sleep
        Py.round Samples.sample_delta Samples.sample_gamma
        Samples.sample_vega Samples.sample_theta "BTC" 20 0%nat
      = (Raise e, w')) /\
  (exists e w',
      snapshot_market
        Samples.sample_world Samples.sample_index_price
        Samples.bad_instruments Samples.answering_ticker
        Samples.sample_utcnow Samples.sample_sleep
        Py.round Samples.sample_delta Samples.sample_gamma
        Samples.sample_vega Samples.sample_theta "BTC" None 0%nat
      = (Raise e, w')).
Proof.
  refine (bad_name_loses_table
            Samples.sample_world Samples.sample_index_price
            Samples.bad_instruments Samples.answering_ticker
            Samples.sample_utcnow Samples.sample_sleep
            Py.round Samples.sample_delta Samples.sample_gamma
            Samples.sample_vega Samples.sample_theta
            "BTC" 20 None 0%nat 90000%Q 1%nat
            "BTC-27MAR26-80000-C"
            ["XRP_USDC-27MAR26-0d54-C"; "BTC-27MAR26-90000-P"]
            2%nat "XRP_USDC-27MAR26-0d54-C" float_error
            eq_refl eq_refl eq_refl _ _ eq_refl _).
  - right. left. reflexivity.
  - right. left. reflexivity.
  - intros w. exists Samples.sample_ticker, (S w). reflexivity.
Defined.

(** The sample names, uncut: the perpetual is tagged and has no strike
    and no type. *)
Lemma snapshot_table_rows_witness :
  subsequence
    (map snap_instrument (Samples.rows_of Samples.sample_snapshot_run))
    (limited Samples.sample_names None) /\
  forall row, In row (Samples.rows_of Samples.sample_snapshot_run) ->
    (key_error (snap_greeks row) = Some "Invalid instrument format"
     <-> List.length (split "-" (snap_instrument row)) <> 4%nat) /\
    (key_error (snap_greeks row) <> Some "Invalid instrument format" ->
     exists a b c d,
       split "-" (snap_instrument row) = [a; b; c; d] /\
       snap_expiry row = Some b /\ snap_strike row = Some c /\
       snap_type row = Some d).
Proof.
  refine (snapshot_table_rows
            Samples.sample_world Samples.sample_index_price
            Samples.sample_instruments Samples.sample_get_ticker
            Samples.sample_utcnow Samples.sample_sleep
            Py.round Samples.sample_delta Samples.sample_gamma Samples.sample_vega
            Samples.sample_theta
            "BTC" None 0%nat
            (Samples.rows_of Samples.sample_snapshot_run) 6%nat _).
  vm_compute. reflexivity.
Defined.

End TickerTableFacts.

(** ** [main.py]: the day filter of [get_settlement_data] *)

Module SettlementFacts.
Import Py Datetime DataUtils PyList Exchange IO Main Notions.
Import StrptimeFacts.

(** A string read with ["%Y-%m-%d"] is the start of its day. *)
Lemma strptime_date_midnight s d :
  strptime s fmt_date = Return d ->
  hour d = 0 /\ minute d = 0 /\ second d = 0 /\ microsecond d = 0.
Proof.
  unfold strptime.
  destruct (run fmt_date s initial) as [[t [|c rest]]|] eqn:Hrun;
    try discriminate.
  intros H. apply check_fields_inv in H as (-> & _).
  pose proof (run_microsecond _ _ _ _ _ Hrun) as Hus.
  apply run_time_of_day in Hrun as (Hh & Hmi & Hse); [|reflexivity].
  auto.
Qed.

(** For a date string read as the day [d], the search starts at
    08:00:00 UTC of [d], and a settlement is kept exactly when its
    timestamp lies from 24 hours before 00:00:00 UTC of [d] up to, but not
    including, 48 hours after it. *)
Lemma settlement_kept_window :
  forall s d,
    strptime s fmt_date = Return d ->
    settlement_search_start s = Return (midnight_ms d + 8 * 3600 * 1000) /\
    forall ms,
      in_datetime_range (ms * 1000) = true ->
      exists kept,
        settlement_kept (Some s) ms = Return (kept, ms * 1000) /\
        (kept = true <-> -86400000 <= ms - midnight_ms d < 172800000).
Proof.
  intros s d Hd.
  destruct (strptime_date_midnight _ _ Hd) as (Hh & Hmi & Hse & Hus).
  assert (Hgiven : given (Some s) = Some s).
  { destruct s; [discriminate Hd | reflexivity]. }
  split.
  - unfold settlement_search_start. rewrite Hd. cbn [bind].
    unfold timestamp_ms, instant_of, toordinal, midnight_ms, toordinal,
      MICROS_PER_DAY.
    cbn [year month day hour minute second microsecond]. rewrite Hus.
    f_equal.
    set (o := _ymd2ord (year d) (month d) (day d) - EPOCH_ORDINAL).
    symmetry. apply Z.quot_unique_exact; lia.
  - intros ms Hrange.
    unfold settlement_kept, fromtimestamp_utc. rewrite Hrange, Hgiven, Hd.
    cbn [bind]. eexists. split; [reflexivity|].
    unfold days_between, instant_of, midnight_ms, MICROS_PER_DAY.
    rewrite Hh, Hmi, Hse, Hus.
    set (o := toordinal d - EPOCH_ORDINAL).
    rewrite negb_true_iff, Z.ltb_ge.
    split; intros H; Z.div_mod_to_equations; lia.
Qed.

Section World.

Variable world : Type.
Variable get_last_settlements_by_currency :
  string -> Z -> Z -> world -> option (list settlement) * world.
Variable now_utc : world -> Z * world.
Variable strftime : Z -> string -> string.
Variable sort_values_desc : list settlement_row -> list settlement_row.

Local Notation "'settlement_row_of'" :=
  (Main.settlement_row_of world strftime).
Local Notation "'get_settlement_data'" :=
  (Main.get_settlement_data world get_last_settlements_by_currency now_utc
     strftime sort_values_desc).

Lemma settlement_loop s d l :
  strptime s fmt_date = Return d ->
  Forall (fun x => in_datetime_range (settlement_timestamp x * 1000) = true)
         l ->
  forall results w,
  exists new,
    for_each (settlement_row_of (Some s)) l results w
    = (Return (results ++ new)%list, w) /\
    Forall2 (row_of_settlement strftime) (filter (in_day_window d) l) new.
Proof.
  intros Hd Hl. destruct (settlement_kept_window _ _ Hd) as [_ Hkept].
  induction Hl as [|x l Hx Hl IH]; intros results w.
  - exists []. cbn [for_each filter]. unfold ret. rewrite app_nil_r.
    split; [reflexivity | constructor].
  - cbn [for_each filter]. unfold iobind.
    destruct (Hkept _ Hx) as (kept & Hk & Hiff).
    unfold Main.settlement_row_of at 1. unfold iobind, lift. rewrite Hk.
    cbn [fst snd].
    assert (Ew : in_day_window d x = kept).
    { unfold in_day_window. destruct kept.
      - destruct (proj1 Hiff eq_refl) as [H1 H2].
        apply andb_true_iff. split; [apply Z.leb_le | apply Z.ltb_lt];
          assumption.
      - apply not_true_is_false. intros H.
        apply andb_true_iff in H as [H1 H2].
        apply Z.leb_le in H1. apply Z.ltb_lt in H2.
        assert (false = true) by (apply Hiff; lia). discriminate. }
    rewrite Ew. destruct kept; unfold ret.
    + match goal with
      | |- context [for_each _ l (results ++ [?r])%list w] =>
          destruct (IH (results ++ [r])%list w) as (new & -> & Hnew);
          exists (r :: new)
      end.
      rewrite <- app_assoc. split; [reflexivity|].
      constructor; [|exact Hnew].
      unfold row_of_settlement. cbn. repeat split.
    + destruct (IH results w) as (new & -> & Hnew). exists new.
      split; [reflexivity | exact Hnew].
Qed.

(** X15. The day filter of [get_settlement_data] is not symmetric.
    Called with a date string read as the day [d], it asks the exchange
    for 1000 settlements from 08:00:00 UTC of [d], and its table has one
    row, in the order of the answer and before the final sort, for each
    settlement whose timestamp lies from 24 hours before 00:00:00 UTC of
    [d] up to, but not including, 48 hours after it: [abs] of a
    difference in whole days rounded down lets the whole day after the
    next through.  The table is sorted only when it has a row. *)
Theorem settlement_table_day_window :
  forall currency s d days_back w l w1,
    strptime s fmt_date = Return d ->
    get_last_settlements_by_currency
      currency (midnight_ms d + 8 * 3600 * 1000) 1000 w = (Some l, w1) ->
    Forall (fun x => in_datetime_range (settlement_timestamp x * 1000) = true)
           l ->
    exists results,
      get_settlement_data currency (Some s) days_back w
      = (Return (match results with
                 | [] => []
                 | _ :: _ => sort_values_desc results
                 end), w1) /\
      Forall2 (row_of_settlement strftime) (filter (in_day_window d) l) results.
Proof.
  intros currency s d days_back w l w1 Hd Hget Hl.
  destruct (settlement_kept_window _ _ Hd) as [Hstart _].
  assert (Hgiven : given (Some s) = Some s).
  { destruct s; [discriminate Hd | reflexivity]. }
  destruct (settlement_loop s d l Hd Hl [] w1) as (new & Hloop & Hnew).
  exists new. split; [|exact Hnew].
  unfold Main.get_settlement_data. rewrite Hgiven.
  unfold iobind at 1. unfold lift. rewrite Hstart.
  unfold iobind at 1. unfold perform. rewrite Hget.
  unfold iobind. rewrite Hloop. cbn [app]. destruct new; reflexivity.
Qed.

End World.

(** For 26 January 2026 the settlements of the 27th, the 26th and the
    25th are kept, those of the 28th and the 24th are not. *)
Lemma settlement_table_day_window_witness :
  exists results,
    get_settlement_data Samples.sample_world Samples.sample_get_settlements
      Samples.sample_now_utc Samples.sample_strftime Samples.sample_sort
      "BTC" (Some "2026-01-26") 90 0%nat
    = (Return (match results with
               | [] => []
               | _ :: _ => Samples.sample_sort results
               end), 1%nat) /\
    Forall2 (row_of_settlement Samples.sample_strftime)
            (filter (in_day_window (mk_datetime 2026 1 26 0 0 0 0))
                    Samples.sample_settlements)
            results.
Proof.
  refine (settlement_table_day_window
            Samples.sample_world Samples.sample_get_settlements
            Samples.sample_now_utc Samples.sample_strftime
            Samples.sample_sort
            "BTC" "2026-01-26" (mk_datetime 2026 1 26 0 0 0 0) 90 0%nat
            Samples.sample_settlements 1%nat eq_refl eq_refl _).
  repeat constructor.
Defined.

End SettlementFacts.

(** ** The calendar: differences and order of date-times *)

Module CalendarFacts.
Import Py Datetime DataUtils Notions StrptimeFacts DataUtilsFacts.

Lemma days_before_year_step y :
  _days_before_year (y + 1) = _days_before_year y + 365 + leap_day y.
Proof.
  unfold _days_before_year, leap_day, _is_leap.
  replace (y + 1 - 1) with y by lia.
  destruct (Z.eqb_spec (y mod 4) 0); destruct (Z.eqb_spec (y mod 100) 0);
    destruct (Z.eqb_spec (y mod 400) 0); cbn [negb andb orb];
    Z.div_mod_to_equations; lia.
Qed.

Lemma days_before_year_mono y y' :
  y <= y' -> _days_before_year y <= _days_before_year y'.
Proof.
  intros H. unfold _days_before_year. Z.div_mod_to_equations. lia.
Qed.

(** Table entries and tests on literals, computed. *)
Ltac table_values :=
  repeat match goal with
  | |- context [nth (Z.to_nat ?m) ?l ?d] =>
      let v := eval vm_compute in (nth (Z.to_nat m) l d) in
      change (nth (Z.to_nat m) l d) with v
  | H : context [nth (Z.to_nat ?m) ?l ?d] |- _ =>
      let v := eval vm_compute in (nth (Z.to_nat m) l d) in
      change (nth (Z.to_nat m) l d) with v in H
  | |- context [Z.eqb ?a 2] =>
      let v := eval vm_compute in (Z.eqb a 2) in
      change (Z.eqb a 2) with v
  | H : context [Z.eqb ?a 2] |- _ =>
      let v := eval vm_compute in (Z.eqb a 2) in
      change (Z.eqb a 2) with v in H
  | |- context [Z.ltb 2 ?a] =>
      let v := eval vm_compute in (Z.ltb 2 a) in
      change (Z.ltb 2 a) with v
  | H : context [Z.ltb 2 ?a] |- _ =>
      let v := eval vm_compute in (Z.ltb 2 a) in
      change (Z.ltb 2 a) with v in H
  end;
  cbn [andb] in *.

Ltac each_month m :=
  let H := fresh in
  assert (H : m = 1 \/ m = 2 \/ m = 3 \/ m = 4 \/ m = 5 \/ m = 6 \/ m = 7
              \/ m = 8 \/ m = 9 \/ m = 10 \/ m = 11 \/ m = 12) by lia;
  repeat (destruct H as [H|H]); subst m.

(** The day of the year of a date lies within its year. *)
Lemma day_of_year_bounds y m d :
  1 <= m <= 12 -> 1 <= d <= _days_in_month y m ->
  1 <= _days_before_month y m + d <= 365 + leap_day y.
Proof.
  intros Hm Hd. unfold leap_day.
  each_month m; unfold _days_before_month, _days_in_month in *;
    table_values; destruct (_is_leap y); lia.
Qed.

Lemma day_of_year_mono y m d m' d' :
  1 <= m -> m < m' -> m' <= 12 ->
  1 <= d <= _days_in_month y m -> 1 <= d' ->
  _days_before_month y m + d < _days_before_month y m' + d'.
Proof.
  intros Hm Hlt Hm' Hd Hd'.
  assert (Hmm : 1 <= m <= 12) by lia. assert (Hmm' : 1 <= m' <= 12) by lia.
  each_month m; each_month m'; try lia;
    unfold _days_before_month, _days_in_month in *;
    table_values; destruct (_is_leap y); lia.
Qed.

(** The ordinal of a date grows with the date. *)
Lemma ordinal_order (a b : datetime) :
  valid_datetime a -> valid_datetime b ->
  (year a < year b -> toordinal a < toordinal b) /\
  (year a = year b -> month a < month b -> toordinal a < toordinal b) /\
  (year a = year b -> month a = month b ->
   toordinal a - toordinal b = day a - day b).
Proof.
  intros (Hya & Hma & Hda & _) (Hyb & Hmb & Hdb & _).
  unfold toordinal, _ymd2ord.
  pose proof (day_of_year_bounds _ _ _ Hma Hda) as Ba.
  pose proof (day_of_year_bounds _ _ _ Hmb Hdb) as Bb.
  split; [|split].
  - intros Hlt.
    pose proof (days_before_year_step (year a)) as Hstep.
    pose proof (days_before_year_mono (year a + 1) (year b) ltac:(lia)).
    lia.
  - intros Ey Hlt. rewrite Ey in *.
    pose proof (day_of_year_mono (year b) (month a) (day a) (month b) (day b)
                  ltac:(lia) Hlt ltac:(lia) Hda ltac:(lia)).
    lia.
  - intros Ey Em. rewrite Ey, Em. lia.
Qed.

(** The sign of a difference is the calendar order. *)
Lemma sub_micros_order (a b : datetime) :
  valid_datetime a -> valid_datetime b ->
  (sub_micros a b <= 0 <-> datetime_leb a b = true).
Proof.
  intros Ha Hb.
  destruct (ordinal_order a b Ha Hb) as (Oy & Om & Od).
  destruct (ordinal_order b a Hb Ha) as (Oy' & Om' & _).
  destruct Ha as (_ & _ & _ & Hha & Hmia & Hsa & Husa).
  destruct Hb as (_ & _ & _ & Hhb & Hmib & Hsb & Husb).
  unfold sub_micros, datetime_leb, datetime_fields.
  cbn [lex_leb].
  set (oa := toordinal a) in *. set (ob := toordinal b) in *.
  destruct (Z.ltb_spec (year a) (year b)) as [Y|Y]; cbn [orb].
  { specialize (Oy Y). split; [reflexivity | intros _; lia]. }
  destruct (Z.eqb_spec (year a) (year b)) as [Ey|Ey]; cbn [andb].
  2:{ assert (Y' : year b < year a) by lia. specialize (Oy' Y').
      split; [intros; lia | discriminate]. }
  destruct (Z.ltb_spec (month a) (month b)) as [M|M]; cbn [orb].
  { specialize (Om Ey M). split; [reflexivity | intros _; lia]. }
  destruct (Z.eqb_spec (month a) (month b)) as [Em|Em]; cbn [andb].
  2:{ assert (M' : month b < month a) by lia.
      specialize (Om' (eq_sym Ey) M').
      split; [intros; lia | discriminate]. }
  specialize (Od Ey Em).
  destruct (Z.ltb_spec (day a) (day b)) as [D|D]; cbn [orb].
  { split; [reflexivity | intros _; lia]. }
  destruct (Z.eqb_spec (day a) (day b)) as [Ed|Ed]; cbn [andb].
  2:{ split; [intros; lia | discriminate]. }
  destruct (Z.ltb_spec (hour a) (hour b)) as [Hh|Hh]; cbn [orb].
  { split; [reflexivity | intros _; lia]. }
  destruct (Z.eqb_spec (hour a) (hour b)) as [Eh|Eh]; cbn [andb].
  2:{ split; [intros; lia | discriminate]. }
  destruct (Z.ltb_spec (minute a) (minute b)) as [Hm|Hm]; cbn [orb].
  { split; [reflexivity | intros _; lia]. }
  destruct (Z.eqb_spec (minute a) (minute b)) as [Emi|Emi]; cbn [andb].
  2:{ split; [intros; lia | discriminate]. }
  destruct (Z.ltb_spec (second a) (second b)) as [Hs|Hs]; cbn [orb].
  { split; [reflexivity | intros _; lia]. }
  destruct (Z.eqb_spec (second a) (second b)) as [Es|Es]; cbn [andb].
  2:{ split; [intros; lia | discriminate]. }
  destruct (Z.ltb_spec (microsecond a) (microsecond b)) as [Hu|Hu]; cbn [orb].
  { split; [reflexivity | intros _; lia]. }
  destruct (Z.eqb_spec (microsecond a) (microsecond b)) as [Eu|Eu];
    cbn [andb].
  - split; [reflexivity | intros _; lia].
  - split; [intros; lia | discriminate].
Qed.

(** *** What [strptime] returns is a date of the calendar *)

Lemma digit_in_range lo hi c v : digit_in lo hi c = Some v -> lo <= v <= hi.
Proof.
  unfold digit_in. destruct (digit_val c) as [x|]; [|discriminate].
  destruct ((lo <=? x) && (x <=? hi)) eqn:E; [|discriminate].
  intros [= <-]. apply andb_true_iff in E as (E1 & E2). lia.
Qed.

Lemma one_range lo hi s v r : In (v, r) (one lo hi s) -> lo <= v <= hi.
Proof.
  destruct s as [|a s]; cbn [one]; [intros []|].
  destruct (digit_in lo hi a) eqn:E; [|intros []].
  intros [[= <- _]|[]]. eapply digit_in_range; eauto.
Qed.

Lemma two_range lo1 hi1 lo2 hi2 s v r :
  In (v, r) (two lo1 hi1 lo2 hi2 s) ->
  10 * lo1 + lo2 <= v <= 10 * hi1 + hi2.
Proof.
  destruct s as [|a s]; cbn [two]; [intros []|].
  destruct (digit_in lo1 hi1 a) eqn:E; [|intros []].
  intros H. apply in_map_iff in H as ([y r'] & Hv & Hin).
  assert (Hv' : 10 * z + y = v) by congruence.
  apply one_range in Hin. apply digit_in_range in E. lia.
Qed.

Lemma space_digit_range s v r : In (v, r) (space_digit s) -> 1 <= v <= 9.
Proof.
  destruct s as [|a s]; cbn [space_digit]; [intros []|].
  destruct (Ascii.eqb a " "); [apply one_range | intros []].
Qed.

Lemma month_alts_range names : forall idx s v r,
  In (v, r) (month_alts names idx s) ->
  idx <= v < idx + Z.of_nat (List.length names).
Proof.
  induction names as [|name names IH]; intros idx s v r; cbn [month_alts];
    [intros []|].
  cbn [List.length]. destruct (ci_prefix name s).
  - intros [[= <- _]|H]; [lia|]. apply IH in H. lia.
  - intros H. apply IH in H. lia.
Qed.

Lemma set_field_read d s v r t :
  In (v, r) (alts d s) -> fields_read t -> fields_read (set_field d v t).
Proof.
  unfold fields_read.
  destruct d; cbn [alts set_field year month day hour minute second
                   microsecond];
    intros Hin Ht; try exact Ht;
    repeat (apply in_app_or in Hin as [Hin|Hin]);
    try (apply two_range in Hin); try (apply one_range in Hin);
    try (apply space_digit_range in Hin);
    try (apply month_alts_range in Hin; cbn in Hin);
    lia.
Qed.

Lemma run_fields_read ds : forall s t t' rest,
  run ds s t = Some (t', rest) -> fields_read t -> fields_read t'.
Proof.
  induction ds as [|d ds IH]; intros s t t' rest; cbn [run].
  - intros [= <- _]. auto.
  - intros H Ht. apply first_success_some in H as ([v r] & Hin & Hk).
    cbn [fst snd] in Hk. eapply IH; [exact Hk|].
    eapply set_field_read; eauto.
Qed.

Lemma check_fields_second t t' :
  check_fields t = Return t' -> second t <= 59.
Proof.
  unfold check_fields.
  destruct (negb _); [discriminate|]. destruct (negb _); [discriminate|].
  destruct (Z.leb_spec (second t) 59); [auto | discriminate].
Qed.

(** Whatever the format, a date-time [strptime] returns has its fields
    in the ranges of the calendar. *)
Lemma strptime_valid s format t :
  strptime s format = Return t -> valid_datetime t.
Proof.
  unfold strptime.
  destruct (run format s initial) as [[t0 [|c rest]]|] eqn:Hrun;
    try discriminate.
  intros H. pose proof (check_fields_second _ _ H) as Hs.
  apply check_fields_inv in H as (-> & Hy & Hd).
  apply run_fields_read in Hrun as (Hm & Hh & Hmi & Hse & Hus).
  2:{ unfold fields_read, initial; cbn; lia. }
  apply andb_true_iff in Hy as (Hy1 & Hy2).
  apply andb_true_iff in Hd as (Hd1 & Hd2).
  unfold valid_datetime. repeat split; lia.
Qed.

Lemma now_of_valid snapshot_date_str utcnow now :
  valid_datetime utcnow -> now_of snapshot_date_str utcnow = Return now ->
  valid_datetime now.
Proof.
  intros Hu. unfold now_of.
  destruct snapshot_date_str as [[|a s]|]; try (intros [= <-]; exact Hu).
  destruct (contains " " (String a s)); apply strptime_valid.
Qed.

Lemma parse_instrument_valid instrument strike ty expiry_dt :
  parse_instrument instrument = Parsed strike ty expiry_dt ->
  valid_datetime expiry_dt.
Proof.
  unfold parse_instrument. destruct (negb _); [discriminate|].
  destruct (float _); [|discriminate].
  destruct (strptime _ fmt_expiry) eqn:E; [|discriminate].
  intros [= _ _ <-]. eapply strptime_valid; eauto.
Qed.

Lemma le0_total_seconds a b :
  le0 (total_seconds a b) = true <-> sub_micros a b <= 0.
Proof.
  unfold total_seconds. cbn [le0]. rewrite Qle_bool_iff.
  assert (E : (Qred (sub_micros a b # 1000000) == sub_micros a b # 1000000)%Q)
    by apply Qred_correct.
  rewrite E. unfold Qle. cbn [Qnum Qden]. lia.
Qed.

Section Valuation.

Variable round : pyfloat -> nat -> pyfloat.
Variables delta gamma vega theta :
  option_type -> pyfloat -> pyfloat -> pyfloat -> pyfloat -> pyfloat ->
  outcome pyfloat.
Variable implied_volatility :
  pyfloat -> pyfloat -> pyfloat -> pyfloat -> pyfloat -> option_type ->
  outcome pyfloat.

Local Notation "'calculate_greeks'" :=
  (DataUtils.calculate_greeks round delta gamma vega theta).
Local Notation "'calculate_iv_from_price'" :=
  (DataUtils.calculate_iv_from_price implied_volatility).
Local Notation "'greeks_at'" := (DataUtils.greeks_at round delta gamma vega theta).

(** Past the expiry check, the dictionary has no ["expired"] key. *)
Lemma greeks_at_not_expired ty spot_price strike t iv g :
  greeks_at ty spot_price strike t iv = Return g -> key_expired g = None.
Proof.
  unfold DataUtils.greeks_at. destruct iv as [x|]; [|intros [= <-]; reflexivity].
  destruct (invalid_iv (Some x)); [intros [= <-]; reflexivity|].
  unfold DataUtils.rounded_greeks.
  destruct (delta _ _ _ _ _ _); cbn [bind try_except];
    [|intros [= <-]; reflexivity].
  destruct (gamma _ _ _ _ _ _); cbn [bind try_except];
    [|intros [= <-]; reflexivity].
  destruct (vega _ _ _ _ _ _); cbn [bind try_except];
    [|intros [= <-]; reflexivity].
  destruct (theta _ _ _ _ _ _); cbn [bind try_except];
    intros [= <-]; reflexivity.
Qed.

(** X16. The expiry test, done on a difference of ordinals and seconds,
    is the order of the calendar.  For a name that parses, with the clock
    showing a date-time of the calendar, [calculate_greeks] returns the
    expired dictionary exactly when the expiry instant (08:00:00 of the
    expiry date) is not later than the observation instant, comparing
    year, month, day, hour, minute, second and microsecond in that order;
    and [calculate_iv_from_price] then returns [None]. *)
Theorem expired_is_calendar_order :
  forall instrument spot_price iv option_price snapshot_date_str utcnow
         strike ty expiry_dt now,
    valid_datetime utcnow ->
    parse_instrument instrument = Parsed strike ty expiry_dt ->
    now_of snapshot_date_str utcnow = Return now ->
    (calculate_greeks instrument spot_price iv snapshot_date_str utcnow
     = Return zeroed_expired
     <-> datetime_leb expiry_dt now = true) /\
    (datetime_leb expiry_dt now = true ->
     calculate_iv_from_price instrument spot_price option_price
                             snapshot_date_str utcnow = Return None).
Proof.
  intros instrument spot_price iv option_price snapshot_date_str utcnow
         strike ty expiry_dt now Hu Hp Hn.
  pose proof (parse_instrument_valid _ _ _ _ Hp) as He.
  pose proof (now_of_valid _ _ _ Hu Hn) as Hnow.
  pose proof (sub_micros_order _ _ He Hnow) as Hord.
  pose proof (le0_total_seconds expiry_dt now) as Hle.
  rewrite calculate_greeks_parsed, calculate_iv_from_price_parsed, Hp, Hn.
  destruct (le0 (total_seconds expiry_dt now)).
  - split; [|reflexivity].
    split; [intros _; apply Hord, Hle; reflexivity | reflexivity].
  - split.
    + split.
      * intros H. apply greeks_at_not_expired in H. discriminate.
      * intros H. apply Hord, Hle in H. discriminate.
    + intros H. apply Hord, Hle in H. discriminate.
Qed.

End Valuation.

(** On the clock of June 2026 the call of 27 March 2026 is expired:
    2026-03-27 08:00:00 is before 2026-06-01 00:00:00. *)
Lemma expired_is_calendar_order_witness :
  (calculate_greeks Py.round Samples.sample_delta Samples.sample_gamma
                    Samples.sample_vega Samples.sample_theta
                    "BTC-27MAR26-80000-C" (of_Z 90000) (Some (Finite 55))
                    None june_2026
   = Return zeroed_expired
   <-> datetime_leb (mk_datetime 2026 3 27 8 0 0 0) june_2026 = true) /\
  (datetime_leb (mk_datetime 2026 3 27 8 0 0 0) june_2026 = true ->
   calculate_iv_from_price sample_solver
                           "BTC-27MAR26-80000-C" (of_Z 90000)
                           (Finite (1 # 10)) None june_2026
   = Return None).
Proof.
  refine (expired_is_calendar_order
            Py.round Samples.sample_delta Samples.sample_gamma Samples.sample_vega
            Samples.sample_theta sample_solver
            "BTC-27MAR26-80000-C" (of_Z 90000) (Some (Finite 55))
            (Finite (1 # 10)) None june_2026
            (of_Z 80000) call (mk_datetime 2026 3 27 8 0 0 0) june_2026
            _ eq_refl eq_refl).
  unfold valid_datetime, june_2026.
  cbn [year month day hour minute second microsecond].
  change (_days_in_month 2026 6) with 30. lia.
Defined.

End CalendarFacts.
